(** * Industrial water softener sizer: the twelve-step calculation

    A shallow embedding of the [calculated] memo of the single-page
    calculator (the [App] component), of its helpers [parseInputNumber],
    [isPositive], [formatNumber] and [formatResult], of its state update
    [updateField], and of what its step cards, its summary and its switches
    do with them.  JavaScript numbers are IEEE 754 binary64 values, so
    they are modelled by Rocq's primitive floats, whose operations are the
    same correctly rounded binary64 operations; [null] is [None].

    The file has four parts: the component as the source writes it; a model
    of the built-in conversion of strings to numbers, for concrete inputs;
    the monotonicity of binary64 rounding, from the specification of the
    primitive floats; and the properties of the calculator. *)

From Stdlib Require Import ZArith QArith Qabs Reals Lra Floats String Ascii List Bool Lia.
Import ListNotations.

#[local] Set Warnings "-inexact-float".
#[local] Open Scope string_scope.
#[local] Open Scope float_scope.

(** ** Form state *)

(** [type HardnessUnit = "mg/L (ppm) as CaCO3" | "grains per gallon (gpg)"] *)
Inductive HardnessUnit : Set :=
| PpmAsCaCO3
| GrainsPerGallon.

(** [type SaltDose = 6 | 8 | 10 | 12 | 15] *)
Inductive SaltDose : Set :=
| Dose6
| Dose8
| Dose10
| Dose12
| Dose15.

(** The number a salt dose stands for. *)
Definition saltDoseValue (d : SaltDose) : float :=
  match d with
  | Dose6 => 6
  | Dose8 => 8
  | Dose10 => 10
  | Dose12 => 12
  | Dose15 => 15
  end.

(** [const CAPACITY_BY_SALT_DOSE: Record<SaltDose, number>] *)
Definition CAPACITY_BY_SALT_DOSE (d : SaltDose) : float :=
  match d with
  | Dose6 => 20000
  | Dose8 => 22500
  | Dose10 => 25000
  | Dose12 => 27500
  | Dose15 => 30000
  end.

Definition SALT_DOSES : list SaltDose := [Dose6; Dose8; Dose10; Dose12; Dose15].

Module FormValues.
(** [type FormValues]: the numeric fields hold the raw text of the inputs. *)
Record t : Set := mk {
  hardnessValue : string;
  hardnessUnits : HardnessUnit;
  useCompensation : bool;
  ironPpm : string;
  manganesePpm : string;
  gallonsPerDay : string;
  daysBetweenRegen : string;
  reservePercent : string;
  saltDose : SaltDose;
  overrideCapacity : bool;
  overrideCapacityValue : string;
  saltDissolutionFactor : string;
  peakFlowGpm : string;
  serviceLoadingRate : string;
  backwashRate : string
}.
End FormValues.

Definition DEFAULT_VALUES : FormValues.t :=
  {| FormValues.hardnessValue := "";
     FormValues.hardnessUnits := PpmAsCaCO3;
     FormValues.useCompensation := false;
     FormValues.ironPpm := "0";
     FormValues.manganesePpm := "0";
     FormValues.gallonsPerDay := "";
     FormValues.daysBetweenRegen := "";
     FormValues.reservePercent := "15";
     FormValues.saltDose := Dose8;
     FormValues.overrideCapacity := false;
     FormValues.overrideCapacityValue := "";
     FormValues.saltDissolutionFactor := "3";
     FormValues.peakFlowGpm := "";
     FormValues.serviceLoadingRate := "7";
     FormValues.backwashRate := "7" |}.

(** ** Strings and parsing *)

(** A JavaScript string is modelled by its UTF-8 encoding, one [ascii] for
    each byte.  [String.prototype.trim] and [Number] strip white space and
    line terminators: U+0009 to U+000D, U+0020, U+00A0, U+1680, U+2000 to
    U+200A, U+2028, U+2029, U+202F, U+205F, U+3000 and U+FEFF.  In UTF-8
    the first six are one byte, U+00A0 is two bytes and the others are
    three; the first byte tells the length. *)

(** White space of one byte: U+0009 to U+000D and U+0020. *)
Definition isWhiteSpace (c : ascii) : bool :=
  let n := N_of_ascii c in
  ((9 <=? n) && (n <=? 13) || (n =? 32))%N.

(** White space of two bytes: U+00A0, which is [C2 A0]. *)
Definition isWhiteSpace2 (c1 c2 : ascii) : bool :=
  ((N_of_ascii c1 =? 194) && (N_of_ascii c2 =? 160))%N.

(** White space of three bytes: U+1680 is [E1 9A 80]; U+2000 to U+200A are
    [E2 80 80] to [E2 80 8A]; U+2028, U+2029 and U+202F are [E2 80 A8],
    [E2 80 A9] and [E2 80 AF]; U+205F is [E2 81 9F]; U+3000 is [E3 80 80];
    U+FEFF is [EF BB BF]. *)
Definition isWhiteSpace3 (c1 c2 c3 : ascii) : bool :=
  let n1 := N_of_ascii c1 in
  let n2 := N_of_ascii c2 in
  let n3 := N_of_ascii c3 in
  ((n1 =? 225) && (n2 =? 154) && (n3 =? 128) ||
   (n1 =? 226) && (n2 =? 128) &&
     ((128 <=? n3) && (n3 <=? 138) || (n3 =? 168) || (n3 =? 169) || (n3 =? 175)) ||
   (n1 =? 226) && (n2 =? 129) && (n3 =? 159) ||
   (n1 =? 227) && (n2 =? 128) && (n3 =? 128) ||
   (n1 =? 239) && (n2 =? 187) && (n3 =? 191))%N.

(** Drops the white space a string starts with. *)
Fixpoint trimStart (s : string) : string :=
  match s with
  | EmptyString => EmptyString
  | String c1 s1 =>
      if isWhiteSpace c1 then trimStart s1
      else
        match s1 with
        | EmptyString => s
        | String c2 s2 =>
            if isWhiteSpace2 c1 c2 then trimStart s2
            else
              match s2 with
              | EmptyString => s
              | String c3 s3 => if isWhiteSpace3 c1 c2 c3 then trimStart s3 else s
              end
        end
  end.

(** A string of white space only; the empty string is one. *)
Fixpoint allWhiteSpace (s : string) : bool :=
  match s with
  | EmptyString => true
  | String c1 s1 =>
      if isWhiteSpace c1 then allWhiteSpace s1
      else
        match s1 with
        | EmptyString => false
        | String c2 s2 =>
            if isWhiteSpace2 c1 c2 then allWhiteSpace s2
            else
              match s2 with
              | EmptyString => false
              | String c3 s3 => isWhiteSpace3 c1 c2 c3 && allWhiteSpace s3
              end
        end
  end.

(** Drops the white space a string ends with: its longest suffix of white
    space only.  A suffix that starts inside a character starts with a
    continuation byte, which no white space starts with. *)
Fixpoint trimEnd (s : string) : string :=
  match s with
  | EmptyString => EmptyString
  | String c s' => if allWhiteSpace s then EmptyString else String c (trimEnd s')
  end.

Definition trim (s : string) : string := trimEnd (trimStart s).

(** [Number.isFinite] *)
Definition Number_isFinite (x : float) : bool := is_finite x.

(** [Math.max] on two arguments: NaN if either is NaN, and [+0] above [-0]. *)
Definition Math_max (x y : float) : float :=
  if is_nan x || is_nan y then nan
  else if x <? y then y
  else if y <? x then x
  else if is_zero x && get_sign x then y
  else x.

(** [Math.PI] *)
Definition Math_PI : float := 0x1.921fb54442d18p+1.

(** [Math.sqrt]: the correctly rounded square root. *)
Definition Math_sqrt (x : float) : float := sqrt x.

(** The nullish coalescing operator on a nullable number. *)
Definition nullish (v : option float) (d : float) : float :=
  match v with
  | Some x => x
  | None => d
  end.

(** Truthiness of a nullable string: [null] and the empty string are falsy. *)
Definition truthy (m : option string) : bool :=
  match m with
  | Some s => negb (s =? "")%string
  | None => false
  end.

(** [function isPositive(value: number | null): value is number] *)
Definition isPositive (value : option float) : bool :=
  match value with
  | Some v => 0 <? v
  | None => false
  end.

Section Calculator.

(** The built-in conversion [Number(value)] of a string to a number.  It is
    not code of the calculator, so the calculator is defined for any such
    conversion. *)
Variable Number : string -> float.

(** [function parseInputNumber(value: string): number | null] *)
Definition parseInputNumber (value : string) : option float :=
  if (trim value =? "")%string then None
  else
    let parsed := Number value in
    if Number_isFinite parsed then Some parsed else None.

(** The current form state, [form] in [App]. *)
Variable form : FormValues.t.

(** *** The body of the [calculated] memo

    Each [const] of the body is a definition; each [let] pair (or triple)
    that one block assigns is a definition of the block's final values,
    with the variables themselves as its projections.  Where the source
    uses a nullable number as a number after the [isPositive] type guard,
    the guard is followed by a match whose [None] case cannot occur. *)

Definition hardnessValue := parseInputNumber (FormValues.hardnessValue form).
Definition gallonsPerDay := parseInputNumber (FormValues.gallonsPerDay form).
Definition daysBetweenRegen := parseInputNumber (FormValues.daysBetweenRegen form).
Definition reservePercent := parseInputNumber (FormValues.reservePercent form).
Definition overrideCapacityValue :=
  parseInputNumber (FormValues.overrideCapacityValue form).
Definition saltDissolutionFactor :=
  parseInputNumber (FormValues.saltDissolutionFactor form).
Definition peakFlowGpm := parseInputNumber (FormValues.peakFlowGpm form).
Definition serviceLoadingRate := parseInputNumber (FormValues.serviceLoadingRate form).
Definition backwashRate := parseInputNumber (FormValues.backwashRate form).

Definition ironPpm : float :=
  if FormValues.useCompensation form
  then Math_max 0 (nullish (parseInputNumber (FormValues.ironPpm form)) 0)
  else 0.
Definition manganesePpm : float :=
  if FormValues.useCompensation form
  then Math_max 0 (nullish (parseInputNumber (FormValues.manganesePpm form)) 0)
  else 0.

Definition requiredInputMissing : bool :=
  negb (isPositive hardnessValue) ||
  negb (isPositive gallonsPerDay) ||
  negb (isPositive daysBetweenRegen) ||
  negb (isPositive (Some (saltDoseValue (FormValues.saltDose form)))) ||
  negb (isPositive peakFlowGpm) ||
  negb (isPositive serviceLoadingRate).

Definition reserveTooHigh : bool :=
  match reservePercent with
  | Some r => 100 <=? r
  | None => false
  end.

Definition reserveBlockMessage : option string :=
  if reserveTooHigh
  then Some "Reserve Capacity must be below 100%. Step 5 and all later steps are blocked."
  else None.

Definition serviceLoadingError : option string :=
  match serviceLoadingRate with
  | Some r =>
      if r <=? 0
      then Some "Service Loading Rate must be greater than 0. Steps 10 through 12 are blocked."
      else None
  | None => None
  end.

Definition step1HardnessGpg : option float :=
  if isPositive hardnessValue then
    match hardnessValue with
    | Some h =>
        Some (match FormValues.hardnessUnits form with
              | PpmAsCaCO3 => h / 17.1
              | GrainsPerGallon => h
              end)
    | None => None
    end
  else None.

Definition step2DesignHardnessGpg : option float :=
  match step1HardnessGpg with
  | Some step1 =>
      Some (if FormValues.useCompensation form
            then step1 + 4 * (ironPpm + manganesePpm)
            else step1)
  | None => None
  end.

Definition step3GrainsPerDay : option float :=
  match step2DesignHardnessGpg, isPositive gallonsPerDay, gallonsPerDay with
  | Some step2, true, Some g => Some (step2 * g)
  | _, _, _ => None
  end.

Definition step4RequiredGrainsPerRun : option float :=
  match step3GrainsPerDay, isPositive daysBetweenRegen, daysBetweenRegen with
  | Some step3, true, Some d => Some (step3 * d)
  | _, _, _ => None
  end.

Definition step5 : option float * option string :=
  if negb (truthy reserveBlockMessage) then
    match step4RequiredGrainsPerRun with
    | Some step4 =>
        match reservePercent with
        | None => (None, Some "Enter Reserve Capacity to calculate Step 5.")
        | Some r =>
            if r <? 0
            then (None, Some "Reserve Capacity cannot be negative.")
            else (Some (step4 / (1 - r / 100)), reserveBlockMessage)
        end
    | None => (None, reserveBlockMessage)
    end
  else (None, reserveBlockMessage).
Definition step5DesignGrainsPerRun := fst step5.
Definition step5Message := snd step5.

Definition step6 : option float * option string :=
  if negb (truthy reserveBlockMessage) then
    if FormValues.overrideCapacity form then
      if isPositive overrideCapacityValue
      then (overrideCapacityValue, reserveBlockMessage)
      else (None, Some "Override capacity per cubic foot must be greater than 0.")
    else (Some (CAPACITY_BY_SALT_DOSE (FormValues.saltDose form)), reserveBlockMessage)
  else (None, reserveBlockMessage).
Definition step6CapacityPerFt3 := fst step6.
Definition step6Message := snd step6.

Definition step7 : option float * option string :=
  match negb (truthy reserveBlockMessage), step5DesignGrainsPerRun, step6CapacityPerFt3 with
  | true, Some s5, Some s6 => (Some (s5 / s6), None)
  | _, _, _ =>
      if negb (truthy reserveBlockMessage) && negb (truthy reserveBlockMessage)
      then (None, Some "Complete Steps 5 and 6 to calculate resin volume.")
      else (None, reserveBlockMessage)
  end.
Definition step7ResinFt3 := fst step7.
Definition step7Message := snd step7.

Definition step8 : option float * option string :=
  match negb (truthy reserveBlockMessage), step7ResinFt3 with
  | true, Some s7 => (Some (s7 * saltDoseValue (FormValues.saltDose form)), None)
  | _, _ =>
      if negb (truthy reserveBlockMessage) && negb (truthy reserveBlockMessage)
      then (None, Some "Complete Step 7 to calculate salt per regeneration.")
      else (None, reserveBlockMessage)
  end.
Definition step8SaltLbsPerRegen := fst step8.
Definition step8Message := snd step8.

Definition step9 : option float * option string :=
  match negb (truthy reserveBlockMessage), step8SaltLbsPerRegen with
  | true, Some s8 =>
      match isPositive saltDissolutionFactor, saltDissolutionFactor with
      | true, Some f => (Some (s8 / f), None)
      | _, _ => (None, Some "Salt Dissolution Factor must be greater than 0.")
      end
  | _, _ =>
      if negb (truthy reserveBlockMessage) && negb (truthy reserveBlockMessage)
      then (None, Some "Complete Step 8 to calculate brine refill water.")
      else (None, reserveBlockMessage)
  end.
Definition step9BrineWaterGallons := fst step9.
Definition step9Message := snd step9.

Definition step10 : option float * option string :=
  if negb (truthy reserveBlockMessage) then
    if negb (isPositive peakFlowGpm)
    then (None, Some "Peak Flow Rate must be greater than 0.")
    else if negb (isPositive serviceLoadingRate)
    then (None, Some "Service Loading Rate must be greater than 0. Steps 10 through 12 are blocked.")
    else
      match peakFlowGpm, serviceLoadingRate with
      | Some p, Some s => (Some (p / s), None)
      | _, _ => (None, reserveBlockMessage)
      end
  else (None, reserveBlockMessage).
Definition step10BedAreaFt2 := fst step10.
Definition step10Message := snd step10.

Definition step11 : option float * option float * option string :=
  match negb (truthy reserveBlockMessage), step10BedAreaFt2 with
  | true, Some s10 =>
      let step11DiameterFt := 2 * Math_sqrt (s10 / Math_PI) in
      (Some step11DiameterFt, Some (step11DiameterFt * 12), None)
  | _, _ =>
      if negb (truthy reserveBlockMessage) && truthy step10Message
      then (None, None, step10Message)
      else (None, None, reserveBlockMessage)
  end.
Definition step11DiameterFt := fst (fst step11).
Definition step11DiameterIn := snd (fst step11).
Definition step11Message := snd step11.

Definition step12 : option float * option string :=
  match negb (truthy reserveBlockMessage), step10BedAreaFt2 with
  | true, Some s10 =>
      match isPositive backwashRate, backwashRate with
      | true, Some b => (Some (s10 * b), None)
      | _, _ => (None, Some "Backwash Rate must be greater than 0.")
      end
  | _, _ =>
      if negb (truthy reserveBlockMessage) && truthy step10Message
      then (None, step10Message)
      else (None, reserveBlockMessage)
  end.
Definition step12BackwashFlowGpm := fst step12.
Definition step12Message := snd step12.

End Calculator.

Module Calculated.
(** The object the [calculated] memo returns. *)
Record t : Set := mk {
  requiredInputMissing : bool;
  reserveTooHigh : bool;
  serviceLoadingError : option string;
  step1HardnessGpg : option float;
  step2DesignHardnessGpg : option float;
  step3GrainsPerDay : option float;
  step4RequiredGrainsPerRun : option float;
  step5DesignGrainsPerRun : option float;
  step5Message : option string;
  step6CapacityPerFt3 : option float;
  step6Message : option string;
  step7ResinFt3 : option float;
  step7Message : option string;
  step8SaltLbsPerRegen : option float;
  step8Message : option string;
  step9BrineWaterGallons : option float;
  step9Message : option string;
  step10BedAreaFt2 : option float;
  step10Message : option string;
  step11DiameterFt : option float;
  step11DiameterIn : option float;
  step11Message : option string;
  step12BackwashFlowGpm : option float;
  step12Message : option string
}.
End Calculated.

(** [const calculated = useMemo(() => { ... }, [form])] *)
Definition calculated (Number : string -> float) (form : FormValues.t) : Calculated.t :=
  {| Calculated.requiredInputMissing := requiredInputMissing Number form;
     Calculated.reserveTooHigh := reserveTooHigh Number form;
     Calculated.serviceLoadingError := serviceLoadingError Number form;
     Calculated.step1HardnessGpg := step1HardnessGpg Number form;
     Calculated.step2DesignHardnessGpg := step2DesignHardnessGpg Number form;
     Calculated.step3GrainsPerDay := step3GrainsPerDay Number form;
     Calculated.step4RequiredGrainsPerRun := step4RequiredGrainsPerRun Number form;
     Calculated.step5DesignGrainsPerRun := step5DesignGrainsPerRun Number form;
     Calculated.step5Message := step5Message Number form;
     Calculated.step6CapacityPerFt3 := step6CapacityPerFt3 Number form;
     Calculated.step6Message := step6Message Number form;
     Calculated.step7ResinFt3 := step7ResinFt3 Number form;
     Calculated.step7Message := step7Message Number form;
     Calculated.step8SaltLbsPerRegen := step8SaltLbsPerRegen Number form;
     Calculated.step8Message := step8Message Number form;
     Calculated.step9BrineWaterGallons := step9BrineWaterGallons Number form;
     Calculated.step9Message := step9Message Number form;
     Calculated.step10BedAreaFt2 := step10BedAreaFt2 Number form;
     Calculated.step10Message := step10Message Number form;
     Calculated.step11DiameterFt := step11DiameterFt Number form;
     Calculated.step11DiameterIn := step11DiameterIn Number form;
     Calculated.step11Message := step11Message Number form;
     Calculated.step12BackwashFlowGpm := step12BackwashFlowGpm Number form;
     Calculated.step12Message := step12Message Number form |}.

(** ** A model of the built-in [Number(value)] on strings

    [StringToNumber] follows the StringNumericLiteral grammar of ECMAScript:
    surrounding white space is ignored, the empty string is [0], a decimal
    literal may carry a sign, a fraction and an exponent, [Infinity] is
    accepted, and [0x], [0o] and [0b] introduce unsigned integers.  The
    result is the binary64 value nearest to the literal's mathematical value
    (ties to even); every other string is NaN.  The calculator is proved
    correct for any conversion; this one supplies concrete inputs. *)

Definition digitOfBase (base : Z) (c : ascii) : option Z :=
  let n := Z.of_N (N_of_ascii c) in
  let v :=
    if (48 <=? n)%Z && (n <=? 57)%Z then Some (n - 48)%Z
    else if (97 <=? n)%Z && (n <=? 102)%Z then Some (n - 87)%Z
    else if (65 <=? n)%Z && (n <=? 70)%Z then Some (n - 55)%Z
    else None in
  match v with
  | Some d => if (d <? base)%Z then Some d else None
  | None => None
  end.

(** Reads the longest prefix of digits: the number read so far, how many
    digits were read, and the rest of the string. *)
Fixpoint readDigits (base : Z) (s : string) (acc : Z) (count : Z) : Z * Z * string :=
  match s with
  | EmptyString => (acc, count, EmptyString)
  | String c s' =>
      match digitOfBase base c with
      | Some d => readDigits base s' (acc * base + d)%Z (count + 1)%Z
      | None => (acc, count, s)
      end
  end.

(** The binary64 value nearest to [n / d], for [n] and [d] positive. *)
Definition roundRatio (n d : positive) : spec_float :=
  let '(q, e, l) := SFdiv_core_binary prec emax (Zpos n) 0 (Zpos d) 0 in
  binary_round_aux prec emax false q e l.

(** The binary64 value nearest to [mant * 10 ^ exp10], for [mant >= 0]. *)
Definition roundDecimal (mant exp10 : Z) : spec_float :=
  match mant with
  | Zpos m =>
      if (0 <=? exp10)%Z
      then binary_normalize prec emax (mant * 10 ^ exp10)%Z 0 false
      else roundRatio m (Z.to_pos (10 ^ (- exp10)))
  | _ => S754_zero false
  end.

Definition readExponent (s : string) : option Z :=
  match s with
  | EmptyString => Some 0%Z
  | String c s' =>
      if ((c =? "e") || (c =? "E"))%char then
        let '(neg, s'') :=
          match s' with
          | String "-" t => (true, t)
          | String "+" t => (false, t)
          | _ => (false, s')
          end in
        match readDigits 10 s'' 0 0 with
        | (e, n, EmptyString) =>
            if (0 <? n)%Z then Some (if neg then (- e)%Z else e) else None
        | _ => None
        end
      else None
  end.

Definition readUnsignedDecimal (s : string) : spec_float :=
  if (s =? "Infinity")%string then S754_infinity false
  else
    let '(ip, ni, rest) := readDigits 10 s 0 0 in
    let '(mant, nf, rest') :=
      match rest with
      | String "." t => readDigits 10 t ip 0
      | _ => (ip, 0%Z, rest)
      end in
    if (0 <? ni + nf)%Z then
      match readExponent rest' with
      | Some e => roundDecimal mant (e - nf)
      | None => S754_nan
      end
    else S754_nan.

Definition readNonDecimal (base : Z) (s : string) : spec_float :=
  match readDigits base s 0 0 with
  | (v, n, EmptyString) =>
      if (0 <? n)%Z then binary_normalize prec emax v 0 false else S754_nan
  | _ => S754_nan
  end.

Definition readNumericLiteral (s : string) : spec_float :=
  match s with
  | EmptyString => S754_zero false
  | String "-" t => SFopp (readUnsignedDecimal t)
  | String "+" t => readUnsignedDecimal t
  | String "0" (String c t) =>
      if ((c =? "x") || (c =? "X"))%char then readNonDecimal 16 t
      else if ((c =? "o") || (c =? "O"))%char then readNonDecimal 8 t
      else if ((c =? "b") || (c =? "B"))%char then readNonDecimal 2 t
      else readUnsignedDecimal s
  | _ => readUnsignedDecimal s
  end.

Definition StringToNumber (s : string) : float :=
  SF2Prim (readNumericLiteral (trim s)).

(** ** Vocabulary of the statements *)

(** The two blocking messages that reach several steps. *)
Definition reserveBlockText : string :=
  "Reserve Capacity must be below 100%. Step 5 and all later steps are blocked.".
Definition serviceLoadingText : string :=
  "Service Loading Rate must be greater than 0. Steps 10 through 12 are blocked.".

(** [updateField("reservePercent", value)] on a form state: a copy that
    differs in that field only. *)
Definition setReservePercent (value : string) (form : FormValues.t) : FormValues.t :=
  {| FormValues.hardnessValue := FormValues.hardnessValue form;
     FormValues.hardnessUnits := FormValues.hardnessUnits form;
     FormValues.useCompensation := FormValues.useCompensation form;
     FormValues.ironPpm := FormValues.ironPpm form;
     FormValues.manganesePpm := FormValues.manganesePpm form;
     FormValues.gallonsPerDay := FormValues.gallonsPerDay form;
     FormValues.daysBetweenRegen := FormValues.daysBetweenRegen form;
     FormValues.reservePercent := value;
     FormValues.saltDose := FormValues.saltDose form;
     FormValues.overrideCapacity := FormValues.overrideCapacity form;
     FormValues.overrideCapacityValue := FormValues.overrideCapacityValue form;
     FormValues.saltDissolutionFactor := FormValues.saltDissolutionFactor form;
     FormValues.peakFlowGpm := FormValues.peakFlowGpm form;
     FormValues.serviceLoadingRate := FormValues.serviceLoadingRate form;
     FormValues.backwashRate := FormValues.backwashRate form |}.

(** The form state of the specification's first scenario. *)
Definition scenario1 : FormValues.t :=
  {| FormValues.hardnessValue := "300";
     FormValues.hardnessUnits := PpmAsCaCO3;
     FormValues.useCompensation := false;
     FormValues.ironPpm := "0";
     FormValues.manganesePpm := "0";
     FormValues.gallonsPerDay := "10000";
     FormValues.daysBetweenRegen := "2";
     FormValues.reservePercent := "15";
     FormValues.saltDose := Dose8;
     FormValues.overrideCapacity := false;
     FormValues.overrideCapacityValue := "";
     FormValues.saltDissolutionFactor := "3";
     FormValues.peakFlowGpm := "50";
     FormValues.serviceLoadingRate := "7";
     FormValues.backwashRate := "7" |}.

(** The exact rational value of a finite binary64 number. *)
Definition SF2Q (f : spec_float) : option Q :=
  match f with
  | S754_zero _ => Some 0%Q
  | S754_finite s m e =>
      Some ((if s then inject_Z (Zneg m) else inject_Z (Zpos m)) * (2 # 1) ^ e)%Q
  | _ => None
  end.

(** [approximately v shown decimals]: [v] is a number that reads [shown]
    (in units of [10 ^ - decimals]) when rounded to [decimals] decimal places,
    that is, it lies within half a unit of the last place shown. *)
Definition approximately (v : option float) (shown : Z) (decimals : Z) : bool :=
  match v with
  | Some x =>
      match SF2Q (Prim2SF x) with
      | Some q =>
          Qle_bool (Qabs (q * (10 # 1) ^ decimals - inject_Z shown)) (1 # 2)
      | None => false
      end
  | None => false
  end.

(** Scenario 3 of the specification: the service loading rate is 0. *)
Definition scenario3 : FormValues.t :=
  {| FormValues.hardnessValue := "300";
     FormValues.hardnessUnits := PpmAsCaCO3;
     FormValues.useCompensation := false;
     FormValues.ironPpm := "0";
     FormValues.manganesePpm := "0";
     FormValues.gallonsPerDay := "10000";
     FormValues.daysBetweenRegen := "2";
     FormValues.reservePercent := "15";
     FormValues.saltDose := Dose8;
     FormValues.overrideCapacity := false;
     FormValues.overrideCapacityValue := "";
     FormValues.saltDissolutionFactor := "3";
     FormValues.peakFlowGpm := "50";
     FormValues.serviceLoadingRate := "0";
     FormValues.backwashRate := "7" |}.

(** Scenario 1 with the capacity override switched on. *)
Definition scenario1_override (value : string) : FormValues.t :=
  {| FormValues.hardnessValue := "300";
     FormValues.hardnessUnits := PpmAsCaCO3;
     FormValues.useCompensation := false;
     FormValues.ironPpm := "0";
     FormValues.manganesePpm := "0";
     FormValues.gallonsPerDay := "10000";
     FormValues.daysBetweenRegen := "2";
     FormValues.reservePercent := "15";
     FormValues.saltDose := Dose8;
     FormValues.overrideCapacity := true;
     FormValues.overrideCapacityValue := value;
     FormValues.saltDissolutionFactor := "3";
     FormValues.peakFlowGpm := "50";
     FormValues.serviceLoadingRate := "7";
     FormValues.backwashRate := "7" |}.

(** Scenario 1 with the peak flow and the service loading rate so far apart
    that their quotient underflows. *)
Definition scenario_underflow : FormValues.t :=
  {| FormValues.hardnessValue := "300";
     FormValues.hardnessUnits := PpmAsCaCO3;
     FormValues.useCompensation := false;
     FormValues.ironPpm := "0";
     FormValues.manganesePpm := "0";
     FormValues.gallonsPerDay := "10000";
     FormValues.daysBetweenRegen := "2";
     FormValues.reservePercent := "15";
     FormValues.saltDose := Dose8;
     FormValues.overrideCapacity := false;
     FormValues.overrideCapacityValue := "";
     FormValues.saltDissolutionFactor := "3";
     FormValues.peakFlowGpm := "1e-200";
     FormValues.serviceLoadingRate := "1e200";
     FormValues.backwashRate := "7" |}.

(** A nullable number that, when present, is not negative and not NaN: a
    zero, a positive number or plus infinity. *)
Definition neverNegative (v : option float) : Prop :=
  forall x : float, v = Some x -> (0 <=? x) = true.

(** A nullable number that, when present, is not NaN. *)
Definition definedNumber (v : option float) : Prop :=
  forall x : float, v = Some x -> is_nan x = false.

(** ** The rest of the component: state updates and display *)

(** Whether a character occurs in a string. *)
Fixpoint occurs (c : ascii) (s : string) : bool :=
  match s with
  | EmptyString => false
  | String c' s' => Ascii.eqb c c' || occurs c s'
  end.

Module Field.

(** A key of [FormValues] with a value of that key's type: the two
    arguments [key: K] and [value: FormValues[K]] of [updateField]. *)
Inductive t : Set :=
| hardnessValue (value : string)
| hardnessUnits (value : HardnessUnit)
| useCompensation (value : bool)
| ironPpm (value : string)
| manganesePpm (value : string)
| gallonsPerDay (value : string)
| daysBetweenRegen (value : string)
| reservePercent (value : string)
| saltDose (value : SaltDose)
| overrideCapacity (value : bool)
| overrideCapacityValue (value : string)
| saltDissolutionFactor (value : string)
| peakFlowGpm (value : string)
| serviceLoadingRate (value : string)
| backwashRate (value : string).

(** The key alone, as a position among the fields of [FormValues]. *)
Definition key (field : t) : nat :=
  match field with
  | hardnessValue _ => 0
  | hardnessUnits _ => 1
  | useCompensation _ => 2
  | ironPpm _ => 3
  | manganesePpm _ => 4
  | gallonsPerDay _ => 5
  | daysBetweenRegen _ => 6
  | reservePercent _ => 7
  | saltDose _ => 8
  | overrideCapacity _ => 9
  | overrideCapacityValue _ => 10
  | saltDissolutionFactor _ => 11
  | peakFlowGpm _ => 12
  | serviceLoadingRate _ => 13
  | backwashRate _ => 14
  end%nat.

End Field.

(** The state update of [updateField]: [(current) => ({...current, [key]: value})]. *)
Definition updateField (field : Field.t) (current : FormValues.t) : FormValues.t :=
  let '(FormValues.mk hv hu uc fe mn gpd dbr rp sd oc ocv sdf pf slr br) := current in
  match field with
  | Field.hardnessValue value =>
      FormValues.mk value hu uc fe mn gpd dbr rp sd oc ocv sdf pf slr br
  | Field.hardnessUnits value =>
      FormValues.mk hv value uc fe mn gpd dbr rp sd oc ocv sdf pf slr br
  | Field.useCompensation value =>
      FormValues.mk hv hu value fe mn gpd dbr rp sd oc ocv sdf pf slr br
  | Field.ironPpm value =>
      FormValues.mk hv hu uc value mn gpd dbr rp sd oc ocv sdf pf slr br
  | Field.manganesePpm value =>
      FormValues.mk hv hu uc fe value gpd dbr rp sd oc ocv sdf pf slr br
  | Field.gallonsPerDay value =>
      FormValues.mk hv hu uc fe mn value dbr rp sd oc ocv sdf pf slr br
  | Field.daysBetweenRegen value =>
      FormValues.mk hv hu uc fe mn gpd value rp sd oc ocv sdf pf slr br
  | Field.reservePercent value =>
      FormValues.mk hv hu uc fe mn gpd dbr value sd oc ocv sdf pf slr br
  | Field.saltDose value =>
      FormValues.mk hv hu uc fe mn gpd dbr rp value oc ocv sdf pf slr br
  | Field.overrideCapacity value =>
      FormValues.mk hv hu uc fe mn gpd dbr rp sd value ocv sdf pf slr br
  | Field.overrideCapacityValue value =>
      FormValues.mk hv hu uc fe mn gpd dbr rp sd oc value sdf pf slr br
  | Field.saltDissolutionFactor value =>
      FormValues.mk hv hu uc fe mn gpd dbr rp sd oc ocv value pf slr br
  | Field.peakFlowGpm value =>
      FormValues.mk hv hu uc fe mn gpd dbr rp sd oc ocv sdf value slr br
  | Field.serviceLoadingRate value =>
      FormValues.mk hv hu uc fe mn gpd dbr rp sd oc ocv sdf pf value br
  | Field.backwashRate value =>
      FormValues.mk hv hu uc fe mn gpd dbr rp sd oc ocv sdf pf slr value
  end.

(** The field of a form under a key, paired with the key. *)
Definition readField (field : Field.t) (form : FormValues.t) : Field.t :=
  match field with
  | Field.hardnessValue _ => Field.hardnessValue (FormValues.hardnessValue form)
  | Field.hardnessUnits _ => Field.hardnessUnits (FormValues.hardnessUnits form)
  | Field.useCompensation _ => Field.useCompensation (FormValues.useCompensation form)
  | Field.ironPpm _ => Field.ironPpm (FormValues.ironPpm form)
  | Field.manganesePpm _ => Field.manganesePpm (FormValues.manganesePpm form)
  | Field.gallonsPerDay _ => Field.gallonsPerDay (FormValues.gallonsPerDay form)
  | Field.daysBetweenRegen _ => Field.daysBetweenRegen (FormValues.daysBetweenRegen form)
  | Field.reservePercent _ => Field.reservePercent (FormValues.reservePercent form)
  | Field.saltDose _ => Field.saltDose (FormValues.saltDose form)
  | Field.overrideCapacity _ => Field.overrideCapacity (FormValues.overrideCapacity form)
  | Field.overrideCapacityValue _ =>
      Field.overrideCapacityValue (FormValues.overrideCapacityValue form)
  | Field.saltDissolutionFactor _ =>
      Field.saltDissolutionFactor (FormValues.saltDissolutionFactor form)
  | Field.peakFlowGpm _ => Field.peakFlowGpm (FormValues.peakFlowGpm form)
  | Field.serviceLoadingRate _ =>
      Field.serviceLoadingRate (FormValues.serviceLoadingRate form)
  | Field.backwashRate _ => Field.backwashRate (FormValues.backwashRate form)
  end.

(** [Switch] of [input.tsx]: what its [onClick] passes to
    [onCheckedChange], if it calls it. *)
Definition Switch_onClick (disabled checked : bool) : option bool :=
  if negb disabled then Some (negb checked) else None.

(** A click on the compensation switch of [App], which is never disabled
    and whose [onCheckedChange] is [updateField("useCompensation", checked)]. *)
Definition clickCompensation (form : FormValues.t) : FormValues.t :=
  match Switch_onClick false (FormValues.useCompensation form) with
  | Some checked => updateField (Field.useCompensation checked) form
  | None => form
  end.

(** A click on the override switch of [App]. *)
Definition clickOverrideCapacity (form : FormValues.t) : FormValues.t :=
  match Switch_onClick false (FormValues.overrideCapacity form) with
  | Some checked => updateField (Field.overrideCapacity checked) form
  | None => form
  end.

(** The placeholder of a value that is not there: an em dash. *)
Definition placeholder : string := "—".

(** What the "Computed Result" paragraph of a [StepCard] shows: the blocked
    message, or else the result, muted when it is the placeholder. *)
Inductive ComputedResult : Set :=
| ShowsMessage (blockedMessage : string)
| ShowsResult (muted : bool) (result : string).

(** The conditional [blockedMessage ? ... : ...] of [StepCard]; an absent
    [blockedMessage] prop is [None]. *)
Definition StepCard (result : string) (blockedMessage : option string) : ComputedResult :=
  match blockedMessage with
  | Some message =>
      if negb (message =? "")%string
      then ShowsMessage message
      else ShowsResult (result =? placeholder)%string result
  | None => ShowsResult (result =? placeholder)%string result
  end.

Section Display.

(** [new Intl.NumberFormat("en-US", { maximumFractionDigits: decimals }).format(value)]:
    the built-in number formatting, for which the display is defined
    whatever it is. *)
Variable Intl_NumberFormat_format : Z -> float -> string.

(** [function formatNumber(value: number, decimals = 2): string] *)
Definition formatNumber (value : float) (decimals : Z) : string :=
  Intl_NumberFormat_format decimals value.

(** [function formatResult(value: number | null, unit: string, decimals = 2): string] *)
Definition formatResult (value : option float) (unit : string) (decimals : Z) : string :=
  match value with
  | None => placeholder
  | Some v => formatNumber v decimals ++ " " ++ unit
  end.

Variable c : Calculated.t.

(** The [result] prop of the card of step 11. *)
Definition step11Result : string :=
  match Calculated.step11DiameterFt c, Calculated.step11DiameterIn c with
  | Some ft, Some inches =>
      formatNumber ft 2 ++ " feet (" ++ formatNumber inches 2 ++ " inches)"
  | _, _ => placeholder
  end.

(** The twelve step cards of [App], in order: steps 1 to 4 pass no
    [blockedMessage]. *)
Definition stepCards : list ComputedResult :=
  [ StepCard (formatResult (Calculated.step1HardnessGpg c) "grains per gallon" 2) None;
    StepCard (formatResult (Calculated.step2DesignHardnessGpg c) "grains per gallon" 2) None;
    StepCard (formatResult (Calculated.step3GrainsPerDay c) "grains per day" 0) None;
    StepCard (formatResult (Calculated.step4RequiredGrainsPerRun c) "grains" 0) None;
    StepCard (formatResult (Calculated.step5DesignGrainsPerRun c) "grains" 0)
             (Calculated.step5Message c);
    StepCard (formatResult (Calculated.step6CapacityPerFt3 c) "grains per cubic foot" 0)
             (Calculated.step6Message c);
    StepCard (formatResult (Calculated.step7ResinFt3 c) "ft³" 2)
             (Calculated.step7Message c);
    StepCard (formatResult (Calculated.step8SaltLbsPerRegen c) "pounds" 2)
             (Calculated.step8Message c);
    StepCard (formatResult (Calculated.step9BrineWaterGallons c) "gallons" 2)
             (Calculated.step9Message c);
    StepCard (formatResult (Calculated.step10BedAreaFt2 c) "ft²" 2)
             (Calculated.step10Message c);
    StepCard step11Result (Calculated.step11Message c);
    StepCard (formatResult (Calculated.step12BackwashFlowGpm c) "gallons per minute" 2)
             (Calculated.step12Message c) ].

(** The lines of [summaryText], before [join]. *)
Definition summaryLines : list string :=
  [ "Industrial Water Softener Sizer Summary";
    "Design hardness: " ++
      formatResult (Calculated.step2DesignHardnessGpg c) "grains per gallon" 2;
    "Resin volume: " ++ formatResult (Calculated.step7ResinFt3 c) "ft³" 2;
    "Salt per regeneration: " ++
      formatResult (Calculated.step8SaltLbsPerRegen c) "pounds" 2;
    "Estimated brine refill water: " ++
      formatResult (Calculated.step9BrineWaterGallons c) "gallons" 2;
    "Minimum tank diameter estimate: " ++
      formatResult (Calculated.step11DiameterIn c) "in" 2;
    "Required backwash flow: " ++
      formatResult (Calculated.step12BackwashFlowGpm c) "gallons per minute" 2 ].

(** [summaryText]: the lines joined by line feeds. *)
Definition summaryText : string :=
  String.concat (String (ascii_of_nat 10) EmptyString) summaryLines.

End Display.

(** ** Comparing two runs of the calculation *)

(** Of two nullable numbers, the second is not below the first whenever
    both are there. *)
Definition neverLower (v1 v2 : option float) : Prop :=
  forall a b : float, v1 = Some a -> v2 = Some b -> (a <=? b) = true.

(** ** Vocabulary of the rounding argument *)


(** [2 ^ e] as a real number. *)
Definition bpow (e : Z) : R := powerRZ 2 e.

(** The real number [x] lies in the cell [[m * 2^e, (m+1) * 2^e)] at the
    place [l] tells: on its lower end, below, at or above its middle. *)
Definition inbetween (m e : Z) (l : location) (x : R) : Prop :=
  match l with
  | loc_Exact => x = (IZR m * bpow e)%R
  | loc_Inexact Lt => (IZR m * bpow e < x < (IZR m + / 2) * bpow e)%R
  | loc_Inexact Eq => x = ((IZR m + / 2) * bpow e)%R
  | loc_Inexact Gt => ((IZR m + / 2) * bpow e < x < (IZR m + 1) * bpow e)%R
  end.

(** Rank of a place in its cell. *)
Definition loc_rank (l : location) : Z :=
  match l with
  | loc_Exact => 0
  | loc_Inexact Lt => 1
  | loc_Inexact Eq => 2
  | loc_Inexact Gt => 3
  end.


(** What a shift record stands for: the cell of its mantissa at exponent
    [e], and the place its two bits tell. *)
Definition represents (mrs : shr_record) (e : Z) (x : R) : Prop :=
  inbetween (shr_m mrs) e (loc_of_shr_record mrs) x.

(** A cell of the binary64 grid: a mantissa below [2 ^ 53] at an exponent
    from [emin] on, with the leading bit set unless the exponent is [emin]. *)
Definition normal_cell (m e : Z) : Prop :=
  (0 <= m < 2 ^ 53)%Z /\ (-1074 <= e)%Z /\ (e = (-1074)%Z \/ (2 ^ 52 <= m)%Z).

(** Cells with places, in the order of the numbers they hold. *)
Definition cell_le (e1 m1 : Z) (l1 : location) (e2 m2 : Z) (l2 : location) : Prop :=
  (e1 < e2)%Z \/
  (e1 = e2 /\ ((m1 < m2)%Z \/ (m1 = m2 /\ (loc_rank l1 <= loc_rank l2)%Z))).

(** Rounding to nearest, ties to even, inside a cell of the grid, with the
    carry into the next exponent. *)
Definition round_cell (m e : Z) (l : location) : Z * Z :=
  let m' := round_nearest_even m l in
  if (m' =? 2 ^ 53)%Z then (2 ^ 52, e + 1)%Z else (m', e).

(** The number a rounded cell denotes, with overflow to infinity. *)
Definition finish (s : bool) (M E : Z) : spec_float :=
  match M with
  | Z0 => S754_zero s
  | Zpos p => if (E <=? 971)%Z then S754_finite s p E else S754_infinity s
  | Zneg _ => S754_nan
  end.


(** The real number a binary64 number denotes; zero for what is not finite. *)
Definition SFval (f : spec_float) : R :=
  match f with
  | S754_finite false m e => (IZR (Zpos m) * bpow e)%R
  | S754_finite true m e => (- (IZR (Zpos m) * bpow e))%R
  | _ => 0%R
  end.

(** [f] is the binary64 number nearest to the non-negative real [x]. *)
Definition rounds_to (x : R) (f : spec_float) : Prop :=
  exists (m e : Z) (l : location),
    (0 <= m)%Z /\ inbetween m e l x /\
    (e <= fexp prec emax (Zdigits2 m + e))%Z /\
    f = binary_round_aux prec emax false m e l.

(** Non-negative and not NaN: a zero, a positive number or plus infinity. *)
Definition SFnn (f : spec_float) : Prop :=
  match f with
  | S754_zero _ => True
  | S754_finite false _ _ => True
  | S754_infinity false => True
  | _ => False
  end.

(** Positive and finite. *)
Definition SFpos (f : spec_float) : Prop :=
  match f with
  | S754_finite false _ _ => True
  | _ => False
  end.

(** A zero or positive and finite. *)
Definition SFnnf (f : spec_float) : Prop :=
  match f with
  | S754_zero _ => True
  | S754_finite false _ _ => True
  | _ => False
  end.


(** The number one. *)
Definition SFone : spec_float := S754_finite false 4503599627370496 (-52).


(** Non-negative, not NaN and not the negative zero: plus zero, a positive
    number or plus infinity. *)
Definition SFnn0 (f : spec_float) : Prop :=
  match f with
  | S754_zero false => True
  | S754_finite false _ _ => True
  | S754_infinity false => True
  | _ => False
  end.

(** ** Case analysis on the blocks of the calculation *)

Ltac split_matches :=
  repeat match goal with
    | |- context [match ?x with _ => _ end] => destruct x eqn:?
    end.

(** Splits on the reserve gate, and computes the reserve message and its
    truthiness on each side. *)
Ltac open_gate Number form :=
  unfold reserveBlockMessage;
  destruct (reserveTooHigh Number form) eqn:?;
  cbn [negb andb fst snd truthy String.eqb].

(** Unfolds the fields of the record that [calculated] returns. *)
Ltac calculated_fields :=
  cbv zeta;
  cbn [calculated Calculated.requiredInputMissing Calculated.reserveTooHigh
    Calculated.serviceLoadingError
    Calculated.step1HardnessGpg Calculated.step2DesignHardnessGpg
    Calculated.step3GrainsPerDay Calculated.step4RequiredGrainsPerRun
    Calculated.step5DesignGrainsPerRun Calculated.step6CapacityPerFt3
    Calculated.step7ResinFt3 Calculated.step8SaltLbsPerRegen
    Calculated.step9BrineWaterGallons Calculated.step10BedAreaFt2
    Calculated.step11DiameterFt Calculated.step11DiameterIn
    Calculated.step12BackwashFlowGpm Calculated.step5Message
    Calculated.step6Message Calculated.step7Message Calculated.step8Message
    Calculated.step9Message Calculated.step10Message Calculated.step11Message
    Calculated.step12Message].

(** * Binary64 rounding: exact values and monotonicity *)


Lemma bpow_pos (e : Z) : (0 < bpow e)%R.
Proof. apply powerRZ_lt. lra. Qed.

Lemma bpow_add (a b : Z) : bpow (a + b) = (bpow a * bpow b)%R.
Proof. apply powerRZ_add. lra. Qed.

Lemma bpow_0 : bpow 0 = 1%R.
Proof. reflexivity. Qed.
Lemma bpow_1 : bpow 1 = 2%R.
Proof. exact (powerRZ_1 2). Qed.

Lemma bpow_succ (e : Z) : bpow (e + 1) = (2 * bpow e)%R.
Proof. rewrite bpow_add, bpow_1. lra. Qed.

Lemma bpow_IZR (n : Z) : (0 <= n)%Z -> bpow n = IZR (2 ^ n).
Proof.
  intros Hn. pattern n. apply natlike_ind; [ reflexivity | | assumption ].
  intros k Hk IH. rewrite Z.pow_succ_r by assumption. unfold Z.succ.
  now rewrite bpow_succ, IH, mult_IZR.
Qed.

Lemma bpow_ge_1 (n : Z) : (0 <= n)%Z -> (1 <= bpow n)%R.
Proof.
  intros Hn. rewrite bpow_IZR by assumption. apply IZR_le.
  pose proof (Z.pow_pos_nonneg 2 n). lia.
Qed.

Lemma bpow_le (a b : Z) : (a <= b)%Z -> (bpow a <= bpow b)%R.
Proof.
  intros H. replace b with (a + (b - a))%Z by lia. rewrite bpow_add.
  pose proof (bpow_pos a). pose proof (bpow_ge_1 (b - a) ltac:(lia)). nra.
Qed.

Lemma bpow_lt (a b : Z) : (a < b)%Z -> (2 * bpow a <= bpow b)%R.
Proof.
  intros H. rewrite <- bpow_succ. apply bpow_le. lia.
Qed.

(** ** Binary digits *)

Lemma digits2_pos_size (p : positive) : digits2_pos p = Pos.size p.
Proof. induction p; cbn; congruence. Qed.

Lemma digits2_pos_bounds (p : positive) :
  (2 ^ (Zpos (digits2_pos p) - 1) <= Zpos p < 2 ^ Zpos (digits2_pos p))%Z.
Proof.
  rewrite digits2_pos_size. split.
  - pose proof (Pos.size_le p) as H.
    assert (H2 : (2 ^ Zpos (Pos.size p) <= 2 * Zpos p)%Z).
    { rewrite <- Pos2Z.inj_pow. change (2 * Zpos p)%Z with (Zpos p~0). now apply Pos2Z.pos_le_pos. }
    replace (Zpos (Pos.size p)) with (Z.succ (Zpos (Pos.size p) - 1)) in H2 by lia.
    rewrite Z.pow_succ_r in H2 by lia. lia.
  - pose proof (Pos.size_gt p) as H.
    rewrite <- Pos2Z.inj_pow. now apply Pos2Z.pos_lt_pos.
Qed.

Lemma Zdigits2_nonneg (m : Z) : (0 <= Zdigits2 m)%Z.
Proof. destruct m; cbn; lia. Qed.

Lemma Zdigits2_bounds (m : Z) :
  (0 < m)%Z -> (2 ^ (Zdigits2 m - 1) <= m < 2 ^ Zdigits2 m)%Z.
Proof.
  destruct m as [ | p | p ]; try lia. intros _. apply digits2_pos_bounds.
Qed.

(** A number below [2 ^ n] has at most [n] digits, one at or above
    [2 ^ (n - 1)] has at least [n]. *)
Lemma Zdigits2_le (m n : Z) : (0 <= n)%Z -> (0 <= m < 2 ^ n)%Z -> (Zdigits2 m <= n)%Z.
Proof.
  intros Hn [H0 H]. destruct (Z.eq_dec m 0) as [-> | Hm]; [ cbn; lia | ].
  pose proof (Zdigits2_bounds m ltac:(lia)) as [Hlo _].
  destruct (Z_lt_le_dec n (Zdigits2 m)) as [Hlt | ]; [ | assumption ].
  assert (2 ^ n <= 2 ^ (Zdigits2 m - 1))%Z by (apply Z.pow_le_mono_r; lia). lia.
Qed.

Lemma Zdigits2_ge (m n : Z) : (2 ^ (n - 1) <= m)%Z -> (0 < m)%Z -> (n <= Zdigits2 m)%Z.
Proof.
  intros H Hm. pose proof (Zdigits2_bounds m Hm) as [_ Hhi].
  destruct (Z_lt_le_dec (Zdigits2 m) n) as [Hlt | ]; [ | assumption ].
  pose proof (Zdigits2_nonneg m).
  assert (2 ^ Zdigits2 m <= 2 ^ (n - 1))%Z by (apply Z.pow_le_mono_r; lia). lia.
Qed.

Lemma fexp_eq (e : Z) : fexp prec emax e = Z.max (e - 53) (-1074).
Proof. reflexivity. Qed.

Lemma inbetween_bounds (m e : Z) (l : location) (x : R) :
  inbetween m e l x -> (IZR m * bpow e <= x < (IZR m + 1) * bpow e)%R.
Proof.
  pose proof (bpow_pos e). destruct l as [ | [ | | ] ]; cbn; intros; lra.
Qed.

Lemma loc_of_shr_record_of_loc (m : Z) (l : location) :
  loc_of_shr_record (shr_record_of_loc m l) = l /\ shr_m (shr_record_of_loc m l) = m.
Proof. destruct l as [ | [ | | ] ]; now split. Qed.

(** One shift to the right keeps the number and halves the mantissa. *)
Lemma shr_1_represents (mrs : shr_record) (e : Z) (x : R) :
  (0 <= shr_m mrs)%Z -> represents mrs e x ->
  represents (shr_1 mrs) (e + 1) x /\ shr_m (shr_1 mrs) = (shr_m mrs / 2)%Z.
Proof.
  destruct mrs as [m r s]. unfold represents. cbn [shr_m]. intros Hm.
  pose proof (bpow_pos e) as HP.
  destruct m as [ | [ p | p | ] | p ]; try lia.
  - destruct r, s; cbn [shr_1 orb loc_of_shr_record shr_m inbetween];
      rewrite bpow_succ; intros H; (split; [ lra | reflexivity ]).
  - (* odd mantissa *)
    assert (HI : IZR (Zpos p~1) = (2 * IZR (Zpos p) + 1)%R).
    { rewrite Pos2Z.inj_xI, plus_IZR, mult_IZR. reflexivity. }
    assert (Hd : (Zpos p~1 / 2 = Zpos p)%Z).
    { rewrite Pos2Z.inj_xI. symmetry. apply (Z.div_unique _ _ _ 1); lia. }
    destruct r, s; cbn [shr_1 orb loc_of_shr_record shr_m inbetween];
      rewrite HI, bpow_succ; intros H; (split; [ lra | now rewrite Hd ]).
  - (* even mantissa *)
    assert (HI : IZR (Zpos p~0) = (2 * IZR (Zpos p))%R).
    { rewrite Pos2Z.inj_xO, mult_IZR. reflexivity. }
    assert (Hd : (Zpos p~0 / 2 = Zpos p)%Z).
    { rewrite Pos2Z.inj_xO. symmetry. apply (Z.div_unique _ _ _ 0); lia. }
    destruct r, s; cbn [shr_1 orb loc_of_shr_record shr_m inbetween];
      rewrite HI, bpow_succ; intros H; (split; [ lra | now rewrite Hd ]).
  - destruct r, s; cbn [shr_1 orb loc_of_shr_record shr_m inbetween];
      rewrite bpow_succ; intros H; (split; [ lra | reflexivity ]).
Qed.

Lemma iter_pos_shr_1 (p : positive) :
  forall (mrs : shr_record) (e : Z) (x : R),
    (0 <= shr_m mrs)%Z -> represents mrs e x ->
    represents (iter_pos shr_1 p mrs) (e + Zpos p) x /\
    shr_m (iter_pos shr_1 p mrs) = (shr_m mrs / 2 ^ Zpos p)%Z.
Proof.
  induction p as [ p IH | p IH | ]; intros mrs e x Hm Hx; cbn [iter_pos].
  - destruct (shr_1_represents mrs e x Hm Hx) as [H1 E1].
    assert (Hm1 : (0 <= shr_m (shr_1 mrs))%Z) by (rewrite E1; apply Z.div_pos; lia).
    destruct (IH _ _ _ Hm1 H1) as [H2 E2].
    assert (Hm2 : (0 <= shr_m (iter_pos shr_1 p (shr_1 mrs)))%Z)
      by (rewrite E2; apply Z.div_pos; lia).
    destruct (IH _ _ _ Hm2 H2) as [H3 E3]. split.
    + replace (e + Zpos p~1)%Z with (e + 1 + Zpos p + Zpos p)%Z by lia. exact H3.
    + rewrite E3, E2, E1.
      replace (Zpos p~1) with (1 + Zpos p + Zpos p)%Z by lia.
      rewrite !Z.pow_add_r, !Z.div_div by lia. f_equal; ring.
  - destruct (IH _ _ _ Hm Hx) as [H2 E2].
    assert (Hm2 : (0 <= shr_m (iter_pos shr_1 p mrs))%Z)
      by (rewrite E2; apply Z.div_pos; lia).
    destruct (IH _ _ _ Hm2 H2) as [H3 E3]. split.
    + replace (e + Zpos p~0)%Z with (e + Zpos p + Zpos p)%Z by lia. exact H3.
    + rewrite E3, E2.
      replace (Zpos p~0) with (Zpos p + Zpos p)%Z by lia.
      rewrite !Z.pow_add_r, !Z.div_div by lia. f_equal; ring.
  - destruct (shr_1_represents mrs e x Hm Hx) as [H1 E1]. split; assumption.
Qed.

Lemma shr_represents (mrs : shr_record) (e n : Z) (x : R) :
  (0 <= shr_m mrs)%Z -> represents mrs e x ->
  represents (fst (shr mrs e n)) (snd (shr mrs e n)) x /\
  snd (shr mrs e n) = (e + Z.max 0 n)%Z /\
  shr_m (fst (shr mrs e n)) = (shr_m mrs / 2 ^ Z.max 0 n)%Z.
Proof.
  intros Hm Hx. destruct n as [ | p | p ]; cbn [shr fst snd].
  - rewrite Z.add_0_r. cbn. rewrite Z.div_1_r. auto.
  - destruct (iter_pos_shr_1 p mrs e x Hm Hx) as [H1 E1].
    replace (Z.max 0 (Zpos p)) with (Zpos p) by lia. auto.
  - replace (Z.max 0 (Zneg p)) with 0%Z by lia.
    rewrite Z.add_0_r. cbn. rewrite Z.div_1_r. auto.
Qed.

(** Shifting down to the exponent the format assigns yields a cell of the
    grid, provided the mantissa came with digits enough. *)
Lemma shr_fexp_normal (m e : Z) (l : location) (x : R) :
  (0 <= m)%Z -> inbetween m e l x ->
  (e <= fexp prec emax (Zdigits2 m + e))%Z ->
  let mrs' := fst (shr_fexp prec emax m e l) in
  let e' := snd (shr_fexp prec emax m e l) in
  represents mrs' e' x /\ normal_cell (shr_m mrs') e'.
Proof.
  intros Hm Hx He. unfold shr_fexp.
  destruct (loc_of_shr_record_of_loc m l) as [El Em].
  set (n := (fexp prec emax (Zdigits2 m + e) - e)%Z).
  destruct (shr_represents (shr_record_of_loc m l) e n x) as (H1 & H2 & H3).
  { now rewrite Em. }
  { unfold represents. now rewrite El, Em. }
  cbn zeta. split; [ exact H1 | ].
  rewrite H2, H3, Em. replace (Z.max 0 n) with n by lia.
  unfold normal_cell. subst n. rewrite fexp_eq in *.
  set (d := Zdigits2 m) in *.
  assert (Hd0 : (0 <= d)%Z) by apply Zdigits2_nonneg.
  set (n := (Z.max (d + e - 53) (-1074) - e)%Z).
  assert (Hn : (0 <= n)%Z) by lia.
  assert (Hpow : (0 < 2 ^ n)%Z) by (apply Z.pow_pos_nonneg; lia).
  destruct (Z.eq_dec m 0) as [-> | Hm0].
  { rewrite Z.div_0_l by lia. cbn in d. subst d. lia. }
  pose proof (Zdigits2_bounds m ltac:(lia)) as [Hlo Hhi]. fold d in Hlo, Hhi.
  assert (Hup : (m / 2 ^ n < 2 ^ 53)%Z).
  { apply Z.div_lt_upper_bound; [ assumption | ].
    rewrite <- Z.pow_add_r by lia.
    assert (2 ^ d <= 2 ^ (n + 53))%Z by (apply Z.pow_le_mono_r; lia). lia. }
  split; [ split; [ apply Z.div_pos; lia | exact Hup ] | ].
  split; [ lia | ].
  destruct (Z_le_gt_dec (d + e - 53) (-1074)) as [Hsub | Hnorm]; [ left; lia | right ].
  apply Z.div_le_lower_bound; [ assumption | ].
  rewrite <- Z.pow_add_r by lia.
  replace (n + 52)%Z with (d - 1)%Z by lia. exact Hlo.
Qed.

(** ** Cells of the grid are ordered as the numbers they hold *)

Lemma cell_order (m1 e1 : Z) (l1 : location) (x1 : R)
                 (m2 e2 : Z) (l2 : location) (x2 : R) :
  normal_cell m1 e1 -> inbetween m1 e1 l1 x1 ->
  normal_cell m2 e2 -> inbetween m2 e2 l2 x2 ->
  (x1 <= x2)%R ->
  cell_le e1 m1 l1 e2 m2 l2.
Proof.
  intros ((Hm1 & Hm1') & He1 & Hn1) Hx1 ((Hm2 & Hm2') & He2 & Hn2) Hx2 Hle.
  pose proof (inbetween_bounds _ _ _ _ Hx1) as [Hlo1 Hhi1].
  pose proof (inbetween_bounds _ _ _ _ Hx2) as [Hlo2 Hhi2].
  pose proof (bpow_pos e1) as HP1. pose proof (bpow_pos e2) as HP2.
  unfold cell_le.
  destruct (Z_lt_le_dec e1 e2) as [ | Hge ]; [ now left | right ].
  destruct (Z.eq_dec e1 e2) as [ -> | Hne ].
  - split; [ reflexivity | ].
    destruct (Z_lt_le_dec m1 m2) as [ | Hmge ]; [ now left | right ].
    destruct (Z.eq_dec m1 m2) as [ -> | Hmne ].
    + split; [ reflexivity | ].
      destruct l1 as [ | [ | | ] ], l2 as [ | [ | | ] ];
        cbn [loc_rank inbetween] in *; try lia; exfalso; lra.
    + exfalso.
      assert (IZR m2 + 1 <= IZR m1)%R by (rewrite <- plus_IZR; apply IZR_le; lia).
      assert ((IZR m2 + 1) * bpow e2 <= IZR m1 * bpow e2)%R
        by (apply Rmult_le_compat_r; lra).
      lra.
  - exfalso.
    assert (Hm : (2 ^ 52 <= m1)%Z) by lia.
    pose proof (bpow_lt e2 e1 ltac:(lia)) as HP.
    assert (H52 : (IZR (2 ^ 52) <= IZR m1)%R) by now apply IZR_le.
    assert (H53 : (IZR m2 + 1 <= IZR (2 ^ 53))%R)
      by (rewrite <- plus_IZR; apply IZR_le; lia).
    assert (A : (IZR (2 ^ 52) * bpow e1 <= IZR m1 * bpow e1)%R)
      by (apply Rmult_le_compat_r; lra).
    assert (B : ((IZR m2 + 1) * bpow e2 <= IZR (2 ^ 53) * bpow e2)%R)
      by (apply Rmult_le_compat_r; lra).
    assert (C : (IZR (2 ^ 53) = 2 * IZR (2 ^ 52))%R)
      by (rewrite <- mult_IZR; reflexivity).
    assert (D : (0 < IZR (2 ^ 52))%R) by (apply IZR_lt; reflexivity).
    assert (E : (IZR (2 ^ 52) * (2 * bpow e2) <= IZR (2 ^ 52) * bpow e1)%R)
      by (apply Rmult_le_compat_l; lra).
    rewrite C in B. lra.
Qed.

(** ** Rounding a cell of the grid *)

Lemma round_nearest_even_bounds (m : Z) (l : location) :
  (m <= round_nearest_even m l <= m + 1)%Z.
Proof.
  destruct l as [ | [ | | ] ]; cbn; try lia. destruct (Z.even m); lia.
Qed.

Lemma round_nearest_even_mono (m1 : Z) (l1 : location) (m2 : Z) (l2 : location) :
  (m1 < m2)%Z \/ (m1 = m2 /\ (loc_rank l1 <= loc_rank l2)%Z) ->
  (round_nearest_even m1 l1 <= round_nearest_even m2 l2)%Z.
Proof.
  intros [H | [-> H]].
  - pose proof (round_nearest_even_bounds m1 l1).
    pose proof (round_nearest_even_bounds m2 l2). lia.
  - destruct l1 as [ | [ | | ] ], l2 as [ | [ | | ] ];
      cbn in *; try lia; destruct (Z.even m2); lia.
Qed.

Lemma round_cell_normal (m e : Z) (l : location) :
  normal_cell m e ->
  normal_cell (fst (round_cell m e l)) (snd (round_cell m e l)).
Proof.
  intros ((Hm & Hm') & He & Hn). unfold round_cell.
  pose proof (round_nearest_even_bounds m l) as Hr.
  destruct (Z.eqb_spec (round_nearest_even m l) (2 ^ 53)) as [Heq | Hne];
    cbn [fst snd]; unfold normal_cell; lia.
Qed.

Lemma round_cell_mono (m1 e1 : Z) (l1 : location) (m2 e2 : Z) (l2 : location) :
  normal_cell m1 e1 -> normal_cell m2 e2 ->
  cell_le e1 m1 l1 e2 m2 l2 ->
  cell_le (snd (round_cell m1 e1 l1)) (fst (round_cell m1 e1 l1)) loc_Exact
          (snd (round_cell m2 e2 l2)) (fst (round_cell m2 e2 l2)) loc_Exact.
Proof.
  intros ((Hm1 & Hm1') & He1 & Hn1) ((Hm2 & Hm2') & He2 & Hn2) Hle.
  unfold round_cell, cell_le in *. cbn [loc_rank].
  pose proof (round_nearest_even_bounds m1 l1) as Hr1.
  pose proof (round_nearest_even_bounds m2 l2) as Hr2.
  destruct Hle as [Hlt | [-> Hml]].
  - destruct (Z.eqb_spec (round_nearest_even m1 l1) (2 ^ 53)),
             (Z.eqb_spec (round_nearest_even m2 l2) (2 ^ 53));
      cbn [fst snd]; lia.
  - pose proof (round_nearest_even_mono m1 l1 m2 l2 Hml) as Hmono.
    destruct (Z.eqb_spec (round_nearest_even m1 l1) (2 ^ 53)),
             (Z.eqb_spec (round_nearest_even m2 l2) (2 ^ 53));
      cbn [fst snd]; lia.
Qed.

(** [binary_round_aux] is: shift to the format's exponent, round the cell,
    and read off the result. *)
Lemma binary_round_aux_cell (s : bool) (m e : Z) (l : location) (x : R) :
  (0 <= m)%Z -> inbetween m e l x ->
  (e <= fexp prec emax (Zdigits2 m + e))%Z ->
  let mrs' := fst (shr_fexp prec emax m e l) in
  let e' := snd (shr_fexp prec emax m e l) in
  let c := round_cell (shr_m mrs') e' (loc_of_shr_record mrs') in
  binary_round_aux prec emax s m e l = finish s (fst c) (snd c).
Proof.
  intros Hm Hx He mrs' e' c.
  destruct (shr_fexp_normal m e l x Hm Hx He) as [Hrep Hcell].
  fold mrs' e' in Hrep, Hcell.
  unfold binary_round_aux.
  destruct (shr_fexp prec emax m e l) as [mrs1 e1] eqn:E1.
  cbn [fst snd] in mrs', e'. subst mrs' e'.
  destruct Hcell as ((Hc & Hc') & He1 & Hn1).
  pose proof (round_nearest_even_bounds (shr_m mrs1) (loc_of_shr_record mrs1)) as Hr.
  subst c. unfold round_cell.
  set (m' := round_nearest_even (shr_m mrs1) (loc_of_shr_record mrs1)) in *.
  destruct (Z.eqb_spec m' (2 ^ 53)) as [Heq | Hne]; cbn [fst snd].
  - rewrite Heq. unfold shr_fexp. rewrite fexp_eq.
    change (Zdigits2 (2 ^ 53)) with 54%Z.
    replace (Z.max (54 + e1 - 53) (-1074) - e1)%Z with 1%Z by lia.
    cbn. reflexivity.
  - unfold shr_fexp. rewrite fexp_eq.
    assert (Hd : (Zdigits2 m' <= 53)%Z) by (apply Zdigits2_le; lia).
    pose proof (Zdigits2_nonneg m').
    destruct (Z.max (Zdigits2 m' + e1 - 53) (-1074) - e1)%Z as [ | p | p ] eqn:En;
      try lia; cbn [shr shr_record_of_loc shr_m]; unfold finish, emax, prec;
      destruct m'; reflexivity.
Qed.

Lemma finish_leb (M1 E1 M2 E2 : Z) :
  normal_cell M1 E1 -> normal_cell M2 E2 ->
  cell_le E1 M1 loc_Exact E2 M2 loc_Exact ->
  SFleb (finish false M1 E1) (finish false M2 E2) = true.
Proof.
  intros ((Hm1 & Hm1') & He1 & Hn1) ((Hm2 & Hm2') & He2 & Hn2) Hle.
  unfold cell_le in Hle. cbn [loc_rank] in Hle.
  destruct M1 as [ | p1 | p1 ], M2 as [ | p2 | p2 ]; try lia; cbn [finish].
  - reflexivity.
  - now destruct (E2 <=? 971)%Z.
  - destruct (Z.leb_spec E1 971), (Z.leb_spec E2 971); try reflexivity; try lia.
    unfold SFleb. cbn [SFcompare].
    destruct Hle as [Hlt | [-> Hm]].
    + apply Z.compare_lt_iff in Hlt. now rewrite Hlt.
    + rewrite Z.compare_refl.
      change (Pos.compare_cont Eq p1 p2) with (Pos.compare p1 p2).
      destruct (Pos.compare_spec p1 p2); try reflexivity. lia.
Qed.

(** Rounding is monotone: cells that hold ordered numbers round to ordered
    binary64 numbers. *)
Lemma binary_round_aux_mono (m1 e1 : Z) (l1 : location) (x1 : R)
                            (m2 e2 : Z) (l2 : location) (x2 : R) :
  (0 <= m1)%Z -> inbetween m1 e1 l1 x1 ->
  (e1 <= fexp prec emax (Zdigits2 m1 + e1))%Z ->
  (0 <= m2)%Z -> inbetween m2 e2 l2 x2 ->
  (e2 <= fexp prec emax (Zdigits2 m2 + e2))%Z ->
  (x1 <= x2)%R ->
  SFleb (binary_round_aux prec emax false m1 e1 l1)
        (binary_round_aux prec emax false m2 e2 l2) = true.
Proof.
  intros Hm1 Hx1 He1 Hm2 Hx2 He2 Hle.
  rewrite (binary_round_aux_cell false m1 e1 l1 x1 Hm1 Hx1 He1).
  rewrite (binary_round_aux_cell false m2 e2 l2 x2 Hm2 Hx2 He2).
  destruct (shr_fexp_normal m1 e1 l1 x1 Hm1 Hx1 He1) as [Hr1 Hc1].
  destruct (shr_fexp_normal m2 e2 l2 x2 Hm2 Hx2 He2) as [Hr2 Hc2].
  cbn zeta in *.
  apply finish_leb.
  - now apply round_cell_normal.
  - now apply round_cell_normal.
  - apply round_cell_mono; try assumption.
    exact (cell_order _ _ _ x1 _ _ _ x2 Hc1 Hr1 Hc2 Hr2 Hle).
Qed.

(** The result of rounding a cell with a non-negative mantissa is zero, a
    positive number or plus infinity when the sign is [false]. *)
Lemma binary_round_aux_cases (s : bool) (m e : Z) (l : location) (x : R) :
  (0 <= m)%Z -> inbetween m e l x ->
  (e <= fexp prec emax (Zdigits2 m + e))%Z ->
  binary_round_aux prec emax s m e l = S754_zero s \/
  binary_round_aux prec emax s m e l = S754_infinity s \/
  exists p E, binary_round_aux prec emax s m e l = S754_finite s p E /\
              normal_cell (Zpos p) E /\ (E <= 971)%Z.
Proof.
  intros Hm Hx He.
  rewrite (binary_round_aux_cell s m e l x Hm Hx He).
  destruct (shr_fexp_normal m e l x Hm Hx He) as [Hr Hc]. cbn zeta in *.
  pose proof (round_cell_normal _ _ (loc_of_shr_record (fst (shr_fexp prec emax m e l))) Hc)
    as Hn.
  destruct (round_cell _ _ _) as [M E]. cbn [fst snd] in *.
  destruct Hn as ((H0 & H1) & H2 & H3).
  destruct M as [ | p | p ]; try lia; cbn [finish].
  - now left.
  - destruct (Z.leb_spec E 971).
    + right. right. exists p, E. unfold normal_cell. auto.
    + right. now left.
Qed.

(** ** Valid binary64 numbers are cells of the grid *)

Lemma valid_normal_cell (s : bool) (m : positive) (e : Z) :
  valid_binary (S754_finite s m e) = true ->
  normal_cell (Zpos m) e /\ (e <= 971)%Z /\
  fexp prec emax (Zdigits2 (Zpos m) + e) = e.
Proof.
  cbn [SpecFloat.valid_binary]. unfold bounded, canonical_mantissa.
  intros H. apply andb_true_iff in H as [Hc Hb].
  apply Z.eqb_eq in Hc. apply Z.leb_le in Hb.
  change (emax - prec)%Z with 971%Z in Hb.
  pose proof (digits2_pos_bounds m) as [Hlo Hhi].
  rewrite fexp_eq in Hc.
  set (d := Zpos (digits2_pos m)) in *.
  assert (Hd : (0 < d)%Z) by (subst d; lia).
  split; [ | split; [ assumption | cbn [Zdigits2]; fold d; now rewrite fexp_eq ] ].
  unfold normal_cell.
  assert (Hup : (2 ^ d <= 2 ^ 53)%Z) by (apply Z.pow_le_mono_r; lia).
  split; [ lia | ]. split; [ lia | ].
  destruct (Z.eq_dec e (-1074)) as [ | Hne ]; [ now left | right ].
  replace d with 53%Z in Hlo by lia. exact Hlo.
Qed.

(** The real number a finite binary64 number denotes, up to its sign. *)
Lemma cell_value_le (m1 e1 m2 e2 : Z) :
  normal_cell m1 e1 -> normal_cell m2 e2 ->
  cell_le e1 m1 loc_Exact e2 m2 loc_Exact ->
  (IZR m1 * bpow e1 <= IZR m2 * bpow e2)%R.
Proof.
  intros H1 H2 Hle.
  destruct (Rle_or_lt (IZR m1 * bpow e1) (IZR m2 * bpow e2)) as [ | Hlt ];
    [ assumption | exfalso ].
  assert (Hrev : cell_le e2 m2 loc_Exact e1 m1 loc_Exact).
  { apply (cell_order m2 e2 loc_Exact (IZR m2 * bpow e2) m1 e1 loc_Exact (IZR m1 * bpow e1));
      try assumption; try reflexivity. lra. }
  unfold cell_le in *. cbn [loc_rank] in *.
  assert (e1 = e2 /\ m1 = m2) as [-> ->] by lia. lra.
Qed.

Lemma SFleb_finite_cell (m1 : positive) (e1 : Z) (m2 : positive) (e2 : Z) :
  SFleb (S754_finite false m1 e1) (S754_finite false m2 e2) = true ->
  cell_le e1 (Zpos m1) loc_Exact e2 (Zpos m2) loc_Exact.
Proof.
  unfold SFleb, cell_le. cbn [SFcompare loc_rank].
  destruct (Z.compare_spec e1 e2) as [ -> | | ]; try discriminate.
  - change (Pos.compare_cont Eq m1 m2) with (Pos.compare m1 m2).
    destruct (Pos.compare_spec m1 m2); try discriminate; intros _; right; split; lia.
  - intros _. now left.
Qed.

(** ** Division *)

Lemma new_location_spec (n r : Z) :
  (0 < n)%Z -> (0 <= r < n)%Z ->
  match new_location n r with
  | loc_Exact => r = 0%Z
  | loc_Inexact Lt => (0 < r /\ 2 * r < n)%Z
  | loc_Inexact Eq => (2 * r = n)%Z
  | loc_Inexact Gt => (n < 2 * r)%Z
  end.
Proof.
  intros Hn Hr. unfold new_location, new_location_even, new_location_odd.
  destruct (Z.even n) eqn:Hev; destruct (Z.eqb_spec r 0) as [ | Hr0 ]; try assumption.
  - destruct (Z.compare_spec (2 * r) n); lia.
  - assert (Hodd : Z.odd n = true) by (rewrite <- Z.negb_even, Hev; reflexivity).
    apply Z.odd_spec in Hodd. destruct Hodd as [k Hk].
    destruct (Z.compare_spec (2 * r + 1) n); lia.
Qed.

Lemma inbetween_ratio (q r n e : Z) (x : R) :
  (0 < n)%Z -> (0 <= r < n)%Z ->
  x = ((IZR q + IZR r / IZR n) * bpow e)%R ->
  inbetween q e (new_location n r) x.
Proof.
  intros Hn Hr ->. pose proof (new_location_spec n r Hn Hr) as Hloc.
  pose proof (bpow_pos e) as HP.
  assert (Hn' : (0 < IZR n)%R) by now apply IZR_lt.
  set (t := (IZR r / IZR n)%R).
  assert (Ht : (IZR n * t = IZR r)%R) by (unfold t; field; lra).
  destruct (new_location n r) as [ | [ | | ] ]; cbn [inbetween]; cbn beta iota in Hloc.
  - subst r. unfold t. replace (IZR 0 / IZR n)%R with 0%R by (field; lra). lra.
  - apply (f_equal IZR) in Hloc. rewrite mult_IZR in Hloc.
    assert (t = / 2)%R by nra. subst t. rewrite H. reflexivity.
  - destruct Hloc as [H0 H2].
    apply IZR_lt in H0, H2. rewrite mult_IZR in H2.
    assert (0 < t < / 2)%R by (split; nra). split; nra.
  - destruct Hr as [_ Hr]. apply IZR_lt in Hloc, Hr. rewrite mult_IZR in Hloc.
    assert (/ 2 < t < 1)%R by (split; nra). split; nra.
Qed.

Lemma SFdiv_core_binary_correct (mx : positive) (ex : Z) (my : positive) (ey : Z) :
  let c := SFdiv_core_binary prec emax (Zpos mx) ex (Zpos my) ey in
  let q := fst (fst c) in
  let e := snd (fst c) in
  let l := snd c in
  (0 <= q)%Z /\
  inbetween q e l (IZR (Zpos mx) * bpow ex / (IZR (Zpos my) * bpow ey))%R /\
  (e <= fexp prec emax (Zdigits2 q + e))%Z.
Proof.
  unfold SFdiv_core_binary.
  set (d1 := Zdigits2 (Zpos mx)). set (d2 := Zdigits2 (Zpos my)).
  set (e' := Z.min (fexp prec emax (d1 + ex - (d2 + ey))) (ex - ey)).
  set (s := (ex - ey - e')%Z).
  assert (Hs : (0 <= s)%Z) by (subst s e'; lia).
  set (m' := match s with
             | Zpos _ => Z.shiftl (Zpos mx) s
             | Z0 => Zpos mx
             | Zneg _ => 0%Z
             end).
  assert (Hm' : m' = (Zpos mx * 2 ^ s)%Z).
  { subst m'. destruct s as [ | p | p ]; try lia.
    - now rewrite Z.shiftl_mul_pow2. }
  pose proof (Z_div_mod m' (Zpos my) ltac:(lia)) as Hdiv.
  destruct (Z.div_eucl m' (Zpos my)) as [q r] eqn:Hqr.
  destruct Hdiv as [Heq Hr]. cbn [fst snd].
  assert (Hpow : (0 < 2 ^ s)%Z) by (apply Z.pow_pos_nonneg; lia).
  assert (Hq : (0 <= q)%Z) by nia.
  split; [ exact Hq | ]. split.
  - apply inbetween_ratio; try lia.
    assert (Hex : ex = (s + ey + e')%Z) by (subst s; lia).
    pose proof (bpow_pos ey). pose proof (bpow_pos e'). pose proof (bpow_pos s).
    assert (Hmy : (0 < IZR (Zpos my))%R) by (apply IZR_lt; lia).
    assert (HI : (IZR (Zpos mx) * bpow s = IZR (Zpos my) * IZR q + IZR r)%R).
    { rewrite bpow_IZR by assumption.
      rewrite <- !mult_IZR, <- plus_IZR. f_equal. lia. }
    rewrite Hex, !bpow_add.
    replace (IZR (Zpos mx) * (bpow s * bpow ey * bpow e'))%R
      with ((IZR (Zpos my) * IZR q + IZR r) * (bpow ey * bpow e'))%R
      by (rewrite <- HI; ring).
    field. split; lra.
  - rewrite fexp_eq.
    destruct (Z_le_gt_dec e' (-1074)) as [ | Hgt ]; [ lia | ].
    assert (HD : (e' <= d1 + ex - (d2 + ey) - 53)%Z).
    { subst e'. rewrite fexp_eq in *. lia. }
    pose proof (digits2_pos_bounds mx) as [Hlo1 _].
    pose proof (digits2_pos_bounds my) as [_ Hhi2].
    change (Zpos (digits2_pos mx)) with d1 in Hlo1.
    change (Zpos (digits2_pos my)) with d2 in Hhi2.
    assert (Hd1 : (0 < d1)%Z) by (subst d1; cbn; lia).
    assert (Hd2 : (0 < d2)%Z) by (subst d2; cbn; lia).
    assert (Hq52 : (2 ^ 52 <= q)%Z).
    { assert (Hk : (0 <= d1 - 1 + s - d2 - 52)%Z) by lia.
      assert (Hbig : (2 ^ 52 * 2 ^ d2 <= m')%Z).
      { rewrite Hm'. rewrite <- Z.pow_add_r by lia.
        assert (2 ^ (52 + d2) <= 2 ^ (d1 - 1 + s))%Z by (apply Z.pow_le_mono_r; lia).
        assert (2 ^ (d1 - 1 + s) = 2 ^ (d1 - 1) * 2 ^ s)%Z by (apply Z.pow_add_r; lia).
        nia. }
      assert (Hlt : (2 ^ 52 * Zpos my < Zpos my * (q + 1))%Z) by nia.
      nia. }
    pose proof (Zdigits2_ge q 53 ltac:(simpl; lia) ltac:(lia)). lia.
Qed.

Lemma rounds_to_mono (x1 x2 : R) (f1 f2 : spec_float) :
  rounds_to x1 f1 -> rounds_to x2 f2 -> (x1 <= x2)%R -> SFleb f1 f2 = true.
Proof.
  intros (m1 & e1 & l1 & H1 & I1 & D1 & ->) (m2 & e2 & l2 & H2 & I2 & D2 & ->) Hle.
  now apply (binary_round_aux_mono m1 e1 l1 x1 m2 e2 l2 x2).
Qed.

Lemma rounds_to_SFnn (x : R) (f : spec_float) : rounds_to x f -> SFnn f.
Proof.
  intros (m & e & l & H & I & D & ->).
  destruct (binary_round_aux_cases false m e l x H I D) as [-> | [-> | (p & E & -> & _)]];
    exact I0 || exact Logic.I.
Qed.

Lemma rounds_to_zero : rounds_to 0 (S754_zero false).
Proof.
  exists 0%Z, (-1074)%Z, loc_Exact.
  split; [ lia | ]. split; [ cbn [inbetween]; lra | ].
  split; [ rewrite fexp_eq; cbn; lia | reflexivity ].
Qed.

(** A valid positive number is its own rounding. *)
Lemma rounds_to_self (m : positive) (e : Z) :
  valid_binary (S754_finite false m e) = true ->
  rounds_to (IZR (Zpos m) * bpow e) (S754_finite false m e).
Proof.
  intros Hv. destruct (valid_normal_cell _ _ _ Hv) as (Hc & He & Hf).
  exists (Zpos m), e, loc_Exact.
  assert (Hd : (e <= fexp prec emax (Zdigits2 (Zpos m) + e))%Z) by lia.
  repeat split; try lia; try reflexivity.
  rewrite (binary_round_aux_cell false (Zpos m) e loc_Exact (IZR (Zpos m) * bpow e));
    try lia; try reflexivity.
  cbn zeta. unfold shr_fexp. rewrite Hf, Z.sub_diag. cbn [shr shr_record_of_loc fst snd
    shr_m loc_of_shr_record]. unfold round_cell. cbn [round_nearest_even].
  destruct Hc as ((H0 & H1) & _).
  destruct (Z.eqb_spec (Zpos m) (2 ^ 53)); [ lia | ]. cbn [fst snd finish].
  destruct (Z.leb_spec e 971); [ reflexivity | lia ].
Qed.

Lemma SFleb_SFval (f1 f2 : spec_float) :
  valid_binary f1 = true -> valid_binary f2 = true ->
  SFnnf f1 -> SFnnf f2 ->
  SFleb f1 f2 = true -> (SFval f1 <= SFval f2)%R.
Proof.
  intros V1 V2 N1 N2 Hle.
  destruct f1 as [s1 | s1 | | [ | ] m1 e1], f2 as [s2 | s2 | | [ | ] m2 e2];
    try contradiction; cbn [SFval].
  - lra.
  - pose proof (bpow_pos e2). assert (0 < IZR (Zpos m2))%R by (apply IZR_lt; lia). nra.
  - discriminate.
  - destruct (valid_normal_cell _ _ _ V1) as (C1 & _).
    destruct (valid_normal_cell _ _ _ V2) as (C2 & _).
    apply cell_value_le; try assumption. now apply SFleb_finite_cell.
Qed.

Lemma SFval_pos (f : spec_float) : SFpos f -> (0 < SFval f)%R.
Proof.
  destruct f as [ | | | [ | ] m e]; try contradiction. intros _. cbn.
  pose proof (bpow_pos e). assert (0 < IZR (Zpos m))%R by (apply IZR_lt; lia). nra.
Qed.

Lemma SFval_nonneg (f : spec_float) : SFnnf f -> (0 <= SFval f)%R.
Proof.
  destruct f as [ | | | [ | ] m e]; try contradiction; intros _; cbn; try lra.
  pose proof (bpow_pos e). assert (0 < IZR (Zpos m))%R by (apply IZR_lt; lia). nra.
Qed.

(** ** The operations on positive finite operands *)

Lemma SFdiv_rounds (mx : positive) (ex : Z) (my : positive) (ey : Z) :
  rounds_to (IZR (Zpos mx) * bpow ex / (IZR (Zpos my) * bpow ey))
            (SFdiv prec emax (S754_finite false mx ex) (S754_finite false my ey)).
Proof.
  pose proof (SFdiv_core_binary_correct mx ex my ey) as H. cbn zeta in H.
  cbn [SFdiv xorb].
  destruct (SFdiv_core_binary prec emax (Zpos mx) ex (Zpos my) ey) as [[q e] l].
  cbn [fst snd] in H. destruct H as (H0 & H1 & H2).
  exists q, e, l. auto.
Qed.

Lemma digits2_pos_mul (mx my : positive) :
  (Zpos (digits2_pos mx) + Zpos (digits2_pos my) - 1 <= Zpos (digits2_pos (mx * my)))%Z.
Proof.
  pose proof (digits2_pos_bounds mx) as [Hx _].
  pose proof (digits2_pos_bounds my) as [Hy _].
  apply (Zdigits2_ge (Zpos (mx * my))); [ | lia ].
  replace (Zpos (digits2_pos mx) + Zpos (digits2_pos my) - 1 - 1)%Z
    with ((Zpos (digits2_pos mx) - 1) + (Zpos (digits2_pos my) - 1))%Z by lia.
  rewrite Z.pow_add_r by lia. rewrite Pos2Z.inj_mul.
  apply Z.mul_le_mono_nonneg; try assumption; apply Z.pow_nonneg; lia.
Qed.

Lemma SFmul_rounds (mx : positive) (ex : Z) (my : positive) (ey : Z) :
  valid_binary (S754_finite false mx ex) = true ->
  valid_binary (S754_finite false my ey) = true ->
  rounds_to (IZR (Zpos mx) * bpow ex * (IZR (Zpos my) * bpow ey))
            (SFmul prec emax (S754_finite false mx ex) (S754_finite false my ey)).
Proof.
  intros Vx Vy. cbn [SFmul xorb].
  destruct (valid_normal_cell _ _ _ Vx) as ((_ & Ex & Nx) & _ & Fx).
  destruct (valid_normal_cell _ _ _ Vy) as ((_ & Ey & Ny) & _ & Fy).
  exists (Zpos (mx * my)), (ex + ey)%Z, loc_Exact.
  split; [ lia | ]. split; [ | split; [ | reflexivity ] ].
  - cbn [inbetween]. rewrite Pos2Z.inj_mul, mult_IZR, bpow_add. ring.
  - pose proof (digits2_pos_mul mx my) as Hd.
    pose proof (digits2_pos_bounds mx) as [Hx _].
    pose proof (digits2_pos_bounds my) as [Hy _].
    rewrite fexp_eq in *. cbn [Zdigits2] in *.
    assert (Hx53 : (ex <> -1074 -> 53 <= Zpos (digits2_pos mx))%Z).
    { intros Hne. apply (Zdigits2_ge (Zpos mx)); lia. }
    assert (Hy53 : (ey <> -1074 -> 53 <= Zpos (digits2_pos my))%Z).
    { intros Hne. apply (Zdigits2_ge (Zpos my)); lia. }
    lia.
Qed.

(** ** Alignment, and the rounding of a dyadic number *)

Lemma shl_align_spec (m : positive) (e e' : Z) :
  snd (shl_align m e e') = Z.min e e' /\
  Zpos (fst (shl_align m e e')) = (Zpos m * 2 ^ (e - Z.min e e'))%Z.
Proof.
  unfold shl_align. destruct (e' - e)%Z as [ | d | d ] eqn:Hd; cbn [fst snd].
  - replace (Z.min e e') with e by lia. rewrite Z.sub_diag. cbn. split; lia.
  - replace (Z.min e e') with e by lia. rewrite Z.sub_diag. cbn. split; lia.
  - replace (Z.min e e') with e' by lia. split; [ reflexivity | ].
    replace (e - e')%Z with (Zpos d) by lia.
    change (Pos.iter xO m d) with (shift_pos d m).
    rewrite shift_pos_correct. change (Z.pow_pos 2 d) with (2 ^ Zpos d)%Z. ring.
Qed.

Lemma Zdigits2_shift (m k : Z) :
  (0 < m)%Z -> (0 <= k)%Z -> Zdigits2 (m * 2 ^ k) = (Zdigits2 m + k)%Z.
Proof.
  intros Hm Hk. pose proof (Zdigits2_bounds m Hm) as [Hlo Hhi].
  assert (Hd : (0 < Zdigits2 m)%Z) by (destruct m; cbn; lia).
  assert (Hp : (0 < 2 ^ k)%Z) by (apply Z.pow_pos_nonneg; lia).
  apply Z.le_antisymm.
  - apply Zdigits2_le; [ lia | ]. rewrite Z.pow_add_r by lia. nia.
  - apply Zdigits2_ge; [ | nia ].
    replace (Zdigits2 m + k - 1)%Z with (Zdigits2 m - 1 + k)%Z by lia.
    rewrite Z.pow_add_r by lia. nia.
Qed.

Lemma binary_round_rounds (m : positive) (e : Z) :
  rounds_to (IZR (Zpos m) * bpow e) (binary_round prec emax false m e).
Proof.
  unfold binary_round.
  set (f := fexp prec emax (Zpos (digits2_pos m) + e)).
  destruct (shl_align_spec m e f) as [Hs Hm].
  destruct (shl_align m e f) as [mz ez]. cbn [fst snd] in Hs, Hm.
  exists (Zpos mz), ez, loc_Exact.
  assert (Hk : (0 <= e - Z.min e f)%Z) by lia.
  split; [ lia | ]. split; [ | split; [ | reflexivity ] ].
  - cbn [inbetween]. rewrite Hm, mult_IZR, <- bpow_IZR by assumption.
    rewrite Rmult_assoc, <- bpow_add. f_equal. f_equal. lia.
  - rewrite Hm, Zdigits2_shift by lia.
    replace (Zdigits2 (Zpos m) + (e - Z.min e f) + ez)%Z
      with (Zpos (digits2_pos m) + e)%Z by (cbn [Zdigits2]; lia).
    fold f. lia.
Qed.

(** ** Subtraction and addition of positive finite numbers *)

Lemma aligned_value (m : positive) (e ez : Z) :
  (ez <= e)%Z ->
  (IZR (Zpos (fst (shl_align m e ez))) * bpow ez = IZR (Zpos m) * bpow e)%R.
Proof.
  intros H. destruct (shl_align_spec m e ez) as [_ Hm].
  rewrite Hm. replace (Z.min e ez) with ez by lia.
  rewrite mult_IZR, <- bpow_IZR by lia.
  rewrite Rmult_assoc, <- bpow_add. f_equal. f_equal. lia.
Qed.

Lemma SFsub_rounds (mx : positive) (ex : Z) (my : positive) (ey : Z) :
  (IZR (Zpos my) * bpow ey <= IZR (Zpos mx) * bpow ex)%R ->
  rounds_to (IZR (Zpos mx) * bpow ex - IZR (Zpos my) * bpow ey)
            (SFsub prec emax (S754_finite false mx ex) (S754_finite false my ey)).
Proof.
  intros Hle. cbn [SFsub cond_Zopp].
  set (ez := Z.min ex ey).
  pose proof (aligned_value mx ex ez ltac:(lia)) as Hx.
  pose proof (aligned_value my ey ez ltac:(lia)) as Hy.
  set (ax := Zpos (fst (shl_align mx ex ez))) in *.
  set (ay := Zpos (fst (shl_align my ey ez))) in *.
  assert (Hd : (IZR (ax - ay) * bpow ez =
                IZR (Zpos mx) * bpow ex - IZR (Zpos my) * bpow ey)%R).
  { rewrite minus_IZR. lra. }
  pose proof (bpow_pos ez) as HP.
  rewrite <- Hd.
  destruct (ax - ay)%Z as [ | d | d ] eqn:E; cbn [binary_normalize].
  - replace (IZR 0 * bpow ez)%R with 0%R by lra. apply rounds_to_zero.
  - apply binary_round_rounds.
  - exfalso. assert (IZR (Zneg d) < 0)%R by (apply IZR_lt; lia). nra.
Qed.

Lemma SFadd_rounds (mx : positive) (ex : Z) (my : positive) (ey : Z) :
  rounds_to (IZR (Zpos mx) * bpow ex + IZR (Zpos my) * bpow ey)
            (SFadd prec emax (S754_finite false mx ex) (S754_finite false my ey)).
Proof.
  cbn [SFadd cond_Zopp].
  set (ez := Z.min ex ey).
  pose proof (aligned_value mx ex ez ltac:(lia)) as Hx.
  pose proof (aligned_value my ey ez ltac:(lia)) as Hy.
  set (ax := fst (shl_align mx ex ez)) in *.
  set (ay := fst (shl_align my ey ez)) in *.
  change (Zpos ax + Zpos ay)%Z with (Zpos (ax + ay)). cbn [binary_normalize].
  replace (IZR (Zpos mx) * bpow ex + IZR (Zpos my) * bpow ey)%R
    with (IZR (Zpos (ax + ay)) * bpow ez)%R.
  - apply binary_round_rounds.
  - rewrite Pos2Z.inj_add, plus_IZR. lra.
Qed.

(** ** Signs, with no condition on the digits *)

Lemma inbetween_exists (m e : Z) (l : location) : exists x : R, inbetween m e l x.
Proof.
  pose proof (bpow_pos e).
  destruct l as [ | [ | | ] ]; cbn [inbetween].
  - now exists (IZR m * bpow e)%R.
  - now exists ((IZR m + / 2) * bpow e)%R.
  - exists ((IZR m + / 4) * bpow e)%R. split; nra.
  - exists ((IZR m + 3 / 4) * bpow e)%R. split; nra.
Qed.

Lemma shr_fexp_nonneg (m e : Z) (l : location) :
  (0 <= m)%Z -> (0 <= shr_m (fst (shr_fexp prec emax m e l)))%Z.
Proof.
  intros Hm. unfold shr_fexp.
  destruct (loc_of_shr_record_of_loc m l) as [El Em].
  destruct (inbetween_exists m e l) as [x Hx].
  destruct (shr_represents (shr_record_of_loc m l) e
              (fexp prec emax (Zdigits2 m + e) - e) x) as (_ & _ & H3).
  { now rewrite Em. }
  { unfold represents. now rewrite El, Em. }
  rewrite H3, Em. apply Z.div_pos; [ assumption | ].
  apply Z.pow_pos_nonneg; lia.
Qed.

Lemma binary_round_aux_SFnn (m e : Z) (l : location) :
  (0 <= m)%Z -> SFnn (binary_round_aux prec emax false m e l).
Proof.
  intros Hm. unfold binary_round_aux.
  pose proof (shr_fexp_nonneg m e l Hm) as H1.
  destruct (shr_fexp prec emax m e l) as [mrs1 e1]. cbn [fst] in H1.
  pose proof (round_nearest_even_bounds (shr_m mrs1) (loc_of_shr_record mrs1)) as Hr.
  pose proof (shr_fexp_nonneg (round_nearest_even (shr_m mrs1) (loc_of_shr_record mrs1))
                e1 loc_Exact ltac:(lia)) as H2.
  destruct (shr_fexp prec emax _ e1 loc_Exact) as [mrs2 e2]. cbn [fst] in H2.
  destruct (shr_m mrs2) as [ | p | p ]; try lia; cbn [SFnn]; try exact I.
  destruct (e2 <=? emax - prec)%Z; exact I.
Qed.

(** ** Sign and NaN-freedom of the operations *)

Lemma SFleb_zero_l (s : bool) (f : spec_float) : SFnn f -> SFleb (S754_zero s) f = true.
Proof. destruct f as [ | [ | ] | | [ | ] ]; cbn; intros H; try contradiction; reflexivity. Qed.

Lemma SFleb_infinity_r (f : spec_float) : SFnn f -> SFleb f (S754_infinity false) = true.
Proof. destruct f as [ | [ | ] | | [ | ] ]; cbn; intros H; try contradiction; reflexivity. Qed.

Lemma SFleb_SFnn_r (x y : spec_float) : SFnn x -> SFleb x y = true -> SFnn y.
Proof.
  destruct x as [ | [ | ] | | [ | ] ], y as [ | [ | ] | | [ | ] ];
    cbn; intros H; try contradiction; try discriminate; intros _; exact I.
Qed.

Lemma SFnn_div (x c : spec_float) : SFnn x -> SFpos c -> SFnn (SFdiv prec emax x c).
Proof.
  destruct c as [ | | | [ | ] mc ec]; try contradiction.
  destruct x as [ sx | [ | ] | | [ | ] mx ex]; try contradiction; intros _ _.
  - exact I.
  - exact I.
  - exact (rounds_to_SFnn _ _ (SFdiv_rounds mx ex mc ec)).
Qed.

Lemma SFnn_mul_r (x c : spec_float) : SFnn x -> SFpos c -> SFnn (SFmul prec emax x c).
Proof.
  destruct c as [ | | | [ | ] mc ec]; try contradiction.
  destruct x as [ sx | [ | ] | | [ | ] mx ex]; try contradiction; intros _ _.
  - exact I.
  - exact I.
  - cbn [SFmul xorb]. apply binary_round_aux_SFnn. lia.
Qed.

Lemma SFnn_mul_l (c x : spec_float) : SFpos c -> SFnn x -> SFnn (SFmul prec emax c x).
Proof.
  destruct c as [ | | | [ | ] mc ec]; try contradiction.
  destruct x as [ sx | [ | ] | | [ | ] mx ex]; try contradiction; intros _ _.
  - exact I.
  - exact I.
  - cbn [SFmul xorb]. apply binary_round_aux_SFnn. lia.
Qed.

Lemma SFnn_add (x y : spec_float) : SFnn x -> SFnn y -> SFnn (SFadd prec emax x y).
Proof.
  destruct x as [ sx | [ | ] | | [ | ] mx ex]; try contradiction;
    destruct y as [ sy | [ | ] | | [ | ] my ey]; try contradiction; intros _ _;
    try exact I.
  - destruct sx, sy; exact I.
  - exact (rounds_to_SFnn _ _ (SFadd_rounds mx ex my ey)).
Qed.

Lemma SFnn_sqrt (x : spec_float) : SFnn x -> SFnn (SFsqrt prec emax x).
Proof.
  destruct x as [ sx | [ | ] | | [ | ] mx ex]; try contradiction; intros _;
    try exact I.
  cbn [SFsqrt]. unfold SFsqrt_core_binary.
  set (m' := match (ex - 2 * _)%Z with
             | Zpos _ => _
             | Z0 => _
             | Zneg _ => _
             end).
  assert (Hm' : (0 <= m')%Z).
  { subst m'. destruct (ex - 2 * _)%Z; try lia. apply Z.shiftl_nonneg. lia. }
  pose proof (Z.sqrtrem_spec m' Hm') as Hs.
  destruct (Z.sqrtrem m') as [q r]. apply binary_round_aux_SFnn. lia.
Qed.

(** ** The order on non-negative numbers *)

Lemma cell_le_SFleb (m1 : positive) (e1 : Z) (m2 : positive) (e2 : Z) :
  cell_le e1 (Zpos m1) loc_Exact e2 (Zpos m2) loc_Exact ->
  SFleb (S754_finite false m1 e1) (S754_finite false m2 e2) = true.
Proof.
  unfold SFleb, cell_le. cbn [SFcompare loc_rank].
  intros [Hlt | [-> Hm]].
  - apply Z.compare_lt_iff in Hlt. now rewrite Hlt.
  - rewrite Z.compare_refl.
    change (Pos.compare_cont Eq m1 m2) with (Pos.compare m1 m2).
    destruct (Pos.compare_spec m1 m2); try reflexivity. lia.
Qed.

Lemma SFleb_trans (a b c : spec_float) :
  SFnn a -> SFleb a b = true -> SFleb b c = true -> SFleb a c = true.
Proof.
  intros Ha Hab Hbc.
  pose proof (SFleb_SFnn_r a b Ha Hab) as Hb.
  pose proof (SFleb_SFnn_r b c Hb Hbc) as Hc.
  destruct a as [ sa | [ | ] | | [ | ] ma ea]; try contradiction.
  - now apply SFleb_zero_l.
  - destruct b as [ sb | [ | ] | | [ | ] mb eb]; try contradiction; try discriminate.
    destruct c as [ sc | [ | ] | | [ | ] mc ec]; try contradiction; try discriminate.
    reflexivity.
  - destruct b as [ sb | [ | ] | | [ | ] mb eb]; try contradiction; try discriminate.
    + destruct c as [ sc | [ | ] | | [ | ] mc ec]; try contradiction; try discriminate.
      reflexivity.
    + destruct c as [ sc | [ | ] | | [ | ] mc ec]; try contradiction; try discriminate.
      * reflexivity.
      * apply SFleb_finite_cell in Hab, Hbc. apply cell_le_SFleb.
        unfold cell_le in *. cbn [loc_rank] in *. lia.
Qed.

Lemma SFltb_SFleb (x y : spec_float) : SFltb x y = true -> SFleb x y = true.
Proof. unfold SFltb, SFleb. now destruct (SFcompare x y) as [[ | | ] | ]. Qed.

(** ** Monotonicity of the operations *)

Lemma SFdiv_mono_num (x y c : spec_float) :
  valid_binary x = true -> valid_binary y = true ->
  SFnn x -> SFleb x y = true -> SFpos c ->
  SFleb (SFdiv prec emax x c) (SFdiv prec emax y c) = true.
Proof.
  intros Vx Vy Nx Hle Pc.
  pose proof (SFleb_SFnn_r x y Nx Hle) as Ny.
  pose proof (SFnn_div y c Ny Pc) as Nyc.
  pose proof (SFnn_div x c Nx Pc) as Nxc.
  destruct c as [ | | | [ | ] mc ec]; try contradiction.
  destruct x as [ sx | [ | ] | | [ | ] mx ex]; try contradiction.
  - now apply SFleb_zero_l.
  - destruct y as [ sy | [ | ] | | [ | ] my ey]; try contradiction; try discriminate.
    reflexivity.
  - destruct y as [ sy | [ | ] | | [ | ] my ey]; try contradiction; try discriminate.
    + now apply SFleb_infinity_r.
    + apply (rounds_to_mono _ _ _ _ (SFdiv_rounds mx ex mc ec) (SFdiv_rounds my ey mc ec)).
      pose proof (SFleb_SFval _ _ Vx Vy I I Hle) as Hv. cbn [SFval] in Hv.
      pose proof (bpow_pos ec). assert (0 < IZR (Zpos mc))%R by (apply IZR_lt; lia).
      assert (0 < IZR (Zpos mc) * bpow ec)%R by nra.
      apply Rmult_le_compat_r; [ | exact Hv ].
      apply Rlt_le, Rinv_0_lt_compat. assumption.
Qed.

Lemma SFmul_mono (x y c : spec_float) :
  valid_binary x = true -> valid_binary y = true -> valid_binary c = true ->
  SFnn x -> SFleb x y = true -> SFpos c ->
  SFleb (SFmul prec emax x c) (SFmul prec emax y c) = true.
Proof.
  intros Vx Vy Vc Nx Hle Pc.
  pose proof (SFleb_SFnn_r x y Nx Hle) as Ny.
  pose proof (SFnn_mul_r y c Ny Pc) as Nyc.
  pose proof (SFnn_mul_r x c Nx Pc) as Nxc.
  destruct c as [ | | | [ | ] mc ec]; try contradiction.
  destruct x as [ sx | [ | ] | | [ | ] mx ex]; try contradiction.
  - now apply SFleb_zero_l.
  - destruct y as [ sy | [ | ] | | [ | ] my ey]; try contradiction; try discriminate.
    reflexivity.
  - destruct y as [ sy | [ | ] | | [ | ] my ey]; try contradiction; try discriminate.
    + now apply SFleb_infinity_r.
    + apply (rounds_to_mono _ _ _ _ (SFmul_rounds mx ex mc ec Vx Vc)
               (SFmul_rounds my ey mc ec Vy Vc)).
      pose proof (SFleb_SFval _ _ Vx Vy I I Hle) as Hv. cbn [SFval] in Hv.
      pose proof (bpow_pos ec). assert (0 < IZR (Zpos mc))%R by (apply IZR_lt; lia).
      apply Rmult_le_compat_r; [ nra | exact Hv ].
Qed.

Lemma SFdiv_anti_den (s d1 d2 : spec_float) :
  valid_binary d1 = true -> valid_binary d2 = true ->
  SFnn s -> SFpos d1 -> SFpos d2 -> SFleb d2 d1 = true ->
  SFleb (SFdiv prec emax s d1) (SFdiv prec emax s d2) = true.
Proof.
  intros V1 V2 Ns P1 P2 Hle.
  destruct d1 as [ | | | [ | ] m1 e1]; try contradiction.
  destruct d2 as [ | | | [ | ] m2 e2]; try contradiction.
  destruct s as [ ss | [ | ] | | [ | ] ms es]; try contradiction; try reflexivity.
  apply (rounds_to_mono _ _ _ _ (SFdiv_rounds ms es m1 e1) (SFdiv_rounds ms es m2 e2)).
  pose proof (SFleb_SFval _ _ V2 V1 I I Hle) as Hv. cbn [SFval] in Hv.
  pose proof (bpow_pos e1). pose proof (bpow_pos e2). pose proof (bpow_pos es).
  assert (0 < IZR (Zpos m1))%R by (apply IZR_lt; lia).
  assert (0 < IZR (Zpos m2))%R by (apply IZR_lt; lia).
  assert (0 < IZR (Zpos ms))%R by (apply IZR_lt; lia).
  assert (0 < IZR (Zpos m1) * bpow e1)%R by nra.
  assert (0 < IZR (Zpos m2) * bpow e2)%R by nra.
  apply Rmult_le_compat_l; [ nra | ].
  apply Rinv_le_contravar; assumption.
Qed.

Lemma SFone_value : SFval SFone = 1%R.
Proof.
  cbn [SFval SFone]. change 4503599627370496%Z with (2 ^ 52)%Z.
  rewrite <- bpow_IZR, <- bpow_add by lia. reflexivity.
Qed.

Lemma SFsub_one_rounds (q : spec_float) :
  SFnnf q -> (SFval q <= 1)%R ->
  rounds_to (1 - SFval q) (SFsub prec emax SFone q).
Proof.
  intros Nq Hq. destruct q as [ sq | | | [ | ] mq eq]; try contradiction.
  - cbn [SFval SFsub SFone]. rewrite Rminus_0_r, <- SFone_value.
    now apply rounds_to_self.
  - rewrite <- SFone_value. unfold SFone at 2. cbn [SFval].
    apply SFsub_rounds. rewrite <- SFone_value in Hq. exact Hq.
Qed.

Lemma SFsub_one_anti (q1 q2 : spec_float) :
  valid_binary q1 = true -> valid_binary q2 = true ->
  SFnnf q1 -> SFnnf q2 -> SFleb q1 q2 = true -> SFleb q2 SFone = true ->
  SFleb (SFsub prec emax SFone q2) (SFsub prec emax SFone q1) = true.
Proof.
  intros V1 V2 N1 N2 H12 H21.
  pose proof (SFleb_SFval _ _ V1 V2 N1 N2 H12) as Hv.
  pose proof (SFleb_SFval q2 SFone V2 eq_refl N2 I H21) as Hv1. rewrite SFone_value in Hv1.
  apply (rounds_to_mono (1 - SFval q2) (1 - SFval q1)).
  - now apply SFsub_one_rounds.
  - apply SFsub_one_rounds; [ assumption | lra ].
  - lra.
Qed.

(** * Primitive floats *)

Lemma SFcompare_antisym (x y : spec_float) :
  SFcompare y x = option_map CompOpp (SFcompare x y).
Proof.
  destruct x as [sx | sx | | sx mx ex], y as [sy | sy | | sy my ey];
    try destruct sx; try destruct sy; try reflexivity.
  - cbn. rewrite (Z.compare_antisym ey ex).
    destruct (ey ?= ex)%Z; cbn; try reflexivity.
    rewrite (Pos.compare_cont_antisym mx my Eq). cbn.
    now destruct (Pos.compare_cont Eq mx my).
  - cbn. rewrite (Z.compare_antisym ey ex).
    destruct (ey ?= ex)%Z; cbn; try reflexivity.
    rewrite (Pos.compare_cont_antisym mx my Eq). cbn.
    now destruct (Pos.compare_cont Eq mx my).
Qed.

Lemma leb_true_ltb_false (x y : float) :
  (x <=? y)%float = true -> (y <? x)%float = false.
Proof.
  rewrite FloatAxioms.leb_spec, FloatAxioms.ltb_spec. unfold SFleb, SFltb.
  rewrite (SFcompare_antisym (Prim2SF x) (Prim2SF y)).
  destruct (SFcompare (Prim2SF x) (Prim2SF y)) as [[ | | ] | ]; cbn; congruence.
Qed.

Lemma Prim2SF_zero : Prim2SF 0%float = S754_zero false.
Proof. reflexivity. Qed.

Lemma leb0_SFnn (x : float) : (0 <=? x)%float = true <-> SFnn (Prim2SF x).
Proof.
  rewrite FloatAxioms.leb_spec, Prim2SF_zero.
  destruct (Prim2SF x) as [ | [ | ] | | [ | ] ]; cbn; intuition congruence.
Qed.

Lemma is_finite_not_infinity (x : float) (s : bool) :
  is_finite x = true -> Prim2SF x <> S754_infinity s.
Proof.
  unfold is_finite, is_infinity. intros H E.
  rewrite FloatAxioms.eqb_spec, FloatAxioms.abs_spec, E in H. cbn in H.
  now rewrite orb_true_r in H.
Qed.

Lemma is_finite_not_nan (x : float) : is_finite x = true -> Prim2SF x <> S754_nan.
Proof.
  unfold is_finite, is_nan. intros H E.
  rewrite FloatAxioms.eqb_spec, E in H. cbn in H. discriminate.
Qed.

(** What [isPositive] and [Number.isFinite] together say. *)
Lemma positive_finite_SFpos (x : float) :
  (0 <? x)%float = true -> is_finite x = true -> SFpos (Prim2SF x).
Proof.
  intros Hpos Hfin. rewrite FloatAxioms.ltb_spec, Prim2SF_zero in Hpos.
  pose proof (is_finite_not_infinity x false Hfin).
  destruct (Prim2SF x) as [ | [ | ] | | [ | ] ]; cbn in *; congruence || exact I.
Qed.

Lemma SFpos_positive (x : float) : SFpos (Prim2SF x) -> (0 <? x)%float = true.
Proof.
  rewrite FloatAxioms.ltb_spec, Prim2SF_zero.
  destruct (Prim2SF x) as [ | | | [ | ] ]; cbn; intros H; try contradiction; reflexivity.
Qed.

Lemma SFpos_SFnn (f : spec_float) : SFpos f -> SFnn f.
Proof.
  destruct f as [ | [ | ] | | [ | ] ]; cbn; intros H; try contradiction; exact I.
Qed.

(** A finite number that is not below zero is a zero or positive. *)
Lemma finite_not_negative_SFnnf (x : float) :
  is_finite x = true -> (x <? 0)%float = false -> SFnnf (Prim2SF x).
Proof.
  intros Hfin Hneg. rewrite FloatAxioms.ltb_spec, Prim2SF_zero in Hneg.
  pose proof (is_finite_not_infinity x false Hfin).
  pose proof (is_finite_not_nan x Hfin).
  destruct (Prim2SF x) as [ | [ | ] | | [ | ] ]; cbn in *; congruence || exact I.
Qed.

Lemma SFnnf_SFnn (f : spec_float) : SFnnf f -> SFnn f.
Proof.
  destruct f as [ | [ | ] | | [ | ] ]; cbn; intros H; try contradiction; exact I.
Qed.

(** ** Non-negative results *)

Lemma div_nonneg (x c : float) :
  (0 <=? x)%float = true -> SFpos (Prim2SF c) -> (0 <=? x / c)%float = true.
Proof.
  rewrite !leb0_SFnn, FloatAxioms.div_spec. apply SFnn_div.
Qed.

Lemma mul_nonneg_r (x c : float) :
  (0 <=? x)%float = true -> SFpos (Prim2SF c) -> (0 <=? x * c)%float = true.
Proof.
  rewrite !leb0_SFnn, FloatAxioms.mul_spec. apply SFnn_mul_r.
Qed.

Lemma mul_nonneg_l (c x : float) :
  SFpos (Prim2SF c) -> (0 <=? x)%float = true -> (0 <=? c * x)%float = true.
Proof.
  rewrite !leb0_SFnn, FloatAxioms.mul_spec. apply SFnn_mul_l.
Qed.

Lemma add_nonneg (x y : float) :
  (0 <=? x)%float = true -> (0 <=? y)%float = true -> (0 <=? x + y)%float = true.
Proof.
  rewrite !leb0_SFnn, FloatAxioms.add_spec. apply SFnn_add.
Qed.

Lemma sqrt_nonneg (x : float) :
  (0 <=? x)%float = true -> (0 <=? sqrt x)%float = true.
Proof.
  rewrite !leb0_SFnn, FloatAxioms.sqrt_spec. apply SFnn_sqrt.
Qed.

(** ** Monotone operations *)

Lemma div_mono_num (x y c : float) :
  (0 <=? x)%float = true -> (x <=? y)%float = true -> SFpos (Prim2SF c) ->
  (x / c <=? y / c)%float = true.
Proof.
  rewrite leb0_SFnn, !FloatAxioms.leb_spec, !FloatAxioms.div_spec. intros Nx Hle Pc.
  apply SFdiv_mono_num; try assumption; apply Prim2SF_valid.
Qed.

Lemma mul_mono (x y c : float) :
  (0 <=? x)%float = true -> (x <=? y)%float = true -> SFpos (Prim2SF c) ->
  (x * c <=? y * c)%float = true.
Proof.
  rewrite leb0_SFnn, !FloatAxioms.leb_spec, !FloatAxioms.mul_spec. intros Nx Hle Pc.
  apply SFmul_mono; try assumption; apply Prim2SF_valid.
Qed.

Lemma div_anti_den (s d1 d2 : float) :
  (0 <=? s)%float = true -> SFpos (Prim2SF d1) -> SFpos (Prim2SF d2) ->
  (d2 <=? d1)%float = true ->
  (s / d1 <=? s / d2)%float = true.
Proof.
  rewrite leb0_SFnn, !FloatAxioms.leb_spec, !FloatAxioms.div_spec. intros Ns P1 P2 Hle.
  apply SFdiv_anti_den; try assumption; apply Prim2SF_valid.
Qed.

Lemma leb_trans (a b c : float) :
  (0 <=? a)%float = true -> (a <=? b)%float = true -> (b <=? c)%float = true ->
  (a <=? c)%float = true.
Proof.
  rewrite leb0_SFnn, !FloatAxioms.leb_spec. apply SFleb_trans.
Qed.

(** ** The reserve divisor [1 - r / 100] *)

Lemma Prim2SF_100 : Prim2SF 100%float = S754_finite false 7036874417766400 (-46).
Proof. reflexivity. Qed.

Lemma Prim2SF_1 : Prim2SF 1%float = SFone.
Proof. reflexivity. Qed.

Lemma SFleb_false_pred (m0 : positive) (e0 : Z) (r : spec_float) :
  SFnnf r -> (1 < m0)%positive ->
  SFleb (S754_finite false m0 e0) r = false ->
  SFleb r (S754_finite false (Pos.pred m0) e0) = true.
Proof.
  destruct r as [ s | | | [ | ] m e]; try contradiction; intros _ Hm0; [ reflexivity | ].
  unfold SFleb. cbn [SFcompare].
  destruct (Z.compare_spec e0 e) as [ <- | | ]; try discriminate.
  - rewrite Z.compare_refl.
    change (Pos.compare_cont Eq m0 m) with (Pos.compare m0 m).
    change (Pos.compare_cont Eq m (Pos.pred m0)) with (Pos.compare m (Pos.pred m0)).
    destruct (Pos.compare_spec m0 m); try discriminate.
    destruct (Pos.compare_spec m (Pos.pred m0)); try reflexivity. lia.
  - intros _. assert (H' : (e ?= e0)%Z = Lt) by now apply Z.compare_lt_iff.
    now rewrite H'.
Qed.

Lemma SFnnf_below_100 (r : spec_float) :
  SFnnf r -> SFleb (Prim2SF 100%float) r = false ->
  SFleb r (S754_finite false 7036874417766399 (-46)) = true.
Proof.
  rewrite Prim2SF_100. intros N H.
  exact (SFleb_false_pred 7036874417766400 (-46) r N eq_refl H).
Qed.

(** Below 100 the quotient [r / 100] is a finite number at most
    [1 - 2 ^ -53]. *)
Lemma reserve_quotient (r : spec_float) :
  valid_binary r = true -> SFnnf r -> SFleb (Prim2SF 100%float) r = false ->
  let q := SFdiv prec emax r (Prim2SF 100%float) in
  SFnnf q /\ SFleb q (S754_finite false 9007199254740991 (-53)) = true.
Proof.
  intros V N H q.
  pose proof (SFnnf_below_100 r N H) as Hle.
  assert (Hq : SFleb q (S754_finite false 9007199254740991 (-53)) = true).
  { change (S754_finite false 9007199254740991 (-53))
      with (SFdiv prec emax (S754_finite false 7036874417766399 (-46))
              (Prim2SF 100%float)).
    exact (SFdiv_mono_num r (S754_finite false 7036874417766399 (-46))
             (Prim2SF 100%float) V eq_refl (SFnnf_SFnn _ N) Hle I). }
  split; [ | exact Hq ].
  assert (Nq : SFnn q) by (apply SFnn_div; [ now apply SFnnf_SFnn | exact I ]).
  destruct q as [ | [ | ] | | [ | ] ]; try contradiction; try exact I.
  discriminate.
Qed.

Lemma reserve_divisor (r : spec_float) :
  valid_binary r = true -> SFnnf r -> SFleb (Prim2SF 100%float) r = false ->
  let d := SFsub prec emax SFone (SFdiv prec emax r (Prim2SF 100%float)) in
  SFpos d /\ SFleb d SFone = true.
Proof.
  intros V N H d.
  destruct (reserve_quotient r V N H) as [Nq Hq]. cbn zeta in Nq, Hq.
  set (q := SFdiv prec emax r (Prim2SF 100%float)) in *.
  assert (Vq : valid_binary q = true).
  { subst q. rewrite <- (SF2Prim_Prim2SF 100%float) at 1.
    destruct r as [ s | | | [ | ] m e]; try contradiction.
    - reflexivity.
    - rewrite <- (Prim2SF_SF2Prim (S754_finite false m e) V).
      rewrite SF2Prim_Prim2SF, <- FloatAxioms.div_spec. apply Prim2SF_valid. }
  assert (Hone : SFleb q SFone = true).
  { apply (SFleb_trans q (S754_finite false 9007199254740991 (-53)) SFone);
      [ now apply SFnnf_SFnn | assumption | reflexivity ]. }
  assert (Hlow : SFleb (S754_finite false 4503599627370496 (-105)) d = true).
  { change (S754_finite false 4503599627370496 (-105))
      with (SFsub prec emax SFone (S754_finite false 9007199254740991 (-53))).
    exact (SFsub_one_anti q (S754_finite false 9007199254740991 (-53))
             Vq eq_refl Nq I Hq eq_refl). }
  assert (Hup : SFleb d SFone = true).
  { change (SFleb d (SFsub prec emax SFone (S754_zero false)) = true).
    exact (SFsub_one_anti (S754_zero false) q eq_refl Vq I Nq
             (SFleb_zero_l false q (SFnnf_SFnn _ Nq)) Hone). }
  split; [ | exact Hup ].
  destruct d as [ | [ | ] | | [ | ] ]; try discriminate; exact I.
Qed.

Lemma reserve_divisor_positive (r : float) :
  is_finite r = true -> (r <? 0)%float = false -> (100 <=? r)%float = false ->
  SFpos (Prim2SF (1 - r / 100)%float).
Proof.
  intros Hfin Hneg Hhigh.
  rewrite FloatAxioms.sub_spec, FloatAxioms.div_spec, Prim2SF_1.
  apply reserve_divisor.
  - apply Prim2SF_valid.
  - now apply finite_not_negative_SFnnf.
  - now rewrite <- FloatAxioms.leb_spec.
Qed.

(** A larger reserve gives a smaller divisor, never a larger one. *)
Lemma reserve_divisor_anti (r1 r2 : float) :
  is_finite r1 = true -> is_finite r2 = true ->
  (r1 <? 0)%float = false -> (r1 <=? r2)%float = true ->
  (100 <=? r2)%float = false ->
  (1 - r2 / 100 <=? 1 - r1 / 100)%float = true.
Proof.
  intros F1 F2 Hneg Hle Hhigh.
  pose proof (finite_not_negative_SFnnf r1 F1 Hneg) as N1.
  rewrite FloatAxioms.leb_spec in Hle, Hhigh.
  assert (N2 : SFnnf (Prim2SF r2)).
  { pose proof (SFleb_SFnn_r _ _ (SFnnf_SFnn _ N1) Hle) as N.
    pose proof (is_finite_not_infinity r2 false F2).
    destruct (Prim2SF r2) as [ | [ | ] | | [ | ] ]; try contradiction; exact I || congruence. }
  destruct (reserve_quotient (Prim2SF r2) (Prim2SF_valid r2) N2 Hhigh) as [Nq2 Hq2].
  cbn zeta in Nq2, Hq2.
  assert (Hq : SFleb (SFdiv prec emax (Prim2SF r1) (Prim2SF 100%float))
                     (SFdiv prec emax (Prim2SF r2) (Prim2SF 100%float)) = true).
  { exact (SFdiv_mono_num (Prim2SF r1) (Prim2SF r2) (Prim2SF 100%float)
             (Prim2SF_valid r1) (Prim2SF_valid r2) (SFnnf_SFnn _ N1) Hle I). }
  assert (Nq1 : SFnnf (SFdiv prec emax (Prim2SF r1) (Prim2SF 100%float))).
  { assert (Nn : SFnn (SFdiv prec emax (Prim2SF r1) (Prim2SF 100%float)))
      by (apply SFnn_div; [ now apply SFnnf_SFnn | exact I ]).
    destruct (SFdiv prec emax (Prim2SF r1) (Prim2SF 100%float)) as [ | [ | ] | | [ | ] ];
      try contradiction; try exact I.
    destruct (SFdiv prec emax (Prim2SF r2) (Prim2SF 100%float)) as [ | [ | ] | | [ | ] ];
      try contradiction; discriminate. }
  rewrite FloatAxioms.leb_spec, !FloatAxioms.sub_spec, !FloatAxioms.div_spec, Prim2SF_1.
  apply SFsub_one_anti; try assumption.
  - rewrite <- FloatAxioms.div_spec. apply Prim2SF_valid.
  - rewrite <- FloatAxioms.div_spec. apply Prim2SF_valid.
  - apply (SFleb_trans _ (S754_finite false 9007199254740991 (-53)) SFone);
      [ now apply SFnnf_SFnn | assumption | reflexivity ].
Qed.

(** Step 5 as a function of the reserve: never decreasing. *)
Lemma reserve_adjust_mono (s4 r1 r2 : float) :
  (0 <=? s4)%float = true ->
  is_finite r1 = true -> is_finite r2 = true ->
  (r1 <? 0)%float = false -> (r1 <=? r2)%float = true ->
  (100 <=? r2)%float = false ->
  (s4 / (1 - r1 / 100) <=? s4 / (1 - r2 / 100))%float = true.
Proof.
  intros Hs F1 F2 Hneg Hle Hhigh.
  assert (Hhigh1 : (100 <=? r1)%float = false).
  { destruct (100 <=? r1)%float eqn:E; [ | reflexivity ].
    rewrite <- Hhigh. symmetry.
    apply (leb_trans 100 r1 r2); [ reflexivity | assumption | assumption ]. }
  assert (Hneg2 : (r2 <? 0)%float = false).
  { pose proof (finite_not_negative_SFnnf r1 F1 Hneg) as N1.
    rewrite FloatAxioms.leb_spec in Hle.
    pose proof (SFleb_SFnn_r _ _ (SFnnf_SFnn _ N1) Hle) as N.
    rewrite FloatAxioms.ltb_spec, Prim2SF_zero.
    destruct (Prim2SF r2) as [ | [ | ] | | [ | ] ]; try contradiction; reflexivity. }
  apply div_anti_den; try assumption.
  - now apply reserve_divisor_positive.
  - now apply reserve_divisor_positive.
  - now apply reserve_divisor_anti.
Qed.

Lemma ltb_true_leb_false (x y : float) :
  (x <? y)%float = true -> (y <=? x)%float = false.
Proof.
  rewrite FloatAxioms.leb_spec, FloatAxioms.ltb_spec. unfold SFleb, SFltb.
  rewrite (SFcompare_antisym (Prim2SF x) (Prim2SF y)).
  destruct (SFcompare (Prim2SF x) (Prim2SF y)) as [[ | | ] | ]; cbn; congruence.
Qed.

(** ** Exact results, sums and square roots *)

Lemma SFleb_antisym (f1 f2 : spec_float) :
  SFnn0 f1 -> SFnn0 f2 -> SFleb f1 f2 = true -> SFleb f2 f1 = true -> f1 = f2.
Proof.
  destruct f1 as [ [ | ] | [ | ] | | [ | ] m1 e1], f2 as [ [ | ] | [ | ] | | [ | ] m2 e2];
    try contradiction; intros _ _ H12 H21; try reflexivity; try discriminate.
  pose proof (SFleb_finite_cell _ _ _ _ H12) as C12.
  pose proof (SFleb_finite_cell _ _ _ _ H21) as C21.
  unfold cell_le in C12, C21.
  assert (e1 = e2) by lia. assert (Zpos m1 = Zpos m2) by lia. congruence.
Qed.

Lemma rounds_to_SFnn0 (x : R) (f : spec_float) : rounds_to x f -> SFnn0 f.
Proof.
  intros (m & e & l & H & I & D & ->).
  destruct (binary_round_aux_cases false m e l x H I D) as [-> | [-> | (p & E & -> & _)]];
    exact Logic.I.
Qed.

(** A real number has one rounding. *)
Lemma rounds_to_unique (x : R) (f1 f2 : spec_float) :
  rounds_to x f1 -> rounds_to x f2 -> f1 = f2.
Proof.
  intros H1 H2.
  apply SFleb_antisym; try (eapply rounds_to_SFnn0; eassumption).
  - apply (rounds_to_mono x x); try assumption. apply Rle_refl.
  - apply (rounds_to_mono x x); try assumption. apply Rle_refl.
Qed.

Lemma SFnn0_SFnn (f : spec_float) : SFnn0 f -> SFnn f.
Proof. destruct f as [ [ | ] | [ | ] | | [ | ] m e]; intros H; try contradiction; exact I. Qed.

Lemma SFpos_SFnn0 (f : spec_float) : SFpos f -> SFnn0 f.
Proof. destruct f as [ [ | ] | [ | ] | | [ | ] m e]; intros H; try contradiction; exact I. Qed.

(** Dividing by one changes nothing. *)
Lemma SFdiv_one (x : spec_float) :
  valid_binary x = true -> SFnn x -> SFdiv prec emax x SFone = x.
Proof.
  intros V N.
  destruct x as [ [ | ] | [ | ] | | [ | ] m e]; try contradiction; try reflexivity.
  apply (rounds_to_unique (IZR (Zpos m) * bpow e)); [ | now apply rounds_to_self ].
  pose proof (SFdiv_rounds m e 4503599627370496 (-52)) as H.
  pose proof SFone_value as H1. cbn [SFval SFone] in H1. rewrite H1 in H.
  replace (IZR (Zpos m) * bpow e / 1)%R with (IZR (Zpos m) * bpow e)%R in H by lra.
  exact H.
Qed.

Lemma div_one (x : float) : (0 <=? x)%float = true -> (x / 1)%float = x.
Proof.
  rewrite leb0_SFnn. intros N. apply Prim2SF_inj.
  rewrite FloatAxioms.div_spec, Prim2SF_1.
  apply SFdiv_one; [ apply Prim2SF_valid | exact N ].
Qed.

(** The sum of two numbers that are zero or positive and finite is the
    rounding of the sum of their values. *)
Lemma SFadd_rounds_nn (x y : spec_float) :
  valid_binary x = true -> valid_binary y = true ->
  SFnn0 x -> SFnn0 y -> SFnnf x -> SFnnf y ->
  rounds_to (SFval x + SFval y) (SFadd prec emax x y).
Proof.
  intros Vx Vy Nx Ny Fx Fy.
  destruct x as [ [ | ] | [ | ] | | [ | ] mx ex]; try contradiction;
    destruct y as [ [ | ] | [ | ] | | [ | ] my ey]; try contradiction;
    cbn [SFval SFadd].
  - replace (0 + 0)%R with 0%R by lra. exact rounds_to_zero.
  - replace (0 + IZR (Zpos my) * bpow ey)%R with (IZR (Zpos my) * bpow ey)%R by lra.
    now apply rounds_to_self.
  - replace (IZR (Zpos mx) * bpow ex + 0)%R with (IZR (Zpos mx) * bpow ex)%R by lra.
    now apply rounds_to_self.
  - apply SFadd_rounds.
Qed.

Lemma SFnn0_add (x y : spec_float) :
  SFnn0 x -> SFnn0 y -> SFnn0 (SFadd prec emax x y).
Proof.
  destruct x as [ [ | ] | [ | ] | | [ | ] mx ex]; try contradiction;
    destruct y as [ [ | ] | [ | ] | | [ | ] my ey]; try contradiction;
    intros _ _; try exact I.
  exact (rounds_to_SFnn0 _ _ (SFadd_rounds mx ex my ey)).
Qed.

Lemma SFnn0_mul (x y : spec_float) :
  valid_binary x = true -> valid_binary y = true ->
  SFpos x -> SFnn0 y -> SFnn0 (SFmul prec emax x y).
Proof.
  intros Vx Vy.
  destruct x as [ [ | ] | [ | ] | | [ | ] mx ex]; try contradiction;
    destruct y as [ [ | ] | [ | ] | | [ | ] my ey]; try contradiction;
    intros _ _; try exact I.
  exact (rounds_to_SFnn0 _ _ (SFmul_rounds mx ex my ey Vx Vy)).
Qed.

Lemma SFnn0_div (x y : spec_float) :
  SFpos x -> SFpos y -> SFnn0 (SFdiv prec emax x y).
Proof.
  destruct x as [ [ | ] | [ | ] | | [ | ] mx ex]; try contradiction;
    destruct y as [ [ | ] | [ | ] | | [ | ] my ey]; try contradiction;
    intros _ _.
  exact (rounds_to_SFnn0 _ _ (SFdiv_rounds mx ex my ey)).
Qed.

Lemma SFleb_refl (x : spec_float) : SFnn x -> SFleb x x = true.
Proof.
  destruct x as [ [ | ] | [ | ] | | [ | ] m e]; try contradiction; intros _;
    try reflexivity.
  apply cell_le_SFleb. unfold cell_le. right. split; [ reflexivity | ].
  right. split; [ reflexivity | lia ].
Qed.

(** Adding a number that is not negative is monotone in the other number. *)
Lemma SFadd_mono (x y c : spec_float) :
  valid_binary x = true -> valid_binary y = true -> valid_binary c = true ->
  SFnn0 x -> SFnn0 y -> SFnn0 c -> SFleb x y = true ->
  SFleb (SFadd prec emax x c) (SFadd prec emax y c) = true.
Proof.
  intros Vx Vy Vc Nx Ny Nc Hle.
  pose proof (SFnn0_SFnn _ (SFnn0_add x c Nx Nc)) as Nxc.
  pose proof (SFnn0_SFnn _ (SFnn0_add y c Ny Nc)) as Nyc.
  destruct c as [ [ | ] | [ | ] | | [ | ] mc ec]; try contradiction.
  - (* c = +0 *)
    destruct x as [ [ | ] | [ | ] | | [ | ] mx ex]; try contradiction;
      destruct y as [ [ | ] | [ | ] | | [ | ] my ey]; try contradiction;
      cbn [SFadd]; try reflexivity; try exact Hle.
  - (* c = +oo *)
    destruct x as [ [ | ] | [ | ] | | [ | ] mx ex]; try contradiction;
      destruct y as [ [ | ] | [ | ] | | [ | ] my ey]; try contradiction;
      reflexivity.
  - destruct y as [ [ | ] | [ | ] | | [ | ] my ey]; try contradiction.
    + destruct x as [ [ | ] | [ | ] | | [ | ] mx ex]; try contradiction;
        try discriminate.
      now apply SFleb_refl.
    + now apply SFleb_infinity_r.
    + destruct x as [ [ | ] | [ | ] | | [ | ] mx ex]; try contradiction;
        try discriminate.
      * apply (rounds_to_mono (SFval (S754_zero false) + SFval (S754_finite false mc ec))
                 (SFval (S754_finite false my ey) + SFval (S754_finite false mc ec)));
          try (apply SFadd_rounds_nn; try assumption; try reflexivity; exact I).
        pose proof (SFval_pos (S754_finite false my ey) I). cbn [SFval] in *. lra.
      * apply (rounds_to_mono (SFval (S754_finite false mx ex) + SFval (S754_finite false mc ec))
                 (SFval (S754_finite false my ey) + SFval (S754_finite false mc ec)));
          try (apply SFadd_rounds_nn; try assumption; try reflexivity; exact I).
        pose proof (SFleb_SFval _ _ Vx Vy I I Hle). lra.
Qed.

(** Adding a number that is not negative does not lower the other number. *)
Lemma SFadd_increases (x c : spec_float) :
  valid_binary x = true -> valid_binary c = true ->
  SFnn0 x -> SFnn0 c -> SFleb x (SFadd prec emax x c) = true.
Proof.
  intros Vx Vc Nx Nc.
  destruct x as [ [ | ] | [ | ] | | [ | ] mx ex]; try contradiction.
  - apply SFleb_zero_l. apply SFnn0_SFnn. now apply SFnn0_add.
  - destruct c as [ [ | ] | [ | ] | | [ | ] mc ec]; try contradiction; reflexivity.
  - destruct c as [ [ | ] | [ | ] | | [ | ] mc ec]; try contradiction.
    + cbn [SFadd]. now apply SFleb_refl.
    + reflexivity.
    + apply (rounds_to_mono (IZR (Zpos mx) * bpow ex)
               (IZR (Zpos mx) * bpow ex + IZR (Zpos mc) * bpow ec));
        [ now apply rounds_to_self | apply SFadd_rounds | ].
      pose proof (SFval_pos (S754_finite false mc ec) I). cbn [SFval] in *. lra.
Qed.

Lemma SFadd_zero_r (x : spec_float) :
  SFnn0 x -> SFadd prec emax x (S754_zero false) = x.
Proof.
  destruct x as [ [ | ] | [ | ] | | [ | ] mx ex]; try contradiction; reflexivity.
Qed.

Lemma SFmul_comm (x y : spec_float) : SFmul prec emax x y = SFmul prec emax y x.
Proof.
  destruct x as [ sx | sx | | sx mx ex], y as [ sy | sy | | sy my ey]; cbn [SFmul];
    try reflexivity; try (now rewrite xorb_comm).
  now rewrite xorb_comm, Pos.mul_comm, Z.add_comm.
Qed.

Lemma mul_comm (x y : float) : (x * y)%float = (y * x)%float.
Proof.
  apply Prim2SF_inj. rewrite !FloatAxioms.mul_spec. apply SFmul_comm.
Qed.

(** The product of a number that is not negative with a positive finite
    number is monotone in the latter. *)
Lemma SFmul_mono_r (y c d : spec_float) :
  valid_binary y = true -> valid_binary c = true -> valid_binary d = true ->
  SFnn y -> SFpos c -> SFpos d -> SFleb c d = true ->
  SFleb (SFmul prec emax y c) (SFmul prec emax y d) = true.
Proof.
  intros Vy Vc Vd Ny Pc Pd Hle.
  destruct y as [ sy | [ | ] | | [ | ] my ey]; try contradiction.
  - destruct c as [ | | | [ | ] mc ec]; try contradiction.
    destruct d as [ | | | [ | ] md ed]; try contradiction.
    cbn [SFmul]. now destruct sy.
  - destruct c as [ | | | [ | ] mc ec]; try contradiction.
    destruct d as [ | | | [ | ] md ed]; try contradiction.
    reflexivity.
  - rewrite (SFmul_comm _ c), (SFmul_comm _ d).
    apply SFmul_mono; try assumption; try exact I. now apply SFpos_SFnn.
Qed.

Lemma mul_mono_l (c x y : float) :
  (0 <=? x)%float = true -> (x <=? y)%float = true -> SFpos (Prim2SF c) ->
  (c * x <=? c * y)%float = true.
Proof.
  intros Hx Hle Pc. rewrite (mul_comm c x), (mul_comm c y). now apply mul_mono.
Qed.

(** The product is monotone in both factors. *)
Lemma mul_mono_both (x y c d : float) :
  (0 <=? x)%float = true -> (x <=? y)%float = true ->
  SFpos (Prim2SF c) -> SFpos (Prim2SF d) -> (c <=? d)%float = true ->
  (x * c <=? y * d)%float = true.
Proof.
  intros Hx Hxy Pc Pd Hcd.
  apply (leb_trans (x * c) (y * c) (y * d)).
  - now apply mul_nonneg_r.
  - now apply mul_mono.
  - rewrite FloatAxioms.leb_spec, !FloatAxioms.mul_spec.
    apply SFmul_mono_r; try assumption; try apply Prim2SF_valid.
    + apply (SFleb_SFnn_r (Prim2SF x)); [ now apply leb0_SFnn | ].
      now rewrite <- FloatAxioms.leb_spec.
    + now rewrite <- FloatAxioms.leb_spec.
Qed.

(** The quotient is monotone in the dividend and antitone in the divisor. *)
Lemma div_mono_both (x y c d : float) :
  (0 <=? x)%float = true -> (x <=? y)%float = true ->
  SFpos (Prim2SF c) -> SFpos (Prim2SF d) -> (d <=? c)%float = true ->
  (x / c <=? y / d)%float = true.
Proof.
  intros Hx Hxy Pc Pd Hdc.
  apply (leb_trans (x / c) (y / c) (y / d)).
  - now apply div_nonneg.
  - now apply div_mono_num.
  - apply div_anti_den; try assumption.
    rewrite leb0_SFnn.
    apply (SFleb_SFnn_r (Prim2SF x)); [ now apply leb0_SFnn | ].
    now rewrite <- FloatAxioms.leb_spec.
Qed.

Lemma leb_refl (x : float) : (0 <=? x)%float = true -> (x <=? x)%float = true.
Proof. rewrite leb0_SFnn, FloatAxioms.leb_spec. apply SFleb_refl. Qed.

(** *** The square root *)

Lemma sqrt_between (q r : Z) (y : R) :
  (0 <= q)%Z -> (0 <= r <= 2 * q)%Z ->
  (0 <= y)%R -> (y * y = IZR (q * q + r))%R ->
  match (if (r =? 0)%Z then loc_Exact
         else loc_Inexact (if (r <=? q)%Z then Lt else Gt)) with
  | loc_Exact => y = IZR q
  | loc_Inexact Lt => (IZR q < y < IZR q + / 2)%R
  | loc_Inexact Eq => False
  | loc_Inexact Gt => (IZR q + / 2 < y < IZR q + 1)%R
  end.
Proof.
  intros Hq Hr Hy Hyy. rewrite plus_IZR, mult_IZR in Hyy.
  assert (Q : (0 <= IZR q)%R) by (apply IZR_le; lia).
  destruct (Z.eqb_spec r 0) as [-> | Hr0].
  - assert (y <= IZR q)%R by nra. assert (IZR q <= y)%R by nra. lra.
  - assert (R1 : (1 <= IZR r)%R) by (apply IZR_le; lia).
    destruct (Z.leb_spec r q) as [Hle | Hgt].
    + assert (R2 : (IZR r <= IZR q)%R) by (apply IZR_le; lia).
      split; nra.
    + assert (R2 : (IZR q + 1 <= IZR r)%R) by (rewrite <- plus_IZR; apply IZR_le; lia).
      assert (R3 : (IZR r <= 2 * IZR q)%R) by (rewrite <- mult_IZR; apply IZR_le; lia).
      split; nra.
Qed.

Lemma SFsqrt_core_binary_correct (mx : positive) (ex : Z) :
  let c := SFsqrt_core_binary prec emax (Zpos mx) ex in
  let q := fst (fst c) in
  let e := snd (fst c) in
  let l := snd c in
  (0 <= q)%Z /\
  inbetween q e l (R_sqrt.sqrt (IZR (Zpos mx) * bpow ex)) /\
  (e <= fexp prec emax (Zdigits2 q + e))%Z.
Proof.
  unfold SFsqrt_core_binary.
  set (d := Zdigits2 (Zpos mx)).
  set (e' := Z.min (fexp prec emax (Z.div2 (d + ex + 1))) (Z.div2 ex)).
  set (s := (ex - 2 * e')%Z).
  assert (Hs : (0 <= s)%Z).
  { subst s e'. pose proof (Z.div2_div ex) as H2.
    pose proof (Z.mul_div_le ex 2 ltac:(lia)). lia. }
  set (m' := match s with
             | Z0 => Zpos mx
             | Zpos _ => Z.shiftl (Zpos mx) s
             | Zneg _ => 0%Z
             end).
  assert (Hm' : m' = (Zpos mx * 2 ^ s)%Z).
  { subst m'. destruct s as [ | p | p] eqn:Es; [ cbn; lia | | lia ].
    now rewrite Z.shiftl_mul_pow2 by lia. }
  assert (Hpow : (0 < 2 ^ s)%Z) by (apply Z.pow_pos_nonneg; lia).
  assert (Hm0 : (0 < m')%Z) by (rewrite Hm'; lia).
  pose proof (Z.sqrtrem_spec m' ltac:(lia)) as Hsq.
  destruct (Z.sqrtrem m') as [q r]. destruct Hsq as (Hqr & Hr).
  cbn [fst snd].
  assert (Hq : (0 <= q)%Z) by lia.
  split; [ exact Hq | ].
  set (y := R_sqrt.sqrt (IZR m')).
  assert (Hy0 : (0 <= y)%R) by apply sqrt_pos.
  assert (Hyy : (y * y = IZR (q * q + r))%R).
  { subst y. rewrite sqrt_sqrt; [ now rewrite Hqr | ]. apply IZR_le. lia. }
  assert (Hval : R_sqrt.sqrt (IZR (Zpos mx) * bpow ex) = (y * bpow e')%R).
  { replace (IZR (Zpos mx) * bpow ex)%R with (IZR m' * (bpow e' * bpow e'))%R.
    - pose proof (bpow_pos e') as Hb.
      rewrite sqrt_mult; [ | apply IZR_le; lia | nra ].
      rewrite sqrt_square by lra. reflexivity.
    - assert (Hex : bpow ex = (bpow s * (bpow e' * bpow e'))%R).
      { rewrite <- !bpow_add. f_equal. unfold s. lia. }
      rewrite Hm', mult_IZR, <- (bpow_IZR s Hs), Hex. ring. }
  split.
  - rewrite Hval. pose proof (bpow_pos e') as Hb.
    pose proof (sqrt_between q r y Hq Hr Hy0 Hyy) as Hloc.
    destruct (r =? 0)%Z; [ | destruct (r <=? q)%Z ]; cbn [inbetween].
    + now rewrite Hloc.
    + destruct Hloc. split; nra.
    + destruct Hloc. split; nra.
  - rewrite fexp_eq.
    destruct (Z_le_gt_dec e' (-1074)) as [Hlow | Hhigh]; [ lia | ].
    assert (He' : (e' <= Z.div2 (d + ex + 1) - 53)%Z).
    { subst e'. rewrite fexp_eq in *. lia. }
    assert (Hs' : (105 - d <= s)%Z).
    { subst s. rewrite Z.div2_div in He'.
      pose proof (Z.mul_div_le (d + ex + 1) 2 ltac:(lia)). lia. }
    assert (Hd : (2 ^ (d - 1) <= Zpos mx)%Z).
    { subst d. apply (Zdigits2_bounds (Zpos mx)). lia. }
    assert (Hd1 : (1 <= d)%Z).
    { subst d. destruct (Z_lt_le_dec (Zdigits2 (Zpos mx)) 1) as [H | H]; [ | exact H ].
      pose proof (Zdigits2_bounds (Zpos mx) ltac:(lia)) as [_ Hu].
      pose proof (Zdigits2_nonneg (Zpos mx)).
      assert (Zdigits2 (Zpos mx) = 0)%Z as E0 by lia. rewrite E0 in Hu. cbn in Hu. lia. }
    assert (Hbig : (2 ^ 52 * 2 ^ 52 <= m')%Z).
    { rewrite Hm', <- Z.pow_add_r by lia.
      apply (Z.le_trans _ (2 ^ (d - 1) * 2 ^ s)).
      - rewrite <- Z.pow_add_r by lia. apply Z.pow_le_mono_r; lia.
      - apply Z.mul_le_mono_nonneg_r; lia. }
    assert (Hq52 : (2 ^ 52 <= q)%Z).
    { destruct (Z_lt_le_dec q (2 ^ 52)) as [Hlt | Hge]; [ exfalso | exact Hge ].
      assert ((q + 1) * (q + 1) <= 2 ^ 52 * 2 ^ 52)%Z
        by (apply Z.mul_le_mono_nonneg; lia).
      lia. }
    pose proof (Zdigits2_ge q 53 ltac:(exact Hq52) ltac:(lia)). lia.
Qed.

Lemma SFsqrt_rounds (mx : positive) (ex : Z) :
  rounds_to (R_sqrt.sqrt (IZR (Zpos mx) * bpow ex))
            (SFsqrt prec emax (S754_finite false mx ex)).
Proof.
  pose proof (SFsqrt_core_binary_correct mx ex) as H. cbn zeta in H.
  cbn [SFsqrt].
  destruct (SFsqrt_core_binary prec emax (Zpos mx) ex) as [[q e] l].
  cbn [fst snd] in H. destruct H as (H0 & H1 & H2).
  exists q, e, l. auto.
Qed.

(** The square root is monotone. *)
Lemma SFsqrt_mono (x y : spec_float) :
  valid_binary x = true -> valid_binary y = true ->
  SFnn x -> SFleb x y = true ->
  SFleb (SFsqrt prec emax x) (SFsqrt prec emax y) = true.
Proof.
  intros Vx Vy Nx Hle.
  pose proof (SFleb_SFnn_r x y Nx Hle) as Ny.
  pose proof (SFnn_sqrt y Ny) as Nsy.
  destruct x as [ sx | [ | ] | | [ | ] mx ex]; try contradiction.
  - now apply SFleb_zero_l.
  - destruct y as [ sy | [ | ] | | [ | ] my ey]; try contradiction; try discriminate.
    reflexivity.
  - destruct y as [ sy | [ | ] | | [ | ] my ey]; try contradiction; try discriminate.
    + change (SFsqrt prec emax (S754_infinity false)) with (S754_infinity false).
      apply SFleb_infinity_r. now apply SFnn_sqrt.
    + apply (rounds_to_mono _ _ _ _ (SFsqrt_rounds mx ex) (SFsqrt_rounds my ey)).
      pose proof (SFleb_SFval _ _ Vx Vy I I Hle) as Hv. cbn [SFval] in Hv.
      pose proof (SFval_pos (S754_finite false mx ex) I) as Px. cbn [SFval] in Px.
      apply sqrt_le_1; lra.
Qed.

Lemma sqrt_mono (x y : float) :
  (0 <=? x)%float = true -> (x <=? y)%float = true ->
  (sqrt x <=? sqrt y)%float = true.
Proof.
  rewrite leb0_SFnn, !FloatAxioms.leb_spec, !FloatAxioms.sqrt_spec. intros Nx Hle.
  apply SFsqrt_mono; try assumption; apply Prim2SF_valid.
Qed.

(** *** Sums and zeros of primitive floats *)

Lemma add_mono (x y c : float) :
  SFnn0 (Prim2SF x) -> SFnn0 (Prim2SF y) -> SFnn0 (Prim2SF c) ->
  (x <=? y)%float = true -> (x + c <=? y + c)%float = true.
Proof.
  rewrite !FloatAxioms.leb_spec, !FloatAxioms.add_spec. intros Nx Ny Nc Hle.
  apply SFadd_mono; try assumption; apply Prim2SF_valid.
Qed.

Lemma add_increases (x c : float) :
  SFnn0 (Prim2SF x) -> SFnn0 (Prim2SF c) -> (x <=? x + c)%float = true.
Proof.
  rewrite FloatAxioms.leb_spec, FloatAxioms.add_spec. intros Nx Nc.
  apply SFadd_increases; try assumption; apply Prim2SF_valid.
Qed.

Lemma add_zero_r (x : float) : SFnn0 (Prim2SF x) -> (x + 0)%float = x.
Proof.
  intros Nx. apply Prim2SF_inj. rewrite FloatAxioms.add_spec, Prim2SF_zero.
  now apply SFadd_zero_r.
Qed.

Lemma positive_SFnn0 (x : float) : (0 <? x)%float = true -> SFnn0 (Prim2SF x).
Proof.
  rewrite FloatAxioms.ltb_spec, Prim2SF_zero.
  destruct (Prim2SF x) as [ [ | ] | [ | ] | | [ | ] m e]; cbn; intros H;
    try discriminate; exact I.
Qed.

Lemma SFnn0_nonneg (x : float) : SFnn0 (Prim2SF x) -> (0 <=? x)%float = true.
Proof. intros H. apply leb0_SFnn. now apply SFnn0_SFnn. Qed.

Lemma mul_SFnn0 (c x : float) :
  SFpos (Prim2SF c) -> SFnn0 (Prim2SF x) -> SFnn0 (Prim2SF (c * x)).
Proof.
  intros Pc Nx. rewrite FloatAxioms.mul_spec.
  apply SFnn0_mul; try assumption; apply Prim2SF_valid.
Qed.

Lemma add_SFnn0 (x y : float) :
  SFnn0 (Prim2SF x) -> SFnn0 (Prim2SF y) -> SFnn0 (Prim2SF (x + y)).
Proof. intros Nx Ny. rewrite FloatAxioms.add_spec. now apply SFnn0_add. Qed.

Lemma div_SFnn0 (x y : float) :
  SFpos (Prim2SF x) -> SFpos (Prim2SF y) -> SFnn0 (Prim2SF (x / y)).
Proof. intros Px Py. rewrite FloatAxioms.div_spec. now apply SFnn0_div. Qed.

Lemma Math_max_0_not_positive (y : float) :
  is_nan y = false -> (0 <? y)%float = false -> Math_max 0 y = 0%float.
Proof.
  intros Hnan Hpos. unfold Math_max. rewrite Hnan, Hpos.
  change (is_nan 0) with false. cbn [orb].
  change (is_zero 0 && get_sign 0) with false.
  now destruct (y <? 0)%float.
Qed.

Lemma Math_max_0_SFnn0 (y : float) :
  is_nan y = false -> SFnn0 (Prim2SF (Math_max 0 y)).
Proof.
  intros Hnan. destruct (0 <? y)%float eqn:E.
  - unfold Math_max. rewrite Hnan, E. change (is_nan 0) with false. cbn [orb].
    now apply positive_SFnn0.
  - rewrite (Math_max_0_not_positive y Hnan E). exact I.
Qed.

(** A number equal to zero is one of the two zeros. *)
Lemma eqb_zero (r : float) : (r =? 0)%float = true -> r = 0%float \/ r = neg_zero.
Proof.
  rewrite FloatAxioms.eqb_spec, Prim2SF_zero. intros H.
  destruct (Prim2SF r) as [ [ | ] | [ | ] | | [ | ] m e] eqn:E; try discriminate.
  - right. apply Prim2SF_inj. rewrite E. reflexivity.
  - left. apply Prim2SF_inj. rewrite E. reflexivity.
Qed.

Lemma reserve_divisor_le_one (r : float) :
  is_finite r = true -> (r <? 0)%float = false -> (100 <=? r)%float = false ->
  (1 - r / 100 <=? 1)%float = true.
Proof.
  intros Hfin Hneg Hhigh.
  rewrite FloatAxioms.leb_spec, FloatAxioms.sub_spec, FloatAxioms.div_spec, Prim2SF_1.
  apply reserve_divisor.
  - apply Prim2SF_valid.
  - now apply finite_not_negative_SFnnf.
  - now rewrite <- FloatAxioms.leb_spec.
Qed.
(** * Properties of the calculator *)

(** ** The conversion model on sample literals *)

Example StringToNumber_samples :
  StringToNumber "300" = 300 /\ StringToNumber " 17.1 " = 17.1 /\
  StringToNumber "0.85" = 0.85 /\ StringToNumber "1e-20" = 1e-20 /\
  StringToNumber "-2.5E+3" = -2500 /\ StringToNumber "0x1F" = 31 /\
  StringToNumber ".5" = 0.5 /\ StringToNumber "5." = 5 /\
  StringToNumber "1e308" = 1e308 /\ StringToNumber "1e309" = infinity /\
  StringToNumber "5e-324" = 0x1p-1074 /\ StringToNumber "2e-324" = 0 /\
  StringToNumber "9007199254740993" = 9007199254740992 /\
  StringToNumber "0.1" = 0.1 /\
  StringToNumber "123456789.123456789" = 123456789.123456789 /\
  is_nan (StringToNumber "abc") = true /\ is_nan (StringToNumber "1e") = true /\
  is_nan (StringToNumber "1 2") = true /\ is_nan (StringToNumber ".") = true /\
  StringToNumber "" = 0 /\ StringToNumber "  " = 0.
Proof. vm_compute. repeat split. Qed.

(** ** The reserve gate *)

Section Gates.

Variable Number : string -> float.
Variable form : FormValues.t.

Lemma reserveBlockMessage_blocked :
  reserveTooHigh Number form = true ->
  reserveBlockMessage Number form = Some reserveBlockText.
Proof. intros H. unfold reserveBlockMessage. now rewrite H. Qed.

Lemma reserveBlockMessage_open :
  reserveTooHigh Number form = false ->
  reserveBlockMessage Number form = None.
Proof. intros H. unfold reserveBlockMessage. now rewrite H. Qed.

Lemma truthy_reserveBlockMessage :
  truthy (reserveBlockMessage Number form) = reserveTooHigh Number form.
Proof. unfold reserveBlockMessage. now destruct (reserveTooHigh Number form). Qed.

Lemma reserveTooHigh_parsed (r : float) :
  parseInputNumber Number (FormValues.reservePercent form) = Some r ->
  reserveTooHigh Number form = (100 <=? r).
Proof. intros H. unfold reserveTooHigh, reservePercent. now rewrite H. Qed.

(** With the reserve at or above 100 every block from step 5 on keeps its
    initial state: no value, and the reserve message. *)
Lemma blocked_steps :
  reserveTooHigh Number form = true ->
  step5 Number form = (None, Some reserveBlockText) /\
  step6 Number form = (None, Some reserveBlockText) /\
  step7 Number form = (None, Some reserveBlockText) /\
  step8 Number form = (None, Some reserveBlockText) /\
  step9 Number form = (None, Some reserveBlockText) /\
  step10 Number form = (None, Some reserveBlockText) /\
  step11 Number form = (None, None, Some reserveBlockText) /\
  step12 Number form = (None, Some reserveBlockText).
Proof.
  intros H.
  unfold step5, step6, step7, step8, step9, step10, step11, step12.
  rewrite truthy_reserveBlockMessage, H, (reserveBlockMessage_blocked H).
  cbn [negb andb].
  repeat split;
    repeat match goal with
      | |- context [match ?x with _ => _ end] => destruct x
      end; reflexivity.
Qed.

End Gates.

(** ** Values and messages exclude each other, block by block *)

Section Blocks.

Variable Number : string -> float.
Variable form : FormValues.t.

Lemma step5_exclusive :
  step5DesignGrainsPerRun Number form <> None -> step5Message Number form = None.
Proof.
  unfold step5DesignGrainsPerRun, step5Message, step5.
  open_gate Number form; split_matches; cbn [fst snd]; congruence.
Qed.

Lemma step6_exclusive :
  step6CapacityPerFt3 Number form <> None -> step6Message Number form = None.
Proof.
  unfold step6CapacityPerFt3, step6Message, step6.
  open_gate Number form; split_matches; cbn [fst snd]; congruence.
Qed.

Lemma step7_exclusive :
  step7ResinFt3 Number form <> None -> step7Message Number form = None.
Proof.
  unfold step7ResinFt3, step7Message, step7.
  open_gate Number form; split_matches; cbn [fst snd]; congruence.
Qed.

Lemma step8_exclusive :
  step8SaltLbsPerRegen Number form <> None -> step8Message Number form = None.
Proof.
  unfold step8SaltLbsPerRegen, step8Message, step8.
  open_gate Number form; split_matches; cbn [fst snd]; congruence.
Qed.

Lemma step9_exclusive :
  step9BrineWaterGallons Number form <> None -> step9Message Number form = None.
Proof.
  unfold step9BrineWaterGallons, step9Message, step9.
  open_gate Number form; split_matches; cbn [fst snd]; congruence.
Qed.

Lemma step10_exclusive :
  step10BedAreaFt2 Number form <> None -> step10Message Number form = None.
Proof.
  unfold step10BedAreaFt2, step10Message, step10.
  open_gate Number form; split_matches; cbn [fst snd]; congruence.
Qed.

Lemma step11_exclusive :
  step11DiameterFt Number form <> None \/ step11DiameterIn Number form <> None ->
  step11Message Number form = None.
Proof.
  unfold step11DiameterFt, step11DiameterIn, step11Message, step11.
  open_gate Number form; split_matches; cbn [fst snd]; intros [H | H]; congruence.
Qed.

Lemma step12_exclusive :
  step12BackwashFlowGpm Number form <> None -> step12Message Number form = None.
Proof.
  unfold step12BackwashFlowGpm, step12Message, step12.
  open_gate Number form; split_matches; cbn [fst snd]; congruence.
Qed.

End Blocks.


(** ** Numbers that reach the calculation *)

Section Parsed.

Variable Number : string -> float.

Lemma parseInputNumber_finite (value : string) (v : float) :
  parseInputNumber Number value = Some v -> is_finite v = true.
Proof.
  unfold parseInputNumber, Number_isFinite.
  destruct (trim value =? "")%string; [ discriminate | ].
  destruct (is_finite (Number value)) eqn:E; [ | discriminate ].
  intros H. injection H as <-. exact E.
Qed.

Lemma isPositive_parsed (value : string) (v : float) :
  parseInputNumber Number value = Some v ->
  isPositive (parseInputNumber Number value) = true ->
  (0 <? v) = true /\ SFpos (Prim2SF v).
Proof.
  intros Hv Hpos. rewrite Hv in Hpos. cbn [isPositive] in Hpos.
  split; [ assumption | ].
  apply positive_finite_SFpos; [ assumption | ].
  exact (parseInputNumber_finite value v Hv).
Qed.

End Parsed.

Lemma leb0_not_nan (v : float) : (0 <=? v) = true -> is_nan v = false.
Proof.
  rewrite leb0_SFnn. unfold is_nan. rewrite FloatAxioms.eqb_spec. unfold SFeqb.
  destruct (Prim2SF v) as [ | [ | ] | | [ | ] m e]; cbn [SFnn SFcompare];
    intros H; try contradiction; try reflexivity.
  rewrite Z.compare_refl.
  change (Pos.compare_cont Eq m m) with (Pos.compare m m).
  now rewrite Pos.compare_refl.
Qed.

Lemma ltb0_leb0 (v : float) : (0 <? v) = true -> (0 <=? v) = true.
Proof. rewrite FloatAxioms.ltb_spec, FloatAxioms.leb_spec. apply SFltb_SFleb. Qed.

Lemma Math_max_0_nonneg (y : float) :
  is_nan y = false -> (0 <=? Math_max 0 y) = true.
Proof.
  intros Hy. unfold Math_max. rewrite Hy.
  change (is_nan 0) with false. cbn [orb].
  destruct (0 <? y) eqn:E1; [ now apply ltb0_leb0 | ].
  destruct (y <? 0) eqn:E2; [ reflexivity | ].
  change (is_zero 0 && get_sign 0) with false. reflexivity.
Qed.

Lemma is_finite_is_nan (v : float) : is_finite v = true -> is_nan v = false.
Proof.
  unfold is_finite. destruct (is_nan v); [ discriminate | reflexivity ].
Qed.

Lemma saltDoseValue_SFpos (d : SaltDose) : SFpos (Prim2SF (saltDoseValue d)).
Proof. destruct d; exact I. Qed.

Lemma CAPACITY_BY_SALT_DOSE_SFpos (d : SaltDose) :
  SFpos (Prim2SF (CAPACITY_BY_SALT_DOSE d)).
Proof. destruct d; exact I. Qed.

(** ** Every step value is non-negative and not NaN *)

Section Signs.

Variable Number : string -> float.
Variable form : FormValues.t.

Lemma compensation_nonneg (field : string) :
  (0 <=? Math_max 0 (nullish (parseInputNumber Number field) 0)) = true.
Proof.
  apply Math_max_0_nonneg.
  destruct (parseInputNumber Number field) as [ v | ] eqn:E; cbn [nullish].
  - apply is_finite_is_nan. exact (parseInputNumber_finite Number field v E).
  - reflexivity.
Qed.

Lemma ironPpm_nonneg : (0 <=? ironPpm Number form) = true.
Proof.
  unfold ironPpm. destruct (FormValues.useCompensation form);
    [ apply compensation_nonneg | reflexivity ].
Qed.

Lemma manganesePpm_nonneg : (0 <=? manganesePpm Number form) = true.
Proof.
  unfold manganesePpm. destruct (FormValues.useCompensation form);
    [ apply compensation_nonneg | reflexivity ].
Qed.

Lemma step1_value (v : float) :
  step1HardnessGpg Number form = Some v ->
  exists h : float,
    parseInputNumber Number (FormValues.hardnessValue form) = Some h /\
    (0 <? h) = true /\ SFpos (Prim2SF h) /\
    v = match FormValues.hardnessUnits form with
        | PpmAsCaCO3 => h / 17.1
        | GrainsPerGallon => h
        end.
Proof.
  unfold step1HardnessGpg, hardnessValue.
  destruct (parseInputNumber Number (FormValues.hardnessValue form)) as [ h | ] eqn:E;
    [ | now destruct (isPositive None) ].
  destruct (isPositive (Some h)) eqn:Hp; [ | discriminate ].
  rewrite <- E in Hp. destruct (isPositive_parsed Number _ h E Hp) as [H0 HP].
  intros H. injection H as <-. now exists h.
Qed.

Lemma step1_nonneg (v : float) :
  step1HardnessGpg Number form = Some v -> (0 <=? v) = true.
Proof.
  unfold step1HardnessGpg, hardnessValue.
  destruct (parseInputNumber Number (FormValues.hardnessValue form)) as [ h | ] eqn:E;
    [ | now destruct (isPositive None) ].
  destruct (isPositive (Some h)) eqn:Hp; [ | discriminate ].
  rewrite <- E in Hp. destruct (isPositive_parsed Number _ h E Hp) as [H0 HP].
  intros H. injection H as <-.
  destruct (FormValues.hardnessUnits form).
  - apply div_nonneg; [ now apply ltb0_leb0 | exact I ].
  - now apply ltb0_leb0.
Qed.

Lemma step2_nonneg (v : float) :
  step2DesignHardnessGpg Number form = Some v -> (0 <=? v) = true.
Proof.
  unfold step2DesignHardnessGpg.
  destruct (step1HardnessGpg Number form) as [ s1 | ] eqn:E; [ | discriminate ].
  pose proof (step1_nonneg s1 E) as H1.
  intros H. injection H as <-.
  destruct (FormValues.useCompensation form); [ | assumption ].
  apply add_nonneg; [ assumption | ].
  apply mul_nonneg_l; [ exact I | ].
  apply add_nonneg; [ apply ironPpm_nonneg | apply manganesePpm_nonneg ].
Qed.

Lemma step3_nonneg (v : float) :
  step3GrainsPerDay Number form = Some v -> (0 <=? v) = true.
Proof.
  unfold step3GrainsPerDay, gallonsPerDay.
  destruct (step2DesignHardnessGpg Number form) as [ s2 | ] eqn:E; [ | discriminate ].
  pose proof (step2_nonneg s2 E) as H2.
  destruct (parseInputNumber Number (FormValues.gallonsPerDay form)) as [ g | ] eqn:Eg;
    [ | now destruct (isPositive None) ].
  destruct (isPositive (Some g)) eqn:Hp; [ | discriminate ].
  rewrite <- Eg in Hp. destruct (isPositive_parsed Number _ g Eg Hp) as [H0 HP].
  intros H. injection H as <-. now apply mul_nonneg_r.
Qed.

Lemma step4_nonneg (v : float) :
  step4RequiredGrainsPerRun Number form = Some v -> (0 <=? v) = true.
Proof.
  unfold step4RequiredGrainsPerRun, daysBetweenRegen.
  destruct (step3GrainsPerDay Number form) as [ s3 | ] eqn:E; [ | discriminate ].
  pose proof (step3_nonneg s3 E) as H3.
  destruct (parseInputNumber Number (FormValues.daysBetweenRegen form)) as [ d | ] eqn:Ed;
    [ | now destruct (isPositive None) ].
  destruct (isPositive (Some d)) eqn:Hp; [ | discriminate ].
  rewrite <- Ed in Hp. destruct (isPositive_parsed Number _ d Ed Hp) as [H0 HP].
  intros H. injection H as <-. now apply mul_nonneg_r.
Qed.

(** Step 5, when it has a value, is step 4 over a positive finite divisor. *)
Lemma step5_value (v : float) :
  step5DesignGrainsPerRun Number form = Some v ->
  exists s4 r : float,
    step4RequiredGrainsPerRun Number form = Some s4 /\
    parseInputNumber Number (FormValues.reservePercent form) = Some r /\
    (r <? 0) = false /\ (100 <=? r) = false /\
    v = s4 / (1 - r / 100) /\
    SFpos (Prim2SF (1 - r / 100)).
Proof.
  unfold step5DesignGrainsPerRun, step5.
  rewrite truthy_reserveBlockMessage.
  destruct (reserveTooHigh Number form) eqn:Hgate; cbn [negb fst]; [ discriminate | ].
  destruct (step4RequiredGrainsPerRun Number form) as [ s4 | ]; [ | discriminate ].
  unfold reserveTooHigh in Hgate. unfold reservePercent in *.
  destruct (parseInputNumber Number (FormValues.reservePercent form)) as [ r | ] eqn:Er;
    [ | discriminate ].
  destruct (r <? 0) eqn:Hneg; cbn [fst]; [ discriminate | ].
  intros H. injection H as <-.
  exists s4, r. repeat split; try assumption.
  apply reserve_divisor_positive; try assumption.
  exact (parseInputNumber_finite Number _ r Er).
Qed.

Lemma step5_nonneg (v : float) :
  step5DesignGrainsPerRun Number form = Some v -> (0 <=? v) = true.
Proof.
  intros H. destruct (step5_value v H) as (s4 & r & H4 & _ & _ & _ & -> & Hd).
  apply div_nonneg; [ exact (step4_nonneg s4 H4) | exact Hd ].
Qed.

(** Step 6, when it has a value, is positive and finite. *)
Lemma step6_positive (v : float) :
  step6CapacityPerFt3 Number form = Some v -> (0 <? v) = true /\ SFpos (Prim2SF v).
Proof.
  unfold step6CapacityPerFt3, step6.
  destruct (negb (truthy (reserveBlockMessage Number form))); cbn [fst]; [ | discriminate ].
  destruct (FormValues.overrideCapacity form).
  - unfold overrideCapacityValue.
    destruct (isPositive (parseInputNumber Number
                (FormValues.overrideCapacityValue form))) eqn:Hp; cbn [fst];
      [ | discriminate ].
    intros H. exact (isPositive_parsed Number _ v H Hp).
  - cbn [fst]. intros H. injection H as <-.
    pose proof (CAPACITY_BY_SALT_DOSE_SFpos (FormValues.saltDose form)) as HP.
    split; [ now apply SFpos_positive | exact HP ].
Qed.

Lemma step7_value (v : float) :
  step7ResinFt3 Number form = Some v ->
  exists s5 s6 : float,
    step5DesignGrainsPerRun Number form = Some s5 /\
    step6CapacityPerFt3 Number form = Some s6 /\
    v = s5 / s6.
Proof.
  unfold step7ResinFt3, step7.
  destruct (negb (truthy (reserveBlockMessage Number form)));
    destruct (step5DesignGrainsPerRun Number form) as [ s5 | ];
    destruct (step6CapacityPerFt3 Number form) as [ s6 | ]; cbn [andb fst];
    try discriminate.
  intros H. injection H as <-. now exists s5, s6.
Qed.

Lemma step7_nonneg (v : float) :
  step7ResinFt3 Number form = Some v -> (0 <=? v) = true.
Proof.
  intros H. destruct (step7_value v H) as (s5 & s6 & H5 & H6 & ->).
  apply div_nonneg; [ exact (step5_nonneg s5 H5) | exact (proj2 (step6_positive s6 H6)) ].
Qed.

Lemma step8_value (v : float) :
  step8SaltLbsPerRegen Number form = Some v ->
  exists s7 : float,
    step7ResinFt3 Number form = Some s7 /\
    v = s7 * saltDoseValue (FormValues.saltDose form).
Proof.
  unfold step8SaltLbsPerRegen, step8.
  destruct (negb (truthy (reserveBlockMessage Number form)));
    destruct (step7ResinFt3 Number form) as [ s7 | ]; cbn [andb fst];
    try discriminate.
  intros H. injection H as <-. now exists s7.
Qed.

Lemma step8_nonneg (v : float) :
  step8SaltLbsPerRegen Number form = Some v -> (0 <=? v) = true.
Proof.
  intros H. destruct (step8_value v H) as (s7 & H7 & ->).
  apply mul_nonneg_r; [ exact (step7_nonneg s7 H7) | apply saltDoseValue_SFpos ].
Qed.

Lemma step9_value (v : float) :
  step9BrineWaterGallons Number form = Some v ->
  exists s8 f : float,
    step8SaltLbsPerRegen Number form = Some s8 /\
    parseInputNumber Number (FormValues.saltDissolutionFactor form) = Some f /\
    (0 <? f) = true /\ SFpos (Prim2SF f) /\
    v = s8 / f.
Proof.
  unfold step9BrineWaterGallons, step9, saltDissolutionFactor.
  destruct (negb (truthy (reserveBlockMessage Number form)));
    destruct (step8SaltLbsPerRegen Number form) as [ s8 | ]; cbn [andb fst];
    try discriminate.
  destruct (isPositive (parseInputNumber Number
              (FormValues.saltDissolutionFactor form))) eqn:Hp;
    destruct (parseInputNumber Number (FormValues.saltDissolutionFactor form))
      as [ f | ] eqn:Ef; cbn [fst]; try discriminate.
  rewrite <- Ef in Hp. destruct (isPositive_parsed Number _ f Ef Hp) as [H0 HP].
  intros H. injection H as <-. exists s8, f. auto.
Qed.

Lemma step9_nonneg (v : float) :
  step9BrineWaterGallons Number form = Some v -> (0 <=? v) = true.
Proof.
  intros H. destruct (step9_value v H) as (s8 & f & H8 & _ & _ & HP & ->).
  apply div_nonneg; [ exact (step8_nonneg s8 H8) | exact HP ].
Qed.

Lemma step10_value (v : float) :
  step10BedAreaFt2 Number form = Some v ->
  exists p s : float,
    parseInputNumber Number (FormValues.peakFlowGpm form) = Some p /\
    parseInputNumber Number (FormValues.serviceLoadingRate form) = Some s /\
    (0 <? p) = true /\ (0 <? s) = true /\ SFpos (Prim2SF s) /\
    v = p / s.
Proof.
  unfold step10BedAreaFt2, step10, peakFlowGpm, serviceLoadingRate.
  destruct (negb (truthy (reserveBlockMessage Number form))); cbn [fst];
    [ | discriminate ].
  destruct (isPositive (parseInputNumber Number (FormValues.peakFlowGpm form))) eqn:Hp;
    cbn [negb fst]; [ | discriminate ].
  destruct (isPositive (parseInputNumber Number (FormValues.serviceLoadingRate form)))
    eqn:Hs; cbn [negb fst]; [ | discriminate ].
  destruct (parseInputNumber Number (FormValues.peakFlowGpm form)) as [ p | ] eqn:Ep;
    [ | discriminate ].
  destruct (parseInputNumber Number (FormValues.serviceLoadingRate form)) as [ s | ] eqn:Es;
    [ | discriminate ].
  rewrite <- Ep in Hp. rewrite <- Es in Hs.
  destruct (isPositive_parsed Number _ p Ep Hp) as [Hp0 _].
  destruct (isPositive_parsed Number _ s Es Hs) as [Hs0 HP].
  cbn [fst]. intros H. injection H as <-. exists p, s. auto 10.
Qed.

Lemma step10_nonneg (v : float) :
  step10BedAreaFt2 Number form = Some v -> (0 <=? v) = true.
Proof.
  intros H. destruct (step10_value v H) as (p & s & _ & _ & Hp & _ & HP & ->).
  apply div_nonneg; [ now apply ltb0_leb0 | exact HP ].
Qed.

Lemma step11_value (ft inch : float) :
  step11DiameterFt Number form = Some ft \/ step11DiameterIn Number form = Some inch ->
  exists s10 : float,
    step10BedAreaFt2 Number form = Some s10 /\
    step11DiameterFt Number form = Some (2 * Math_sqrt (s10 / Math_PI)) /\
    step11DiameterIn Number form = Some (2 * Math_sqrt (s10 / Math_PI) * 12).
Proof.
  unfold step11DiameterFt, step11DiameterIn, step11.
  destruct (negb (truthy (reserveBlockMessage Number form)));
    destruct (step10BedAreaFt2 Number form) as [ s10 | ]; cbn [andb];
    try (destruct (truthy (step10Message Number form)));
    cbn [fst snd]; try (intros [H | H]; discriminate);
    intros _; now exists s10.
Qed.

Lemma step11_argument_nonneg (s10 : float) :
  step10BedAreaFt2 Number form = Some s10 -> (0 <=? s10 / Math_PI) = true.
Proof.
  intros H. apply div_nonneg; [ exact (step10_nonneg s10 H) | exact I ].
Qed.

Lemma step11_nonneg (v : float) :
  step11DiameterFt Number form = Some v \/ step11DiameterIn Number form = Some v ->
  (0 <=? v) = true.
Proof.
  intros H. destruct (step11_value v v H) as (s10 & H10 & Hft & Hin).
  assert (Hd : (0 <=? 2 * Math_sqrt (s10 / Math_PI)) = true).
  { apply mul_nonneg_l; [ exact I | ].
    apply sqrt_nonneg. now apply step11_argument_nonneg. }
  destruct H as [H | H].
  - rewrite Hft in H. injection H as <-. exact Hd.
  - rewrite Hin in H. injection H as <-. apply mul_nonneg_r; [ exact Hd | exact I ].
Qed.

Lemma step12_value (v : float) :
  step12BackwashFlowGpm Number form = Some v ->
  exists s10 b : float,
    step10BedAreaFt2 Number form = Some s10 /\
    parseInputNumber Number (FormValues.backwashRate form) = Some b /\
    (0 <? b) = true /\ SFpos (Prim2SF b) /\
    v = s10 * b.
Proof.
  unfold step12BackwashFlowGpm, step12, backwashRate.
  destruct (negb (truthy (reserveBlockMessage Number form)));
    destruct (step10BedAreaFt2 Number form) as [ s10 | ]; cbn [andb];
    try (destruct (truthy (step10Message Number form)));
    cbn [fst]; try discriminate;
    (destruct (isPositive (parseInputNumber Number (FormValues.backwashRate form))) eqn:Hp;
     destruct (parseInputNumber Number (FormValues.backwashRate form)) as [ b | ] eqn:Eb;
     cbn [fst]; try discriminate;
     rewrite <- Eb in Hp; destruct (isPositive_parsed Number _ b Eb Hp) as [H0 HP];
     intros H; injection H as <-; exists s10, b; auto).
Qed.

Lemma step12_nonneg (v : float) :
  step12BackwashFlowGpm Number form = Some v -> (0 <=? v) = true.
Proof.
  intros H. destruct (step12_value v H) as (s10 & b & H10 & _ & _ & HP & ->).
  apply mul_nonneg_r; [ exact (step10_nonneg s10 H10) | exact HP ].
Qed.

End Signs.
(** ** Claims on blocking and null propagation *)

(** C1 (as amended): for every form state whose reservePercent parses to a
    number at or above 100, every step from 5 through 12 (step 6 and both
    diameters of step 11 included) has a null value and carries the
    reserve-block message. *)
Theorem reserve_at_or_above_100_blocks_steps_5_to_12
  (Number : string -> float) (form : FormValues.t) (r : float) :
  parseInputNumber Number (FormValues.reservePercent form) = Some r ->
  (100 <=? r) = true ->
  let c := calculated Number form in
  Calculated.reserveTooHigh c = true /\
  (Calculated.step5DesignGrainsPerRun c = None /\
   Calculated.step5Message c = Some reserveBlockText) /\
  (Calculated.step6CapacityPerFt3 c = None /\
   Calculated.step6Message c = Some reserveBlockText) /\
  (Calculated.step7ResinFt3 c = None /\
   Calculated.step7Message c = Some reserveBlockText) /\
  (Calculated.step8SaltLbsPerRegen c = None /\
   Calculated.step8Message c = Some reserveBlockText) /\
  (Calculated.step9BrineWaterGallons c = None /\
   Calculated.step9Message c = Some reserveBlockText) /\
  (Calculated.step10BedAreaFt2 c = None /\
   Calculated.step10Message c = Some reserveBlockText) /\
  (Calculated.step11DiameterFt c = None /\
   Calculated.step11DiameterIn c = None /\
   Calculated.step11Message c = Some reserveBlockText) /\
  (Calculated.step12BackwashFlowGpm c = None /\
   Calculated.step12Message c = Some reserveBlockText).
Proof.
  intros Hparse Hhigh c.
  assert (Hgate : reserveTooHigh Number form = true)
    by now rewrite (reserveTooHigh_parsed Number form r Hparse).
  destruct (blocked_steps Number form Hgate)
    as (H5 & H6 & H7 & H8 & H9 & H10 & H11 & H12).
  subst c. unfold calculated. cbn [Calculated.reserveTooHigh
    Calculated.step5DesignGrainsPerRun Calculated.step5Message
    Calculated.step6CapacityPerFt3 Calculated.step6Message
    Calculated.step7ResinFt3 Calculated.step7Message
    Calculated.step8SaltLbsPerRegen Calculated.step8Message
    Calculated.step9BrineWaterGallons Calculated.step9Message
    Calculated.step10BedAreaFt2 Calculated.step10Message
    Calculated.step11DiameterFt Calculated.step11DiameterIn Calculated.step11Message
    Calculated.step12BackwashFlowGpm Calculated.step12Message].
  unfold step5DesignGrainsPerRun, step5Message, step6CapacityPerFt3, step6Message,
    step7ResinFt3, step7Message, step8SaltLbsPerRegen, step8Message,
    step9BrineWaterGallons, step9Message, step10BedAreaFt2, step10Message,
    step11DiameterFt, step11DiameterIn, step11Message,
    step12BackwashFlowGpm, step12Message.
  rewrite H5, H6, H7, H8, H9, H10, H11, H12. cbn [fst snd].
  repeat split; assumption.
Qed.

(** Scenario 2 of the specification: reservePercent is 100. *)
Lemma reserve_at_or_above_100_blocks_steps_5_to_12_witness :
  let c := calculated StringToNumber (setReservePercent "100" scenario1) in
  Calculated.reserveTooHigh c = true /\
  (Calculated.step5DesignGrainsPerRun c = None /\
   Calculated.step5Message c = Some reserveBlockText) /\
  (Calculated.step6CapacityPerFt3 c = None /\
   Calculated.step6Message c = Some reserveBlockText) /\
  (Calculated.step7ResinFt3 c = None /\
   Calculated.step7Message c = Some reserveBlockText) /\
  (Calculated.step8SaltLbsPerRegen c = None /\
   Calculated.step8Message c = Some reserveBlockText) /\
  (Calculated.step9BrineWaterGallons c = None /\
   Calculated.step9Message c = Some reserveBlockText) /\
  (Calculated.step10BedAreaFt2 c = None /\
   Calculated.step10Message c = Some reserveBlockText) /\
  (Calculated.step11DiameterFt c = None /\
   Calculated.step11DiameterIn c = None /\
   Calculated.step11Message c = Some reserveBlockText) /\
  (Calculated.step12BackwashFlowGpm c = None /\
   Calculated.step12Message c = Some reserveBlockText).
Proof.
  apply (reserve_at_or_above_100_blocks_steps_5_to_12
           StringToNumber (setReservePercent "100" scenario1) 100);
    vm_compute; reflexivity.
Defined.

(** C1 (as stated) fails: the two form states below differ in reservePercent
    only ("100" against "15"), with the same flow inputs, and step 10 has a
    value and no message in the second but is null with the reserve-block
    message in the first; steps 11 and 12 follow it. *)
Lemma reserve_block_reaches_steps_10_to_12 :
  let blocked := calculated StringToNumber (setReservePercent "100" scenario1) in
  let free := calculated StringToNumber (setReservePercent "15" scenario1) in
  parseInputNumber StringToNumber "100" = Some 100 /\ (100 <=? 100) = true /\
  parseInputNumber StringToNumber "15" = Some 15 /\ (100 <=? 15) = false /\
  (Calculated.step10BedAreaFt2 blocked = None /\
   Calculated.step10Message blocked = Some reserveBlockText /\
   Calculated.step10BedAreaFt2 free = Some (50 / 7) /\
   Calculated.step10Message free = None) /\
  (Calculated.step11DiameterFt blocked = None /\
   Calculated.step11Message blocked = Some reserveBlockText /\
   Calculated.step11DiameterFt free = Some (2 * Math_sqrt (50 / 7 / Math_PI)) /\
   Calculated.step11Message free = None) /\
  (Calculated.step12BackwashFlowGpm blocked = None /\
   Calculated.step12Message blocked = Some reserveBlockText /\
   Calculated.step12BackwashFlowGpm free = Some (50 / 7 * 7) /\
   Calculated.step12Message free = None).
Proof. vm_compute. repeat split. Qed.

(** C4: a null value propagates forward along the dependency chain: step 2
    is null when step 1 is, step 3 when step 2 is, step 4 when step 3 is,
    step 5 when step 4 is, step 7 when step 5 or step 6 is, step 8 when step 7
    is, step 9 when step 8 is, and steps 11 (both diameters) and 12 when
    step 10 is. *)
Theorem null_propagates_forward (Number : string -> float) (form : FormValues.t) :
  let c := calculated Number form in
  (Calculated.step1HardnessGpg c = None -> Calculated.step2DesignHardnessGpg c = None) /\
  (Calculated.step2DesignHardnessGpg c = None -> Calculated.step3GrainsPerDay c = None) /\
  (Calculated.step3GrainsPerDay c = None -> Calculated.step4RequiredGrainsPerRun c = None) /\
  (Calculated.step4RequiredGrainsPerRun c = None ->
   Calculated.step5DesignGrainsPerRun c = None) /\
  (Calculated.step5DesignGrainsPerRun c = None \/ Calculated.step6CapacityPerFt3 c = None ->
   Calculated.step7ResinFt3 c = None) /\
  (Calculated.step7ResinFt3 c = None -> Calculated.step8SaltLbsPerRegen c = None) /\
  (Calculated.step8SaltLbsPerRegen c = None -> Calculated.step9BrineWaterGallons c = None) /\
  (Calculated.step10BedAreaFt2 c = None ->
   Calculated.step11DiameterFt c = None /\ Calculated.step11DiameterIn c = None) /\
  (Calculated.step10BedAreaFt2 c = None -> Calculated.step12BackwashFlowGpm c = None).
Proof.
  cbn zeta. unfold calculated. cbn [Calculated.step1HardnessGpg
    Calculated.step2DesignHardnessGpg Calculated.step3GrainsPerDay
    Calculated.step4RequiredGrainsPerRun Calculated.step5DesignGrainsPerRun
    Calculated.step6CapacityPerFt3 Calculated.step7ResinFt3
    Calculated.step8SaltLbsPerRegen Calculated.step9BrineWaterGallons
    Calculated.step10BedAreaFt2 Calculated.step11DiameterFt
    Calculated.step11DiameterIn Calculated.step12BackwashFlowGpm].
  repeat split.
  - intros H. unfold step2DesignHardnessGpg. now rewrite H.
  - intros H. unfold step3GrainsPerDay. now rewrite H.
  - intros H. unfold step4RequiredGrainsPerRun. now rewrite H.
  - intros H. unfold step5DesignGrainsPerRun, step5. rewrite H.
    now destruct (negb (truthy (reserveBlockMessage Number form))).
  - intros [H | H]; unfold step7ResinFt3, step7; rewrite H; split_matches; reflexivity.
  - intros H. unfold step8SaltLbsPerRegen, step8. rewrite H. split_matches; reflexivity.
  - intros H. unfold step9BrineWaterGallons, step9. rewrite H. split_matches; reflexivity.
  - unfold step11DiameterFt, step11. rewrite H. split_matches; reflexivity.
  - unfold step11DiameterIn, step11. rewrite H. split_matches; reflexivity.
  - intros H. unfold step12BackwashFlowGpm, step12. rewrite H. split_matches; reflexivity.
Qed.

(** On the default form state the hardness is blank: step 1 is null, and
    step 2 with it. *)
Lemma null_propagates_forward_witness :
  Calculated.step1HardnessGpg (calculated StringToNumber DEFAULT_VALUES) = None /\
  Calculated.step2DesignHardnessGpg (calculated StringToNumber DEFAULT_VALUES) = None.
Proof.
  assert (H : Calculated.step1HardnessGpg (calculated StringToNumber DEFAULT_VALUES) = None)
    by (vm_compute; reflexivity).
  split; [ exact H | ].
  exact (proj1 (null_propagates_forward StringToNumber DEFAULT_VALUES) H).
Defined.

(** C5 (as amended): for every form state whose serviceLoadingRate parses to
    a number at or below 0, whose peakFlowGpm is positive and whose
    reservePercent is not at or above 100, steps 10, 11 (both diameters) and
    12 are null and each carries the service-loading message, which steps 11
    and 12 inherit unchanged from step 10. *)
Theorem service_loading_blocks_steps_10_to_12
  (Number : string -> float) (form : FormValues.t) (s : float) :
  parseInputNumber Number (FormValues.serviceLoadingRate form) = Some s ->
  (s <=? 0) = true ->
  isPositive (parseInputNumber Number (FormValues.peakFlowGpm form)) = true ->
  reserveTooHigh Number form = false ->
  let c := calculated Number form in
  Calculated.serviceLoadingError c = Some serviceLoadingText /\
  (Calculated.step10BedAreaFt2 c = None /\
   Calculated.step10Message c = Some serviceLoadingText) /\
  (Calculated.step11DiameterFt c = None /\
   Calculated.step11DiameterIn c = None /\
   Calculated.step11Message c = Calculated.step10Message c) /\
  (Calculated.step12BackwashFlowGpm c = None /\
   Calculated.step12Message c = Calculated.step10Message c).
Proof.
  intros Hs Hle Hpeak Hgate c.
  assert (H10 : step10 Number form = (None, Some serviceLoadingText)).
  { unfold step10. rewrite truthy_reserveBlockMessage, Hgate. cbn [negb].
    unfold peakFlowGpm, serviceLoadingRate. rewrite Hpeak, Hs.
    cbn [negb isPositive]. now rewrite (leb_true_ltb_false s 0 Hle). }
  subst c. unfold calculated. cbn [Calculated.serviceLoadingError
    Calculated.step10BedAreaFt2 Calculated.step10Message
    Calculated.step11DiameterFt Calculated.step11DiameterIn Calculated.step11Message
    Calculated.step12BackwashFlowGpm Calculated.step12Message].
  unfold serviceLoadingError, serviceLoadingRate,
    step11DiameterFt, step11DiameterIn, step11Message, step11,
    step12BackwashFlowGpm, step12Message, step12, step10BedAreaFt2, step10Message.
  rewrite Hs, Hle, truthy_reserveBlockMessage, Hgate, H10.
  cbn [fst snd negb andb]. repeat split.
Qed.

(** Scenario 3 of the specification: the service loading rate is 0. *)
Lemma service_loading_blocks_steps_10_to_12_witness :
  let c := calculated StringToNumber scenario3 in
  Calculated.serviceLoadingError c = Some serviceLoadingText /\
  (Calculated.step10BedAreaFt2 c = None /\
   Calculated.step10Message c = Some serviceLoadingText) /\
  (Calculated.step11DiameterFt c = None /\
   Calculated.step11DiameterIn c = None /\
   Calculated.step11Message c = Calculated.step10Message c) /\
  (Calculated.step12BackwashFlowGpm c = None /\
   Calculated.step12Message c = Calculated.step10Message c).
Proof.
  apply (service_loading_blocks_steps_10_to_12 StringToNumber scenario3 0);
    vm_compute; reflexivity.
Defined.

(** C5 (as stated) fails: with the service loading rate 0, the peak flow 50
    and the reserve at 100, steps 10 to 12 are null but carry the
    reserve-block message, which is another text than the service-loading
    message. *)
Lemma reserve_message_overrides_service_loading :
  let form := setReservePercent "100" scenario3 in
  let c := calculated StringToNumber form in
  parseInputNumber StringToNumber (FormValues.serviceLoadingRate form) = Some 0 /\
  (0 <=? 0) = true /\
  isPositive (parseInputNumber StringToNumber (FormValues.peakFlowGpm form)) = true /\
  Calculated.step10BedAreaFt2 c = None /\
  Calculated.step10Message c = Some reserveBlockText /\
  Calculated.step11Message c = Some reserveBlockText /\
  Calculated.step12Message c = Some reserveBlockText /\
  (reserveBlockText =? serviceLoadingText)%string = false.
Proof. vm_compute. repeat split. Qed.

(** C6: with reservePercent not at or above 100, step 6 is, with the override
    off, exactly the table value of the chosen salt dose (20000 for 6, 22500
    for 8, 25000 for 10, 27500 for 12, 30000 for 15); with the override on it
    is overrideCapacityValue when that value is positive, and otherwise null
    with a blocking message. *)
Theorem step6_table_or_override (Number : string -> float) (form : FormValues.t) :
  reserveTooHigh Number form = false ->
  let c := calculated Number form in
  (FormValues.overrideCapacity form = false ->
   Calculated.step6CapacityPerFt3 c =
     Some match FormValues.saltDose form with
          | Dose6 => 20000
          | Dose8 => 22500
          | Dose10 => 25000
          | Dose12 => 27500
          | Dose15 => 30000
          end /\
   Calculated.step6Message c = None) /\
  (FormValues.overrideCapacity form = true ->
   forall v : float,
     parseInputNumber Number (FormValues.overrideCapacityValue form) = Some v ->
     (0 <? v) = true ->
     Calculated.step6CapacityPerFt3 c = Some v /\ Calculated.step6Message c = None) /\
  (FormValues.overrideCapacity form = true ->
   isPositive (parseInputNumber Number (FormValues.overrideCapacityValue form)) = false ->
   Calculated.step6CapacityPerFt3 c = None /\
   Calculated.step6Message c =
     Some "Override capacity per cubic foot must be greater than 0.").
Proof.
  intros Hgate c. subst c. unfold calculated.
  cbn [Calculated.step6CapacityPerFt3 Calculated.step6Message].
  unfold step6CapacityPerFt3, step6Message, step6.
  rewrite truthy_reserveBlockMessage, Hgate, (reserveBlockMessage_open Number form Hgate).
  cbn [negb]. split; [ | split ].
  - intros Hoff. rewrite Hoff. cbn [fst snd].
    split; [ now destruct (FormValues.saltDose form) | reflexivity ].
  - intros Hon v Hv Hpos. rewrite Hon. unfold overrideCapacityValue.
    rewrite Hv. cbn [isPositive]. rewrite Hpos. now split.
  - intros Hon Hnot. rewrite Hon. unfold overrideCapacityValue.
    rewrite Hnot. now split.
Qed.

(** The override on with the value 25000: step 6 is that value. *)
Lemma step6_table_or_override_witness :
  let c := calculated StringToNumber (scenario1_override "25000") in
  Calculated.step6CapacityPerFt3 c = Some 25000 /\ Calculated.step6Message c = None.
Proof.
  refine (proj1 (proj2 (step6_table_or_override StringToNumber
                          (scenario1_override "25000") _)) _ 25000 _ _);
    vm_compute; reflexivity.
Defined.

(** C9: for each of steps 5 through 12, a value that is not null comes with
    a null message. *)
Theorem value_excludes_message (Number : string -> float) (form : FormValues.t) :
  let c := calculated Number form in
  (Calculated.step5DesignGrainsPerRun c <> None -> Calculated.step5Message c = None) /\
  (Calculated.step6CapacityPerFt3 c <> None -> Calculated.step6Message c = None) /\
  (Calculated.step7ResinFt3 c <> None -> Calculated.step7Message c = None) /\
  (Calculated.step8SaltLbsPerRegen c <> None -> Calculated.step8Message c = None) /\
  (Calculated.step9BrineWaterGallons c <> None -> Calculated.step9Message c = None) /\
  (Calculated.step10BedAreaFt2 c <> None -> Calculated.step10Message c = None) /\
  (Calculated.step11DiameterFt c <> None \/ Calculated.step11DiameterIn c <> None ->
   Calculated.step11Message c = None) /\
  (Calculated.step12BackwashFlowGpm c <> None -> Calculated.step12Message c = None).
Proof.
  cbn zeta. unfold calculated. cbn [Calculated.step5DesignGrainsPerRun
    Calculated.step5Message Calculated.step6CapacityPerFt3 Calculated.step6Message
    Calculated.step7ResinFt3 Calculated.step7Message
    Calculated.step8SaltLbsPerRegen Calculated.step8Message
    Calculated.step9BrineWaterGallons Calculated.step9Message
    Calculated.step10BedAreaFt2 Calculated.step10Message
    Calculated.step11DiameterFt Calculated.step11DiameterIn Calculated.step11Message
    Calculated.step12BackwashFlowGpm Calculated.step12Message].
  repeat split.
  - apply step5_exclusive.
  - apply step6_exclusive.
  - apply step7_exclusive.
  - apply step8_exclusive.
  - apply step9_exclusive.
  - apply step10_exclusive.
  - apply step11_exclusive.
  - apply step12_exclusive.
Qed.

(** On scenario 1 every step from 5 on has a value, hence no message. *)
Lemma value_excludes_message_witness :
  let c := calculated StringToNumber scenario1 in
  Calculated.step5DesignGrainsPerRun c <> None /\ Calculated.step5Message c = None.
Proof.
  cbn zeta. split.
  - vm_compute. discriminate.
  - apply (proj1 (value_excludes_message StringToNumber scenario1)).
    vm_compute. discriminate.
Defined.

(** ** Missing inputs *)

(** C2 (as amended): with reservePercent not at or above 100, a step whose
    required input is missing (blank or unparseable) has a null value, but it
    is silent only in steps 1 to 4, which have no message, and in step 5
    while step 4 is null.  Everywhere else the null value comes with a
    message: step 5 with step 4 present and reservePercent missing, step 6
    with the override on and its value missing, steps 7, 8 and 9 whenever the
    step before is null (step 9 also when only the dissolution factor is
    missing), step 10 when the peak flow or the service loading rate is
    missing, steps 11 and 12 by inheriting step 10's message (step 12 also
    when only the backwash rate is missing). *)
Theorem missing_input_null_silent_only_up_to_step5
  (Number : string -> float) (form : FormValues.t) :
  reserveTooHigh Number form = false ->
  let c := calculated Number form in
  let missing field := parseInputNumber Number field = None in
  (missing (FormValues.hardnessValue form) ->
   Calculated.step1HardnessGpg c = None /\
   Calculated.step2DesignHardnessGpg c = None /\
   Calculated.step3GrainsPerDay c = None /\
   Calculated.step4RequiredGrainsPerRun c = None /\
   Calculated.step5DesignGrainsPerRun c = None /\ Calculated.step5Message c = None) /\
  (missing (FormValues.gallonsPerDay form) ->
   Calculated.step3GrainsPerDay c = None /\
   Calculated.step4RequiredGrainsPerRun c = None /\
   Calculated.step5DesignGrainsPerRun c = None /\ Calculated.step5Message c = None) /\
  (missing (FormValues.daysBetweenRegen form) ->
   Calculated.step4RequiredGrainsPerRun c = None /\
   Calculated.step5DesignGrainsPerRun c = None /\ Calculated.step5Message c = None) /\
  (Calculated.step4RequiredGrainsPerRun c <> None ->
   missing (FormValues.reservePercent form) ->
   Calculated.step5DesignGrainsPerRun c = None /\
   Calculated.step5Message c = Some "Enter Reserve Capacity to calculate Step 5.") /\
  (FormValues.overrideCapacity form = true ->
   missing (FormValues.overrideCapacityValue form) ->
   Calculated.step6CapacityPerFt3 c = None /\
   Calculated.step6Message c =
     Some "Override capacity per cubic foot must be greater than 0.") /\
  (Calculated.step5DesignGrainsPerRun c = None \/ Calculated.step6CapacityPerFt3 c = None ->
   Calculated.step7ResinFt3 c = None /\
   Calculated.step7Message c = Some "Complete Steps 5 and 6 to calculate resin volume.") /\
  (Calculated.step7ResinFt3 c = None ->
   Calculated.step8SaltLbsPerRegen c = None /\
   Calculated.step8Message c = Some "Complete Step 7 to calculate salt per regeneration.") /\
  (Calculated.step8SaltLbsPerRegen c = None ->
   Calculated.step9BrineWaterGallons c = None /\
   Calculated.step9Message c = Some "Complete Step 8 to calculate brine refill water.") /\
  (Calculated.step8SaltLbsPerRegen c <> None ->
   missing (FormValues.saltDissolutionFactor form) ->
   Calculated.step9BrineWaterGallons c = None /\
   Calculated.step9Message c = Some "Salt Dissolution Factor must be greater than 0.") /\
  (missing (FormValues.peakFlowGpm form) ->
   Calculated.step10BedAreaFt2 c = None /\
   Calculated.step10Message c = Some "Peak Flow Rate must be greater than 0.") /\
  (isPositive (parseInputNumber Number (FormValues.peakFlowGpm form)) = true ->
   missing (FormValues.serviceLoadingRate form) ->
   Calculated.step10BedAreaFt2 c = None /\
   Calculated.step10Message c = Some serviceLoadingText) /\
  (Calculated.step10BedAreaFt2 c = None ->
   Calculated.step10Message c <> None /\
   Calculated.step11DiameterFt c = None /\ Calculated.step11DiameterIn c = None /\
   Calculated.step11Message c = Calculated.step10Message c /\
   Calculated.step12BackwashFlowGpm c = None /\
   Calculated.step12Message c = Calculated.step10Message c) /\
  (Calculated.step10BedAreaFt2 c <> None ->
   missing (FormValues.backwashRate form) ->
   Calculated.step12BackwashFlowGpm c = None /\
   Calculated.step12Message c = Some "Backwash Rate must be greater than 0.").
Proof.
  intros Hgate c missing. subst c missing. unfold calculated.
  cbn [Calculated.step1HardnessGpg
    Calculated.step2DesignHardnessGpg Calculated.step3GrainsPerDay
    Calculated.step4RequiredGrainsPerRun
    Calculated.step5DesignGrainsPerRun
    Calculated.step5Message Calculated.step6CapacityPerFt3 Calculated.step6Message
    Calculated.step7ResinFt3 Calculated.step7Message
    Calculated.step8SaltLbsPerRegen Calculated.step8Message
    Calculated.step9BrineWaterGallons Calculated.step9Message
    Calculated.step10BedAreaFt2 Calculated.step10Message
    Calculated.step11DiameterFt Calculated.step11DiameterIn Calculated.step11Message
    Calculated.step12BackwashFlowGpm Calculated.step12Message].
  pose proof (reserveBlockMessage_open Number form Hgate) as Hmsg.
  pose proof (truthy_reserveBlockMessage Number form) as Htruthy.
  rewrite Hgate in Htruthy.
  assert (H1 : parseInputNumber Number (FormValues.hardnessValue form) = None ->
               step1HardnessGpg Number form = None).
  { intros H. unfold step1HardnessGpg, hardnessValue. now rewrite H. }
  assert (H2 : step1HardnessGpg Number form = None ->
               step2DesignHardnessGpg Number form = None).
  { intros H. unfold step2DesignHardnessGpg. now rewrite H. }
  assert (H3 : step2DesignHardnessGpg Number form = None \/
               parseInputNumber Number (FormValues.gallonsPerDay form) = None ->
               step3GrainsPerDay Number form = None).
  { intros [H | H]; unfold step3GrainsPerDay, gallonsPerDay; rewrite H;
      split_matches; reflexivity. }
  assert (H4 : step3GrainsPerDay Number form = None \/
               parseInputNumber Number (FormValues.daysBetweenRegen form) = None ->
               step4RequiredGrainsPerRun Number form = None).
  { intros [H | H]; unfold step4RequiredGrainsPerRun, daysBetweenRegen; rewrite H;
      split_matches; reflexivity. }
  assert (H5 : step4RequiredGrainsPerRun Number form = None ->
               step5 Number form = (None, None)).
  { intros H. unfold step5. now rewrite Htruthy, Hmsg, H. }
  unfold step5DesignGrainsPerRun, step5Message, step6CapacityPerFt3, step6Message,
    step7ResinFt3, step7Message, step8SaltLbsPerRegen, step8Message,
    step9BrineWaterGallons, step9Message,
    step11DiameterFt, step11DiameterIn, step11Message,
    step12BackwashFlowGpm, step12Message.
  split; [ | split; [ | split; [ | split; [ | split; [ | split; [ | split;
    [ | split; [ | split; [ | split; [ | split; [ | split ] ] ] ] ] ] ] ] ] ] ].
  - intros H. pose proof (H1 H) as A1. pose proof (H2 A1) as A2.
    pose proof (H3 (or_introl A2)) as A3. pose proof (H4 (or_introl A3)) as A4.
    rewrite (H5 A4). repeat split; assumption.
  - intros H. pose proof (H3 (or_intror H)) as A3.
    pose proof (H4 (or_introl A3)) as A4.
    rewrite (H5 A4). repeat split; assumption.
  - intros H. pose proof (H4 (or_intror H)) as A4.
    rewrite (H5 A4). repeat split; assumption.
  - intros H4' H. unfold step5, reservePercent. rewrite Htruthy, H. cbn [negb].
    destruct (step4RequiredGrainsPerRun Number form); [ now split | congruence ].
  - intros Hov H. unfold step6, overrideCapacityValue.
    now rewrite Htruthy, Hov, H.
  - unfold step7, step5DesignGrainsPerRun, step6CapacityPerFt3.
    rewrite Htruthy. cbn [negb andb].
    intros [H | H]; rewrite H; split_matches; now split.
  - unfold step8, step7ResinFt3. rewrite Htruthy. cbn [negb andb].
    intros H; rewrite H. now split.
  - unfold step9, step8SaltLbsPerRegen. rewrite Htruthy. cbn [negb andb].
    intros H; rewrite H. now split.
  - unfold step9, step8SaltLbsPerRegen, saltDissolutionFactor.
    rewrite Htruthy. cbn [negb andb].
    intros H8 H. rewrite H. destruct (fst (step8 Number form)); [ now split | congruence ].
  - unfold step10BedAreaFt2, step10Message, step10, peakFlowGpm.
    rewrite Htruthy. intros H. rewrite H. now split.
  - unfold step10BedAreaFt2, step10Message, step10, peakFlowGpm, serviceLoadingRate.
    rewrite Htruthy. intros Hp H. rewrite Hp, H. now split.
  - unfold step11, step12, step10BedAreaFt2, step10Message. rewrite Htruthy.
    cbn [negb andb]. intros H. rewrite H.
    assert (Ht : snd (step10 Number form) <> None /\
                 truthy (snd (step10 Number form)) = true).
    { revert H. unfold step10. rewrite Htruthy. cbn [negb].
      destruct (peakFlowGpm Number form), (serviceLoadingRate Number form);
        cbn [isPositive negb]; split_matches; cbn [fst snd];
        intros; split; first [ congruence | reflexivity ]. }
    destruct Ht as [Hn Ht]. rewrite Ht. cbn [fst snd]. auto 10.
  - unfold step12, step10BedAreaFt2, backwashRate. rewrite Htruthy. cbn [negb andb].
    intros H10 H. rewrite H. destruct (fst (step10 Number form)); [ now split | congruence ].
Qed.

(** The default form state: the peak flow is blank, and step 10 is null
    with a message. *)
Lemma missing_input_null_silent_only_up_to_step5_witness :
  let c := calculated StringToNumber DEFAULT_VALUES in
  Calculated.step10BedAreaFt2 c = None /\
  Calculated.step10Message c = Some "Peak Flow Rate must be greater than 0.".
Proof.
  refine (proj1 (proj2 (proj2 (proj2 (proj2 (proj2 (proj2 (proj2 (proj2 (proj2
    (missing_input_null_silent_only_up_to_step5 StringToNumber DEFAULT_VALUES _)
    ))))))))) _); vm_compute; reflexivity.
Defined.

(** C2 (as stated) fails on the default form state: hardness, water use,
    days between regenerations and peak flow are blank, the entered fields
    (reserve 15, dissolution factor 3, service loading 7, backwash 7) violate
    no constraint, and yet steps 7 to 12 are null with a message each. *)
Lemma default_form_has_messages :
  let c := calculated StringToNumber DEFAULT_VALUES in
  let parsed field := parseInputNumber StringToNumber field in
  (parsed (FormValues.hardnessValue DEFAULT_VALUES) = None /\
   parsed (FormValues.gallonsPerDay DEFAULT_VALUES) = None /\
   parsed (FormValues.daysBetweenRegen DEFAULT_VALUES) = None /\
   parsed (FormValues.peakFlowGpm DEFAULT_VALUES) = None) /\
  (parsed (FormValues.reservePercent DEFAULT_VALUES) = Some 15 /\
   parsed (FormValues.saltDissolutionFactor DEFAULT_VALUES) = Some 3 /\
   parsed (FormValues.serviceLoadingRate DEFAULT_VALUES) = Some 7 /\
   parsed (FormValues.backwashRate DEFAULT_VALUES) = Some 7 /\
   Calculated.reserveTooHigh c = false /\ Calculated.serviceLoadingError c = None) /\
  (Calculated.step7ResinFt3 c = None /\
   Calculated.step7Message c = Some "Complete Steps 5 and 6 to calculate resin volume.") /\
  (Calculated.step8SaltLbsPerRegen c = None /\
   Calculated.step8Message c = Some "Complete Step 7 to calculate salt per regeneration.") /\
  (Calculated.step9BrineWaterGallons c = None /\
   Calculated.step9Message c = Some "Complete Step 8 to calculate brine refill water.") /\
  (Calculated.step10BedAreaFt2 c = None /\
   Calculated.step10Message c = Some "Peak Flow Rate must be greater than 0.") /\
  (Calculated.step11DiameterFt c = None /\
   Calculated.step11Message c = Some "Peak Flow Rate must be greater than 0.") /\
  (Calculated.step12BackwashFlowGpm c = None /\
   Calculated.step12Message c = Some "Peak Flow Rate must be greater than 0.").
Proof. vm_compute. repeat split. Qed.

(** ** The first scenario *)

(** C3 (as amended): on scenario 1 the steps read 17.54, 17.54, 175,439,
    350,877, 412,797, 22,500 (exactly), 18.35, 146.77, 48.92, 7.14, 3.02 ft
    (36.19 in) and 50.0 when rounded to the places shown. *)
Theorem scenario1_values :
  let c := calculated StringToNumber scenario1 in
  approximately (Calculated.step1HardnessGpg c) 1754 2 = true /\
  approximately (Calculated.step2DesignHardnessGpg c) 1754 2 = true /\
  approximately (Calculated.step3GrainsPerDay c) 175439 0 = true /\
  approximately (Calculated.step4RequiredGrainsPerRun c) 350877 0 = true /\
  approximately (Calculated.step5DesignGrainsPerRun c) 412797 0 = true /\
  Calculated.step6CapacityPerFt3 c = Some 22500 /\
  approximately (Calculated.step7ResinFt3 c) 1835 2 = true /\
  approximately (Calculated.step8SaltLbsPerRegen c) 14677 2 = true /\
  approximately (Calculated.step9BrineWaterGallons c) 4892 2 = true /\
  approximately (Calculated.step10BedAreaFt2 c) 714 2 = true /\
  approximately (Calculated.step11DiameterFt c) 302 2 = true /\
  approximately (Calculated.step11DiameterIn c) 3619 2 = true /\
  approximately (Calculated.step12BackwashFlowGpm c) 500 1 = true.
Proof. vm_compute. repeat split. Qed.

(** C3 (as stated) fails in four places: on scenario 1, step 5 does not read
    412,808, step 8 does not read 146.78, step 9 does not read 48.93 and the
    diameter in inches does not read 36.21. *)
Lemma scenario1_values_not_as_stated :
  let c := calculated StringToNumber scenario1 in
  approximately (Calculated.step5DesignGrainsPerRun c) 412808 0 = false /\
  approximately (Calculated.step8SaltLbsPerRegen c) 14678 2 = false /\
  approximately (Calculated.step9BrineWaterGallons c) 4893 2 = false /\
  approximately (Calculated.step11DiameterIn c) 3621 2 = false.
Proof. vm_compute. repeat split. Qed.

(** ** Claims on the arithmetic *)

(** C10 (as amended): every step value that is not null is a number that is
    not negative: a zero (the arithmetic can underflow), a positive number or
    plus infinity (it can overflow), never a negative number and never NaN.
    This holds for steps 1 through 12 and both diameters of step 11; step 6
    is strictly positive. *)
Theorem step_values_never_negative (Number : string -> float) (form : FormValues.t) :
  let c := calculated Number form in
  neverNegative (Calculated.step1HardnessGpg c) /\
  neverNegative (Calculated.step2DesignHardnessGpg c) /\
  neverNegative (Calculated.step3GrainsPerDay c) /\
  neverNegative (Calculated.step4RequiredGrainsPerRun c) /\
  neverNegative (Calculated.step5DesignGrainsPerRun c) /\
  (neverNegative (Calculated.step6CapacityPerFt3 c) /\
   forall x : float, Calculated.step6CapacityPerFt3 c = Some x -> (0 <? x) = true) /\
  neverNegative (Calculated.step7ResinFt3 c) /\
  neverNegative (Calculated.step8SaltLbsPerRegen c) /\
  neverNegative (Calculated.step9BrineWaterGallons c) /\
  neverNegative (Calculated.step10BedAreaFt2 c) /\
  neverNegative (Calculated.step11DiameterFt c) /\
  neverNegative (Calculated.step11DiameterIn c) /\
  neverNegative (Calculated.step12BackwashFlowGpm c).
Proof.
  cbn zeta. unfold calculated, neverNegative. cbn [Calculated.step1HardnessGpg
    Calculated.step2DesignHardnessGpg Calculated.step3GrainsPerDay
    Calculated.step4RequiredGrainsPerRun Calculated.step5DesignGrainsPerRun
    Calculated.step6CapacityPerFt3 Calculated.step7ResinFt3
    Calculated.step8SaltLbsPerRegen Calculated.step9BrineWaterGallons
    Calculated.step10BedAreaFt2 Calculated.step11DiameterFt
    Calculated.step11DiameterIn Calculated.step12BackwashFlowGpm].
  repeat match goal with |- _ /\ _ => split end.
  - apply step1_nonneg.
  - apply step2_nonneg.
  - apply step3_nonneg.
  - apply step4_nonneg.
  - apply step5_nonneg.
  - intros x H. apply ltb0_leb0. exact (proj1 (step6_positive Number form x H)).
  - intros x H. exact (proj1 (step6_positive Number form x H)).
  - apply step7_nonneg.
  - apply step8_nonneg.
  - apply step9_nonneg.
  - apply step10_nonneg.
  - intros x H. apply (step11_nonneg Number form x). now left.
  - intros x H. apply (step11_nonneg Number form x). now right.
  - apply step12_nonneg.
Qed.

(** On scenario 1 step 10 is 50 / 7, which is not negative. *)
Lemma step_values_never_negative_witness :
  Calculated.step10BedAreaFt2 (calculated StringToNumber scenario1) = Some (50 / 7) /\
  (0 <=? 50 / 7) = true.
Proof.
  assert (H : Calculated.step10BedAreaFt2 (calculated StringToNumber scenario1)
              = Some (50 / 7)) by (vm_compute; reflexivity).
  split; [ exact H | ].
  exact (proj1 (proj2 (proj2 (proj2 (proj2 (proj2 (proj2 (proj2 (proj2 (proj2
    (step_values_never_negative StringToNumber scenario1)))))))))) (50 / 7) H).
Defined.

(** C10 (as stated) fails: with the peak flow 1e-200 and the service
    loading rate 1e200, both positive, the quotient underflows and step 10 is
    the number 0, which is not strictly positive; steps 11 and 12 are 0 too. *)
Lemma underflow_gives_zero :
  let c := calculated StringToNumber scenario_underflow in
  isPositive (parseInputNumber StringToNumber "1e-200") = true /\
  isPositive (parseInputNumber StringToNumber "1e200") = true /\
  Calculated.step10BedAreaFt2 c = Some 0 /\
  Calculated.step11DiameterFt c = Some 0 /\
  Calculated.step11DiameterIn c = Some 0 /\
  Calculated.step12BackwashFlowGpm c = Some 0 /\
  (0 <? 0) = false.
Proof. vm_compute. repeat split. Qed.

(** C8: the calculation is a total function, so every step always has a
    value-or-null and a message-or-null, and no value is NaN.  Every
    division the steps evaluate is shown with its divisor, which is
    positive on the branch that evaluates it: step 1 divides the hardness
    by 17.1 (with ppm units; with grains per gallon it divides nothing),
    step 5 the reserve by 100 and then step 4 by
    [1 - reservePercent / 100], step 7 step 5 by the capacity of step 6,
    step 9 step 8 by the dissolution factor, step 10 the peak flow by the
    service loading rate, step 11 step 10 by pi, where the argument of the
    square root is not negative. *)
Theorem calculated_total_with_positive_divisors
  (Number : string -> float) (form : FormValues.t) :
  let c := calculated Number form in
  (definedNumber (Calculated.step1HardnessGpg c) /\
   definedNumber (Calculated.step2DesignHardnessGpg c) /\
   definedNumber (Calculated.step3GrainsPerDay c) /\
   definedNumber (Calculated.step4RequiredGrainsPerRun c) /\
   definedNumber (Calculated.step5DesignGrainsPerRun c) /\
   definedNumber (Calculated.step6CapacityPerFt3 c) /\
   definedNumber (Calculated.step7ResinFt3 c) /\
   definedNumber (Calculated.step8SaltLbsPerRegen c) /\
   definedNumber (Calculated.step9BrineWaterGallons c) /\
   definedNumber (Calculated.step10BedAreaFt2 c) /\
   definedNumber (Calculated.step11DiameterFt c) /\
   definedNumber (Calculated.step11DiameterIn c) /\
   definedNumber (Calculated.step12BackwashFlowGpm c)) /\
  (0 <? 17.1) = true /\ (0 <? 100) = true /\ (0 <? Math_PI) = true /\
  (forall v : float, Calculated.step1HardnessGpg c = Some v ->
   exists h : float,
     parseInputNumber Number (FormValues.hardnessValue form) = Some h /\
     match FormValues.hardnessUnits form with
     | PpmAsCaCO3 => v = h / 17.1 /\ (0 <? 17.1) = true
     | GrainsPerGallon => v = h
     end) /\
  (forall v : float, Calculated.step5DesignGrainsPerRun c = Some v ->
   exists s4 r : float,
     Calculated.step4RequiredGrainsPerRun c = Some s4 /\
     parseInputNumber Number (FormValues.reservePercent form) = Some r /\
     v = s4 / (1 - r / 100) /\ (0 <? 100) = true /\ (0 <? 1 - r / 100) = true) /\
  (forall v : float, Calculated.step7ResinFt3 c = Some v ->
   exists s5 s6 : float,
     Calculated.step5DesignGrainsPerRun c = Some s5 /\
     Calculated.step6CapacityPerFt3 c = Some s6 /\
     v = s5 / s6 /\ (0 <? s6) = true) /\
  (forall v : float, Calculated.step9BrineWaterGallons c = Some v ->
   exists s8 f : float,
     Calculated.step8SaltLbsPerRegen c = Some s8 /\
     parseInputNumber Number (FormValues.saltDissolutionFactor form) = Some f /\
     v = s8 / f /\ (0 <? f) = true) /\
  (forall v : float, Calculated.step10BedAreaFt2 c = Some v ->
   exists p s : float,
     parseInputNumber Number (FormValues.peakFlowGpm form) = Some p /\
     parseInputNumber Number (FormValues.serviceLoadingRate form) = Some s /\
     v = p / s /\ (0 <? s) = true) /\
  (forall v : float, Calculated.step11DiameterFt c = Some v ->
   exists s10 : float,
     Calculated.step10BedAreaFt2 c = Some s10 /\
     v = 2 * Math_sqrt (s10 / Math_PI) /\ (0 <? Math_PI) = true /\
     (0 <=? s10 / Math_PI) = true).
Proof.
  cbn zeta.
  unfold calculated, definedNumber. cbn [Calculated.step1HardnessGpg
    Calculated.step2DesignHardnessGpg Calculated.step3GrainsPerDay
    Calculated.step4RequiredGrainsPerRun Calculated.step5DesignGrainsPerRun
    Calculated.step6CapacityPerFt3 Calculated.step7ResinFt3
    Calculated.step8SaltLbsPerRegen Calculated.step9BrineWaterGallons
    Calculated.step10BedAreaFt2 Calculated.step11DiameterFt
    Calculated.step11DiameterIn Calculated.step12BackwashFlowGpm].
  split; [ | split; [ reflexivity | split; [ reflexivity | split; [ reflexivity | ] ] ] ].
  - repeat match goal with |- _ /\ _ => split end;
      intros x H; apply leb0_not_nan;
      first [ exact (step1_nonneg Number form x H)
            | exact (step2_nonneg Number form x H)
            | exact (step3_nonneg Number form x H)
            | exact (step4_nonneg Number form x H)
            | exact (step5_nonneg Number form x H)
            | exact (ltb0_leb0 x (proj1 (step6_positive Number form x H)))
            | exact (step7_nonneg Number form x H)
            | exact (step8_nonneg Number form x H)
            | exact (step9_nonneg Number form x H)
            | exact (step10_nonneg Number form x H)
            | exact (step11_nonneg Number form x (or_introl H))
            | exact (step11_nonneg Number form x (or_intror H))
            | exact (step12_nonneg Number form x H) ].
  - repeat match goal with |- _ /\ _ => split end.
    + intros v H.
      destruct (step1_value Number form v H) as (h & Hh & _ & _ & Hv).
      exists h. split; [ exact Hh | ].
      destruct (FormValues.hardnessUnits form); [ split; [ exact Hv | reflexivity ] | exact Hv ].
    + intros v H.
      destruct (step5_value Number form v H) as (s4 & r & H4 & Hr & _ & _ & -> & Hd).
      exists s4, r. repeat split; try assumption. now apply SFpos_positive.
    + intros v H. destruct (step7_value Number form v H) as (s5 & s6 & H5 & H6 & ->).
      exists s5, s6. repeat split; try assumption.
      exact (proj1 (step6_positive Number form s6 H6)).
    + intros v H.
      destruct (step9_value Number form v H) as (s8 & f & H8 & Hf & Hp & _ & ->).
      exists s8, f. auto.
    + intros v H.
      destruct (step10_value Number form v H) as (p & s & Hp & Hs & _ & Hs0 & _ & ->).
      exists p, s. auto.
    + intros v H.
      destruct (step11_value Number form v v (or_introl H)) as (s10 & H10 & Hft & _).
      exists s10. repeat split; try assumption.
      * rewrite Hft in H. now injection H.
      * exact (step11_argument_nonneg Number form s10 H10).
Qed.

(** On scenario 1 step 10 divides the peak flow 50 by the service loading
    rate 7, which is positive. *)
Lemma calculated_total_with_positive_divisors_witness :
  exists p s : float,
    parseInputNumber StringToNumber (FormValues.peakFlowGpm scenario1) = Some p /\
    parseInputNumber StringToNumber (FormValues.serviceLoadingRate scenario1) = Some s /\
    50 / 7 = p / s /\ (0 <? s) = true.
Proof.
  refine (proj1 (proj2 (proj2 (proj2 (proj2 (proj2 (proj2 (proj2 (proj2
    (calculated_total_with_positive_divisors StringToNumber scenario1))))))))) (50 / 7) _).
  vm_compute. reflexivity.
Defined.

(** ** The reserve, from one form state to another *)

Lemma ltb_leb (x y : float) : (x <? y) = true -> (x <=? y) = true.
Proof. rewrite FloatAxioms.ltb_spec, FloatAxioms.leb_spec. apply SFltb_SFleb. Qed.

Section Reserve.

Variable Number : string -> float.
Variable form : FormValues.t.

Lemma reservePercent_set (value : string) :
  reservePercent Number (setReservePercent value form) = parseInputNumber Number value.
Proof. reflexivity. Qed.

Lemma step4_set (value : string) :
  step4RequiredGrainsPerRun Number (setReservePercent value form) =
  step4RequiredGrainsPerRun Number form.
Proof. reflexivity. Qed.

Lemma reserveTooHigh_set (value : string) (r : float) :
  parseInputNumber Number value = Some r ->
  reserveTooHigh Number (setReservePercent value form) = (100 <=? r).
Proof. intros H. unfold reserveTooHigh. now rewrite reservePercent_set, H. Qed.

(** With the gate open on both sides, step 6 does not depend on the reserve. *)
Lemma step6_set (v1 v2 : string) :
  reserveTooHigh Number (setReservePercent v1 form) = false ->
  reserveTooHigh Number (setReservePercent v2 form) = false ->
  step6CapacityPerFt3 Number (setReservePercent v1 form) =
  step6CapacityPerFt3 Number (setReservePercent v2 form).
Proof.
  intros H1 H2. unfold step6CapacityPerFt3, step6.
  rewrite !truthy_reserveBlockMessage, H1, H2.
  rewrite (reserveBlockMessage_open Number _ H1), (reserveBlockMessage_open Number _ H2).
  reflexivity.
Qed.

Lemma step5_set (value : string) (r s4 : float) :
  parseInputNumber Number value = Some r ->
  (100 <=? r) = false -> (r <? 0) = false ->
  step4RequiredGrainsPerRun Number form = Some s4 ->
  step5DesignGrainsPerRun Number (setReservePercent value form) =
  Some (s4 / (1 - r / 100)).
Proof.
  intros Hr Hhigh Hneg H4. unfold step5DesignGrainsPerRun, step5.
  rewrite truthy_reserveBlockMessage, (reserveTooHigh_set value r Hr), Hhigh.
  cbn [negb]. rewrite step4_set, H4, reservePercent_set, Hr, Hneg. reflexivity.
Qed.

End Reserve.

(** C7 (as amended): for two form states identical except for
    reservePercent, with step 4 non-null and 0 <= r1 < r2 < 100, the state
    with the larger reservePercent has a step 5 that is not smaller (in
    binary64 arithmetic it can be equal), and so have steps 7, 8 and 9
    whenever they are non-null. *)
Theorem larger_reserve_never_smaller
  (Number : string -> float) (form : FormValues.t)
  (v1 v2 : string) (r1 r2 : float) :
  parseInputNumber Number v1 = Some r1 ->
  parseInputNumber Number v2 = Some r2 ->
  (0 <=? r1) = true -> (r1 <? r2) = true -> (r2 <? 100) = true ->
  let c1 := calculated Number (setReservePercent v1 form) in
  let c2 := calculated Number (setReservePercent v2 form) in
  Calculated.step4RequiredGrainsPerRun c1 <> None ->
  Calculated.step4RequiredGrainsPerRun c2 = Calculated.step4RequiredGrainsPerRun c1 /\
  (exists a b : float,
     Calculated.step5DesignGrainsPerRun c1 = Some a /\
     Calculated.step5DesignGrainsPerRun c2 = Some b /\ (a <=? b) = true) /\
  (forall a b : float,
     Calculated.step7ResinFt3 c1 = Some a -> Calculated.step7ResinFt3 c2 = Some b ->
     (a <=? b) = true) /\
  (forall a b : float,
     Calculated.step8SaltLbsPerRegen c1 = Some a ->
     Calculated.step8SaltLbsPerRegen c2 = Some b ->
     (a <=? b) = true) /\
  (forall a b : float,
     Calculated.step9BrineWaterGallons c1 = Some a ->
     Calculated.step9BrineWaterGallons c2 = Some b ->
     (a <=? b) = true).
Proof.
  intros Hr1 Hr2 H0 H12 H100 c1 c2. subst c1 c2. unfold calculated.
  cbn [Calculated.step4RequiredGrainsPerRun Calculated.step5DesignGrainsPerRun
    Calculated.step7ResinFt3 Calculated.step8SaltLbsPerRegen
    Calculated.step9BrineWaterGallons].
  rewrite !step4_set. intros H4.
  destruct (step4RequiredGrainsPerRun Number form) as [ s4 | ] eqn:E4; [ | congruence ].
  clear H4.
  set (f1 := setReservePercent v1 form). set (f2 := setReservePercent v2 form).
  (* the two reserves *)
  pose proof (ltb_leb r1 r2 H12) as Hle.
  pose proof (ltb_true_leb_false r2 100 H100) as Hhigh2.
  assert (Hhigh1 : (100 <=? r1) = false).
  { destruct (100 <=? r1) eqn:E; [ | reflexivity ].
    rewrite <- Hhigh2. symmetry. apply (leb_trans 100 r1 r2); auto. }
  pose proof (leb_true_ltb_false 0 r1 H0) as Hneg1.
  assert (Hneg2 : (r2 <? 0) = false).
  { apply (leb_true_ltb_false 0 r2). apply (leb_trans 0 r1 r2); auto. }
  pose proof (parseInputNumber_finite Number v1 r1 Hr1) as Hfin1.
  pose proof (parseInputNumber_finite Number v2 r2 Hr2) as Hfin2.
  assert (G1 : reserveTooHigh Number f1 = false)
    by (unfold f1; now rewrite (reserveTooHigh_set Number form v1 r1 Hr1)).
  assert (G2 : reserveTooHigh Number f2 = false)
    by (unfold f2; now rewrite (reserveTooHigh_set Number form v2 r2 Hr2)).
  (* step 5 *)
  pose proof (step5_set Number form v1 r1 s4 Hr1 Hhigh1 Hneg1 E4) as S1.
  pose proof (step5_set Number form v2 r2 s4 Hr2 Hhigh2 Hneg2 E4) as S2.
  fold f1 in S1. fold f2 in S2.
  assert (M5 : (s4 / (1 - r1 / 100) <=? s4 / (1 - r2 / 100)) = true).
  { apply reserve_adjust_mono; try assumption.
    exact (step4_nonneg Number form s4 E4). }
  (* step 7 *)
  assert (M7 : forall a b : float,
             step7ResinFt3 Number f1 = Some a -> step7ResinFt3 Number f2 = Some b ->
             (a <=? b) = true).
  { intros a b Ha Hb.
    destruct (step7_value Number f1 a Ha) as (a5 & a6 & A5 & A6 & ->).
    destruct (step7_value Number f2 b Hb) as (b5 & b6 & B5 & B6 & ->).
    rewrite S1 in A5. rewrite S2 in B5. injection A5 as <-. injection B5 as <-.
    pose proof (step6_positive Number f1 a6 A6) as [_ P6].
    unfold f1, f2 in A6, B6. rewrite (step6_set Number form v1 v2 G1 G2), B6 in A6.
    injection A6 as <-.
    apply div_mono_num; try assumption.
    exact (step5_nonneg Number f1 _ S1). }
  (* step 8 *)
  assert (M8 : forall a b : float,
             step8SaltLbsPerRegen Number f1 = Some a ->
             step8SaltLbsPerRegen Number f2 = Some b ->
             (a <=? b) = true).
  { intros a b Ha Hb.
    destruct (step8_value Number f1 a Ha) as (a7 & A7 & ->).
    destruct (step8_value Number f2 b Hb) as (b7 & B7 & ->).
    apply mul_mono.
    - exact (step7_nonneg Number f1 a7 A7).
    - exact (M7 a7 b7 A7 B7).
    - apply saltDoseValue_SFpos. }
  split; [ reflexivity | ]. split; [ | split; [ exact M7 | split; [ exact M8 | ] ] ].
  - exists (s4 / (1 - r1 / 100)), (s4 / (1 - r2 / 100)). auto.
  - intros a b Ha Hb.
    destruct (step9_value Number f1 a Ha) as (a8 & fa & A8 & Fa & _ & Pa & ->).
    destruct (step9_value Number f2 b Hb) as (b8 & fb & B8 & Fb & _ & Pb & ->).
    change (FormValues.saltDissolutionFactor f2)
      with (FormValues.saltDissolutionFactor f1) in Fb.
    rewrite Fa in Fb. injection Fb as <-.
    apply div_mono_num.
    + exact (step8_nonneg Number f1 a8 A8).
    + exact (M8 a8 b8 A8 B8).
    + exact Pa.
Qed.

(** Scenario 1 with the reserve at 10 and then at 20. *)
Lemma larger_reserve_never_smaller_witness :
  exists a b : float,
    Calculated.step5DesignGrainsPerRun
      (calculated StringToNumber (setReservePercent "10" scenario1)) = Some a /\
    Calculated.step5DesignGrainsPerRun
      (calculated StringToNumber (setReservePercent "20" scenario1)) = Some b /\
    (a <=? b) = true.
Proof.
  refine (proj1 (proj2 (larger_reserve_never_smaller StringToNumber scenario1
                          "10" "20" 10 20 _ _ _ _ _ _)));
    vm_compute; reflexivity || discriminate.
Defined.

(** C7 (as stated) fails: raising the reserve of scenario 1 from 0 to 1e-20
    leaves the divisor [1 - r / 100] at 1, so step 5 is the same number in
    both states, and steps 7, 8 and 9 with it: none is strictly larger. *)
Lemma reserve_increase_without_effect :
  let c1 := calculated StringToNumber (setReservePercent "0" scenario1) in
  let c2 := calculated StringToNumber (setReservePercent "1e-20" scenario1) in
  parseInputNumber StringToNumber "0" = Some 0 /\
  parseInputNumber StringToNumber "1e-20" = Some 1e-20 /\
  (0 <=? 0) = true /\ (0 <? 1e-20) = true /\ (1e-20 <? 100) = true /\
  Calculated.step4RequiredGrainsPerRun c1 = Some (300 / 17.1 * 10000 * 2) /\
  (exists x : float,
     Calculated.step5DesignGrainsPerRun c1 = Some x /\
     Calculated.step5DesignGrainsPerRun c2 = Some x /\ (x <? x) = false) /\
  (exists x : float,
     Calculated.step7ResinFt3 c1 = Some x /\
     Calculated.step7ResinFt3 c2 = Some x /\ (x <? x) = false) /\
  (exists x : float,
     Calculated.step8SaltLbsPerRegen c1 = Some x /\
     Calculated.step8SaltLbsPerRegen c2 = Some x /\ (x <? x) = false) /\
  (exists x : float,
     Calculated.step9BrineWaterGallons c1 = Some x /\
     Calculated.step9BrineWaterGallons c2 = Some x /\ (x <? x) = false).
Proof.
  vm_compute.
  repeat match goal with
    | |- _ /\ _ => split
    | |- exists x : float, Some ?v = Some x /\ _ => exists v
    | |- _ = _ => reflexivity
    end.
Qed.

(** * Further properties of the component *)

(** ** Reading an input *)

Lemma trimEnd_empty (s : string) : (trimEnd s =? "")%string = allWhiteSpace s.
Proof.
  destruct s as [ | c s]; [ reflexivity | ].
  cbn [trimEnd]. now destruct (allWhiteSpace (String c s)).
Qed.

(** The white space a string starts with does not tell whether the string
    is white space only. *)
Lemma allWhiteSpace_trimStart (s : string) :
  allWhiteSpace (trimStart s) = allWhiteSpace s.
Proof.
  assert (H : forall (n : nat) (s : string),
             (String.length s <= n)%nat ->
             allWhiteSpace (trimStart s) = allWhiteSpace s).
  { clear s. induction n as [ | n IH]; intros s Hn.
    - destruct s; [ reflexivity | cbn [String.length] in Hn; lia ].
    - destruct s as [ | c1 s1]; [ reflexivity | ].
      cbn [String.length] in Hn. cbn [trimStart].
      destruct (isWhiteSpace c1) eqn:E1.
      { rewrite IH by lia. cbn [allWhiteSpace]. now rewrite E1. }
      destruct s1 as [ | c2 s2]; [ reflexivity | ].
      cbn [String.length] in Hn.
      destruct (isWhiteSpace2 c1 c2) eqn:E2.
      { rewrite IH by lia. cbn [allWhiteSpace]. now rewrite E1, E2. }
      destruct s2 as [ | c3 s3]; [ reflexivity | ].
      cbn [String.length] in Hn.
      destruct (isWhiteSpace3 c1 c2 c3) eqn:E3; [ | reflexivity ].
      rewrite IH by lia. cbn [allWhiteSpace]. now rewrite E1, E2, E3. }
  exact (H (String.length s) s (le_n _)).
Qed.

(** A string trims to the empty string exactly when it holds white space
    only. *)
Lemma trim_empty (s : string) : (trim s =? "")%string = allWhiteSpace s.
Proof. unfold trim. now rewrite trimEnd_empty, allWhiteSpace_trimStart. Qed.

(** Trimming on sample strings: a no-break space (U+00A0) before and an em
    space (U+2003) after a number are stripped; a byte order mark, an
    ideographic space and a line separator (U+FEFF, U+3000, U+2028) make a
    blank string; the last byte of an a with grave accent (U+00E0, bytes
    [C3 A0]) and a zero width space (U+200B) are not white space.  A blank
    string converts to zero and yet parses to null. *)
Example trim_samples :
  let bytes := fold_right (fun n s => String (ascii_of_nat n) s) "" in
  let nbsp := bytes [194; 160]%nat in
  let emSpace := bytes [226; 128; 131]%nat in
  let blank := bytes [239; 187; 191; 227; 128; 128; 32; 226; 128; 168; 9]%nat in
  let aGrave := bytes [195; 160]%nat in
  let zeroWidthSpace := bytes [226; 128; 139]%nat in
  trim (nbsp ++ " 12.5" ++ emSpace) = "12.5" /\
  trim blank = "" /\ allWhiteSpace blank = true /\
  trim ("a b" ++ aGrave) = "a b" ++ aGrave /\
  trim zeroWidthSpace = zeroWidthSpace /\ allWhiteSpace zeroWidthSpace = false /\
  StringToNumber (nbsp ++ " 12.5" ++ emSpace) = 12.5 /\
  StringToNumber emSpace = 0 /\
  parseInputNumber StringToNumber emSpace = None /\
  parseInputNumber StringToNumber (nbsp ++ " 12.5" ++ emSpace) = Some 12.5.
Proof. vm_compute. repeat split. Qed.

(** X1. [parseInputNumber] gives a number exactly when the text is not
    blank and its conversion is finite, and then that conversion itself: a
    text of white space only (any of the white space and line terminators
    of the language, the empty text included) is null, whatever the
    conversion makes of it, and so is a text that converts to NaN or to an
    infinity. *)
Theorem parseInputNumber_blank_or_not_finite_is_null
  (Number : string -> float) (value : string) :
  (allWhiteSpace value = true -> parseInputNumber Number value = None) /\
  (is_finite (Number value) = false -> parseInputNumber Number value = None) /\
  (allWhiteSpace value = false -> is_finite (Number value) = true ->
   parseInputNumber Number value = Some (Number value)) /\
  (forall v : float,
     parseInputNumber Number value = Some v ->
     v = Number value /\ is_finite v = true /\ is_nan v = false /\
     allWhiteSpace value = false).
Proof.
  unfold parseInputNumber, Number_isFinite. rewrite trim_empty.
  destruct (allWhiteSpace value); destruct (is_finite (Number value)) eqn:E;
    (split; [ | split; [ | split ] ]); try discriminate; try reflexivity.
  intros v H. injection H as <-.
  repeat split; [ exact E | now apply is_finite_is_nan ].
Qed.

(** ** Which steps have a value *)

Section Presence.

Variable Number : string -> float.
Variable form : FormValues.t.

Lemma isPositive_Some (v : option float) :
  isPositive v = true -> exists x : float, v = Some x /\ (0 <? x) = true.
Proof. destruct v as [x | ]; [ | discriminate ]. intros H. now exists x. Qed.

Lemma step1_present :
  step1HardnessGpg Number form <> None <->
  isPositive (hardnessValue Number form) = true.
Proof.
  unfold step1HardnessGpg.
  destruct (hardnessValue Number form) as [h | ] eqn:E; cbn [isPositive].
  - destruct (0 <? h); split; intros H; congruence.
  - split; intros H; congruence.
Qed.

Lemma step2_present :
  step2DesignHardnessGpg Number form <> None <->
  isPositive (hardnessValue Number form) = true.
Proof.
  rewrite <- step1_present. unfold step2DesignHardnessGpg.
  destruct (step1HardnessGpg Number form); split; intros H; congruence.
Qed.

Lemma step3_present :
  step3GrainsPerDay Number form <> None <->
  isPositive (hardnessValue Number form) = true /\
  isPositive (gallonsPerDay Number form) = true.
Proof.
  rewrite <- step2_present. unfold step3GrainsPerDay.
  destruct (step2DesignHardnessGpg Number form);
    destruct (gallonsPerDay Number form) as [g | ]; cbn [isPositive];
    try destruct (0 <? g); split; try intros [H1 H2]; try intros H;
    try split; congruence.
Qed.

Lemma step4_present :
  step4RequiredGrainsPerRun Number form <> None <->
  isPositive (hardnessValue Number form) = true /\
  isPositive (gallonsPerDay Number form) = true /\
  isPositive (daysBetweenRegen Number form) = true.
Proof.
  unfold step4RequiredGrainsPerRun.
  pose proof step3_present as H3.
  destruct (step3GrainsPerDay Number form);
    destruct (daysBetweenRegen Number form) as [d | ]; cbn [isPositive];
    try destruct (0 <? d); split; try intros (H1 & H2 & H); try intros H;
    try congruence.
  - destruct H3 as [H3 _]. destruct H3; [ congruence | ]. now repeat split.
  - destruct H3 as [_ H3]. exfalso. now apply H3.
Qed.

Lemma saltDose_positive (d : SaltDose) : isPositive (Some (saltDoseValue d)) = true.
Proof. now destruct d. Qed.

Lemma requiredInputMissing_false :
  requiredInputMissing Number form = false <->
  isPositive (hardnessValue Number form) = true /\
  isPositive (gallonsPerDay Number form) = true /\
  isPositive (daysBetweenRegen Number form) = true /\
  isPositive (peakFlowGpm Number form) = true /\
  isPositive (serviceLoadingRate Number form) = true.
Proof.
  unfold requiredInputMissing. rewrite saltDose_positive.
  destruct (isPositive (hardnessValue Number form)),
    (isPositive (gallonsPerDay Number form)),
    (isPositive (daysBetweenRegen Number form)),
    (isPositive (peakFlowGpm Number form)),
    (isPositive (serviceLoadingRate Number form)); cbn; intuition congruence.
Qed.

Lemma step10_present :
  step10BedAreaFt2 Number form <> None <->
  reserveTooHigh Number form = false /\
  isPositive (peakFlowGpm Number form) = true /\
  isPositive (serviceLoadingRate Number form) = true.
Proof.
  unfold step10BedAreaFt2, step10. open_gate Number form.
  - split; [ congruence | intros (H & _); discriminate ].
  - destruct (peakFlowGpm Number form) as [p | ]; cbn [isPositive negb fst];
      [ destruct (0 <? p); cbn [negb fst] | ];
      try (split; [ congruence | intros (_ & H & _); discriminate ]).
    destruct (serviceLoadingRate Number form) as [s | ]; cbn [isPositive negb fst];
      [ destruct (0 <? s); cbn [negb fst] | ];
      try (split; [ congruence | intros (_ & _ & H); discriminate ]).
    split; [ now repeat split | congruence ].
Qed.

End Presence.

(** X2. Steps 1 to 4 have a value exactly when the inputs they read are
    positive numbers: steps 1 and 2 need the raw hardness, step 3 the
    gallons per day as well, step 4 the days between regenerations as
    well.  Nothing else (units, compensation, iron, manganese) can take
    their value away. *)
Theorem steps_1_to_4_present_iff_inputs_positive
  (Number : string -> float) (form : FormValues.t) :
  let c := calculated Number form in
  let positive field := isPositive (parseInputNumber Number field) = true in
  (Calculated.step1HardnessGpg c <> None <-> positive (FormValues.hardnessValue form)) /\
  (Calculated.step2DesignHardnessGpg c <> None <->
   positive (FormValues.hardnessValue form)) /\
  (Calculated.step3GrainsPerDay c <> None <->
   positive (FormValues.hardnessValue form) /\
   positive (FormValues.gallonsPerDay form)) /\
  (Calculated.step4RequiredGrainsPerRun c <> None <->
   positive (FormValues.hardnessValue form) /\
   positive (FormValues.gallonsPerDay form) /\
   positive (FormValues.daysBetweenRegen form)).
Proof.
  cbv zeta. cbn [calculated Calculated.step1HardnessGpg
    Calculated.step2DesignHardnessGpg Calculated.step3GrainsPerDay
    Calculated.step4RequiredGrainsPerRun].
  exact (conj (step1_present Number form)
          (conj (step2_present Number form)
             (conj (step3_present Number form) (step4_present Number form)))).
Qed.

(** X3. With the reserve below 100 (or blank), the "required input
    missing" flag is raised exactly when step 4 or step 10 has no value;
    the salt dose, which the flag also tests, never raises it. *)
Theorem requiredInputMissing_iff_step4_or_step10_null
  (Number : string -> float) (form : FormValues.t) :
  reserveTooHigh Number form = false ->
  let c := calculated Number form in
  Calculated.requiredInputMissing c = true <->
  Calculated.step4RequiredGrainsPerRun c = None \/ Calculated.step10BedAreaFt2 c = None.
Proof.
  intros Hgate. cbv zeta.
  cbn [calculated Calculated.requiredInputMissing
    Calculated.step4RequiredGrainsPerRun Calculated.step10BedAreaFt2].
  pose proof (requiredInputMissing_false Number form) as HM.
  pose proof (step4_present Number form) as H4.
  pose proof (step10_present Number form) as H10.
  destruct (requiredInputMissing Number form).
  - split; [ intros _ | reflexivity ].
    destruct (step4RequiredGrainsPerRun Number form) eqn:E4; [ | now left ].
    destruct (step10BedAreaFt2 Number form) eqn:E10; [ | now right ].
    exfalso.
    assert (A : false = true); [ | discriminate ].
    symmetry. apply HM.
    destruct H4 as [H4 _]. destruct H10 as [H10 _].
    destruct H4 as (? & ? & ?); [ congruence | ].
    destruct H10 as (? & ? & ?); [ congruence | ]. now repeat split.
  - split; [ discriminate | ]. intros H. exfalso.
    destruct HM as [HM _]. destruct (HM eq_refl) as (Hh & Hg & Hd & Hp & Hs).
    destruct H as [H | H].
    + apply H4; [ now repeat split | exact H ].
    + apply H10; [ now repeat split | exact H ].
Qed.

(** On scenario 1 the reserve is 15 and every input is positive: the flag
    is down, and steps 4 and 10 have values. *)
Lemma requiredInputMissing_iff_step4_or_step10_null_witness :
  let c := calculated StringToNumber scenario1 in
  Calculated.requiredInputMissing c = true <->
  Calculated.step4RequiredGrainsPerRun c = None \/ Calculated.step10BedAreaFt2 c = None.
Proof.
  apply (requiredInputMissing_iff_step4_or_step10_null StringToNumber scenario1).
  vm_compute. reflexivity.
Defined.

Section PresenceLater.

Variable Number : string -> float.
Variable form : FormValues.t.

Lemma step5_present :
  step5DesignGrainsPerRun Number form <> None <->
  step4RequiredGrainsPerRun Number form <> None /\
  exists r : float,
    reservePercent Number form = Some r /\ (r <? 0) = false /\ (100 <=? r) = false.
Proof.
  unfold step5DesignGrainsPerRun, step5, reserveBlockMessage, reserveTooHigh.
  destruct (reservePercent Number form) as [r | ].
  - destruct (100 <=? r) eqn:E100; cbn [truthy negb fst String.eqb].
    + split; [ congruence | ]. intros (_ & r' & Hr & _ & H). congruence.
    + destruct (step4RequiredGrainsPerRun Number form) as [s4 | ].
      * destruct (r <? 0) eqn:E0; cbn [fst].
        -- split; [ congruence | ]. intros (_ & r' & Hr & H & _). congruence.
        -- split; [ | congruence ]. intros _. split; [ congruence | ].
           now exists r.
      * cbn [fst]. split; [ congruence | ]. now intros (H & _).
  - cbn [truthy negb fst].
    destruct (step4RequiredGrainsPerRun Number form); cbn [fst];
      (split; [ congruence | ]); intros (_ & r' & Hr & _); discriminate.
Qed.

Lemma step6_present :
  step6CapacityPerFt3 Number form <> None <->
  reserveTooHigh Number form = false /\
  (FormValues.overrideCapacity form = true ->
   isPositive (overrideCapacityValue Number form) = true).
Proof.
  unfold step6CapacityPerFt3, step6. open_gate Number form.
  - split; [ congruence | intros (H & _); discriminate ].
  - destruct (FormValues.overrideCapacity form).
    + destruct (overrideCapacityValue Number form) as [v | ]; cbn [isPositive fst].
      * destruct (0 <? v); cbn [fst].
        -- split; [ now split | congruence ].
        -- split; [ congruence | ]. intros (_ & H). now specialize (H eq_refl).
      * split; [ congruence | ]. intros (_ & H). now specialize (H eq_refl).
    + cbn [fst]. split; [ | congruence ]. intros _. split; [ reflexivity | discriminate ].
Qed.

Lemma step7_present :
  step7ResinFt3 Number form <> None <->
  step5DesignGrainsPerRun Number form <> None /\
  step6CapacityPerFt3 Number form <> None.
Proof.
  split.
  - intros H. destruct (step7ResinFt3 Number form) as [v | ] eqn:E; [ | congruence ].
    destruct (step7_value Number form v E) as (s5 & s6 & H5 & H6 & _).
    rewrite H5, H6. split; discriminate.
  - intros (H5 & H6).
    pose proof (proj1 step6_present H6) as (Hgate & _).
    unfold step7ResinFt3, step7, reserveBlockMessage. rewrite Hgate.
    cbn [truthy negb].
    destruct (step5DesignGrainsPerRun Number form); [ | congruence ].
    destruct (step6CapacityPerFt3 Number form); [ | congruence ].
    discriminate.
Qed.

Lemma step8_present :
  step8SaltLbsPerRegen Number form <> None <-> step7ResinFt3 Number form <> None.
Proof.
  split.
  - intros H. destruct (step8SaltLbsPerRegen Number form) as [v | ] eqn:E; [ | congruence ].
    destruct (step8_value Number form v E) as (s7 & H7 & _).
    rewrite H7. discriminate.
  - intros H7.
    pose proof (proj1 step7_present H7) as (_ & H6).
    pose proof (proj1 step6_present H6) as (Hgate & _).
    unfold step8SaltLbsPerRegen, step8, reserveBlockMessage. rewrite Hgate.
    cbn [truthy negb].
    destruct (step7ResinFt3 Number form); [ discriminate | congruence ].
Qed.

Lemma step9_present :
  step9BrineWaterGallons Number form <> None <->
  step8SaltLbsPerRegen Number form <> None /\
  isPositive (saltDissolutionFactor Number form) = true.
Proof.
  split.
  - intros H.
    destruct (step9BrineWaterGallons Number form) as [v | ] eqn:E; [ | congruence ].
    destruct (step9_value Number form v E) as (s8 & f & H8 & Hf & Hpos & _).
    rewrite H8. unfold saltDissolutionFactor. rewrite Hf.
    split; [ discriminate | exact Hpos ].
  - intros (H8 & Hf).
    pose proof (proj1 step7_present (proj1 step8_present H8)) as (_ & H6).
    pose proof (proj1 step6_present H6) as (Hgate & _).
    unfold step9BrineWaterGallons, step9, reserveBlockMessage. rewrite Hgate.
    cbn [truthy negb].
    destruct (step8SaltLbsPerRegen Number form); [ | congruence ].
    rewrite Hf.
    destruct (saltDissolutionFactor Number form); [ discriminate | discriminate ].
Qed.

Lemma step11_present :
  (step11DiameterFt Number form <> None <-> step10BedAreaFt2 Number form <> None) /\
  (step11DiameterIn Number form <> None <-> step10BedAreaFt2 Number form <> None).
Proof.
  pose proof (step10_present Number form) as H10.
  unfold step11DiameterFt, step11DiameterIn, step11.
  destruct (step10BedAreaFt2 Number form) as [s10 | ].
  - destruct H10 as [H10 _]. destruct H10 as (Hgate & _); [ discriminate | ].
    unfold reserveBlockMessage. rewrite Hgate. cbn [truthy negb fst snd].
    split; split; discriminate.
  - split_matches; cbn [fst snd]; split; split; intros H; exact H.
Qed.

Lemma step12_present :
  step12BackwashFlowGpm Number form <> None <->
  step10BedAreaFt2 Number form <> None /\
  isPositive (backwashRate Number form) = true.
Proof.
  split.
  - intros H.
    destruct (step12BackwashFlowGpm Number form) as [v | ] eqn:E; [ | congruence ].
    destruct (step12_value Number form v E) as (s10 & b & H10 & Hb & Hpos & _).
    rewrite H10. unfold backwashRate. rewrite Hb.
    split; [ discriminate | exact Hpos ].
  - intros (H10 & Hb).
    pose proof (proj1 (step10_present Number form) H10) as (Hgate & _).
    unfold step12BackwashFlowGpm, step12, reserveBlockMessage. rewrite Hgate.
    cbn [truthy negb].
    destruct (step10BedAreaFt2 Number form); [ | congruence ].
    rewrite Hb.
    destruct (backwashRate Number form); [ discriminate | discriminate ].
Qed.

Lemma serviceLoadingError_positive :
  isPositive (serviceLoadingRate Number form) = true ->
  serviceLoadingError Number form = None.
Proof.
  unfold serviceLoadingError.
  destruct (serviceLoadingRate Number form) as [s | ]; [ | reflexivity ].
  cbn [isPositive]. intros H. now rewrite (ltb_true_leb_false _ _ H).
Qed.

End PresenceLater.

(** X4. Steps 5 to 12 have a value exactly when what they read is there:
    step 5 needs step 4 and a reserve from 0 up to, not including, 100;
    step 6 a reserve below 100 and, with the override on, a positive
    override value; step 7 needs steps 5 and 6; step 8 step 7; step 9
    step 8 and a positive dissolution factor; step 10 a reserve below 100
    and positive peak flow and loading rate; step 11 step 10; step 12
    step 10 and a positive backwash rate. *)
Theorem steps_5_to_12_present_iff
  (Number : string -> float) (form : FormValues.t) :
  let c := calculated Number form in
  let positive field := isPositive (parseInputNumber Number field) = true in
  (Calculated.step5DesignGrainsPerRun c <> None <->
   Calculated.step4RequiredGrainsPerRun c <> None /\
   exists r : float,
     parseInputNumber Number (FormValues.reservePercent form) = Some r /\
     (r <? 0) = false /\ (100 <=? r) = false) /\
  (Calculated.step6CapacityPerFt3 c <> None <->
   Calculated.reserveTooHigh c = false /\
   (FormValues.overrideCapacity form = true ->
    positive (FormValues.overrideCapacityValue form))) /\
  (Calculated.step7ResinFt3 c <> None <->
   Calculated.step5DesignGrainsPerRun c <> None /\
   Calculated.step6CapacityPerFt3 c <> None) /\
  (Calculated.step8SaltLbsPerRegen c <> None <-> Calculated.step7ResinFt3 c <> None) /\
  (Calculated.step9BrineWaterGallons c <> None <->
   Calculated.step8SaltLbsPerRegen c <> None /\
   positive (FormValues.saltDissolutionFactor form)) /\
  (Calculated.step10BedAreaFt2 c <> None <->
   Calculated.reserveTooHigh c = false /\
   positive (FormValues.peakFlowGpm form) /\
   positive (FormValues.serviceLoadingRate form)) /\
  (Calculated.step11DiameterFt c <> None <-> Calculated.step10BedAreaFt2 c <> None) /\
  (Calculated.step11DiameterIn c <> None <-> Calculated.step10BedAreaFt2 c <> None) /\
  (Calculated.step12BackwashFlowGpm c <> None <->
   Calculated.step10BedAreaFt2 c <> None /\ positive (FormValues.backwashRate form)).
Proof.
  cbv zeta. cbn [calculated Calculated.step4RequiredGrainsPerRun
    Calculated.step5DesignGrainsPerRun Calculated.step6CapacityPerFt3
    Calculated.step7ResinFt3 Calculated.step8SaltLbsPerRegen
    Calculated.step9BrineWaterGallons Calculated.step10BedAreaFt2
    Calculated.step11DiameterFt Calculated.step11DiameterIn
    Calculated.step12BackwashFlowGpm Calculated.reserveTooHigh].
  split; [ exact (step5_present Number form) | ].
  split; [ exact (step6_present Number form) | ].
  split; [ exact (step7_present Number form) | ].
  split; [ exact (step8_present Number form) | ].
  split; [ exact (step9_present Number form) | ].
  split; [ exact (step10_present Number form) | ].
  split; [ exact (proj1 (step11_present Number form)) | ].
  split; [ exact (proj2 (step11_present Number form)) | ].
  exact (step12_present Number form).
Qed.

(** X5. A form filled in completely (every required input a positive
    number, a reserve from 0 up to, not including, 100, and a positive
    override value if the override is on) gives every step a value and no
    step a message, and raises none of the three flags. *)
Theorem complete_inputs_give_every_step
  (Number : string -> float) (form : FormValues.t) (r : float) :
  let positive field := isPositive (parseInputNumber Number field) = true in
  positive (FormValues.hardnessValue form) ->
  positive (FormValues.gallonsPerDay form) ->
  positive (FormValues.daysBetweenRegen form) ->
  parseInputNumber Number (FormValues.reservePercent form) = Some r ->
  (r <? 0) = false -> (100 <=? r) = false ->
  (FormValues.overrideCapacity form = true ->
   positive (FormValues.overrideCapacityValue form)) ->
  positive (FormValues.saltDissolutionFactor form) ->
  positive (FormValues.peakFlowGpm form) ->
  positive (FormValues.serviceLoadingRate form) ->
  positive (FormValues.backwashRate form) ->
  let c := calculated Number form in
  (Calculated.requiredInputMissing c = false /\
   Calculated.reserveTooHigh c = false /\
   Calculated.serviceLoadingError c = None) /\
  (Calculated.step1HardnessGpg c <> None /\
   Calculated.step2DesignHardnessGpg c <> None /\
   Calculated.step3GrainsPerDay c <> None /\
   Calculated.step4RequiredGrainsPerRun c <> None /\
   Calculated.step5DesignGrainsPerRun c <> None /\
   Calculated.step6CapacityPerFt3 c <> None /\
   Calculated.step7ResinFt3 c <> None /\
   Calculated.step8SaltLbsPerRegen c <> None /\
   Calculated.step9BrineWaterGallons c <> None /\
   Calculated.step10BedAreaFt2 c <> None /\
   Calculated.step11DiameterFt c <> None /\
   Calculated.step11DiameterIn c <> None /\
   Calculated.step12BackwashFlowGpm c <> None) /\
  (Calculated.step5Message c = None /\
   Calculated.step6Message c = None /\
   Calculated.step7Message c = None /\
   Calculated.step8Message c = None /\
   Calculated.step9Message c = None /\
   Calculated.step10Message c = None /\
   Calculated.step11Message c = None /\
   Calculated.step12Message c = None).
Proof.
  cbv zeta. intros Hh Hg Hd Hr Hr0 Hr100 Ho Hf Hp Hs Hb.
  cbn [calculated Calculated.requiredInputMissing Calculated.reserveTooHigh
    Calculated.serviceLoadingError Calculated.step1HardnessGpg
    Calculated.step2DesignHardnessGpg Calculated.step3GrainsPerDay
    Calculated.step4RequiredGrainsPerRun
    Calculated.step5DesignGrainsPerRun Calculated.step6CapacityPerFt3
    Calculated.step7ResinFt3 Calculated.step8SaltLbsPerRegen
    Calculated.step9BrineWaterGallons Calculated.step10BedAreaFt2
    Calculated.step11DiameterFt Calculated.step11DiameterIn
    Calculated.step12BackwashFlowGpm Calculated.step5Message
    Calculated.step6Message Calculated.step7Message Calculated.step8Message
    Calculated.step9Message Calculated.step10Message Calculated.step11Message
    Calculated.step12Message].
  assert (Hgate : reserveTooHigh Number form = false)
    by (rewrite (reserveTooHigh_parsed Number form r Hr); exact Hr100).
  assert (H1 : step1HardnessGpg Number form <> None)
    by (apply step1_present; exact Hh).
  assert (H2 : step2DesignHardnessGpg Number form <> None)
    by (apply step2_present; exact Hh).
  assert (H3 : step3GrainsPerDay Number form <> None)
    by (apply step3_present; now split).
  assert (H4 : step4RequiredGrainsPerRun Number form <> None)
    by (apply step4_present; now repeat split).
  assert (H5 : step5DesignGrainsPerRun Number form <> None)
    by (apply step5_present; split; [ exact H4 | now exists r ]).
  assert (H6 : step6CapacityPerFt3 Number form <> None)
    by (apply step6_present; now split).
  assert (H7 : step7ResinFt3 Number form <> None)
    by (apply step7_present; now split).
  assert (H8 : step8SaltLbsPerRegen Number form <> None)
    by (apply step8_present; exact H7).
  assert (H9 : step9BrineWaterGallons Number form <> None)
    by (apply step9_present; now split).
  assert (H10 : step10BedAreaFt2 Number form <> None)
    by (apply step10_present; now repeat split).
  assert (H11 : step11DiameterFt Number form <> None)
    by (apply (proj1 (step11_present Number form)); exact H10).
  assert (H11' : step11DiameterIn Number form <> None)
    by (apply (proj2 (step11_present Number form)); exact H10).
  assert (H12 : step12BackwashFlowGpm Number form <> None)
    by (apply step12_present; now split).
  split; [ | split ].
  - split; [ | split ].
    + apply requiredInputMissing_false. now repeat split.
    + exact Hgate.
    + now apply serviceLoadingError_positive.
  - now repeat split.
  - split; [ exact (step5_exclusive Number form H5) | ].
    split; [ exact (step6_exclusive Number form H6) | ].
    split; [ exact (step7_exclusive Number form H7) | ].
    split; [ exact (step8_exclusive Number form H8) | ].
    split; [ exact (step9_exclusive Number form H9) | ].
    split; [ exact (step10_exclusive Number form H10) | ].
    split; [ exact (step11_exclusive Number form (or_introl H11)) | ].
    exact (step12_exclusive Number form H12).
Qed.

(** Scenario 1 is such a form, with a reserve of 15. *)
Lemma complete_inputs_give_every_step_witness :
  let c := calculated StringToNumber scenario1 in
  Calculated.requiredInputMissing c = false /\
  Calculated.step12BackwashFlowGpm c <> None /\
  Calculated.step12Message c = None.
Proof.
  pose proof (complete_inputs_give_every_step StringToNumber scenario1 15) as H.
  cbv zeta in H.
  specialize (H eq_refl eq_refl eq_refl eq_refl eq_refl eq_refl).
  assert (Ho : FormValues.overrideCapacity scenario1 = true ->
               isPositive (parseInputNumber StringToNumber
                             (FormValues.overrideCapacityValue scenario1)) = true)
    by (intros Ho; discriminate Ho).
  specialize (H Ho eq_refl eq_refl eq_refl eq_refl).
  destruct H as ((H1 & _) & H2 & H3).
  split; [ exact H1 | ]. split; [ apply H2 | apply H3 ].
Defined.

(** ** Messages *)

Section Messages.

Variable Number : string -> float.
Variable form : FormValues.t.

Lemma step5_silent :
  step5DesignGrainsPerRun Number form = None ->
  (step5Message Number form = None <->
   step4RequiredGrainsPerRun Number form = None /\ reserveTooHigh Number form = false).
Proof.
  unfold step5DesignGrainsPerRun, step5Message, step5. open_gate Number form.
  - intros _. split; [ discriminate | intros (_ & H); discriminate ].
  - destruct (step4RequiredGrainsPerRun Number form) as [s4 | ]; cbn [fst snd].
    + destruct (reservePercent Number form) as [r | ]; [ destruct (r <? 0) | ];
        cbn [fst snd]; intros H; try discriminate H;
        (split; [ discriminate | intros (H' & _); discriminate ]).
    + intros _. split; [ now split | reflexivity ].
Qed.

Lemma step6_explained :
  step6CapacityPerFt3 Number form = None -> step6Message Number form <> None.
Proof.
  unfold step6CapacityPerFt3, step6Message, step6. open_gate Number form;
    [ discriminate | ].
  destruct (FormValues.overrideCapacity form); [ | discriminate ].
  destruct (overrideCapacityValue Number form) as [v | ]; cbn [isPositive];
    [ destruct (0 <? v) | ]; cbn [fst snd]; discriminate.
Qed.

Lemma step7_explained :
  step7ResinFt3 Number form = None -> step7Message Number form <> None.
Proof.
  unfold step7ResinFt3, step7Message, step7. open_gate Number form;
    split_matches; cbn [fst snd]; discriminate.
Qed.

Lemma step8_explained :
  step8SaltLbsPerRegen Number form = None -> step8Message Number form <> None.
Proof.
  unfold step8SaltLbsPerRegen, step8Message, step8. open_gate Number form;
    split_matches; cbn [fst snd]; discriminate.
Qed.

Lemma step9_explained :
  step9BrineWaterGallons Number form = None -> step9Message Number form <> None.
Proof.
  unfold step9BrineWaterGallons, step9Message, step9. open_gate Number form;
    split_matches; cbn [fst snd]; discriminate.
Qed.

Lemma step10_explained :
  step10BedAreaFt2 Number form = None -> step10Message Number form <> None.
Proof.
  unfold step10BedAreaFt2, step10Message, step10. open_gate Number form;
    [ discriminate | ].
  destruct (peakFlowGpm Number form) as [p | ]; cbn [isPositive negb];
    [ destruct (0 <? p); cbn [negb] | ]; cbn [fst snd]; try discriminate.
  destruct (serviceLoadingRate Number form) as [s | ]; cbn [isPositive negb];
    [ destruct (0 <? s); cbn [negb] | ]; cbn [fst snd]; discriminate.
Qed.

Lemma truthy_step10Message :
  step10Message Number form <> None -> truthy (step10Message Number form) = true.
Proof.
  unfold step10Message, step10. open_gate Number form; [ reflexivity | ].
  split_matches; cbn [fst snd truthy]; intros H; try reflexivity; congruence.
Qed.

Lemma step11_explained :
  step11DiameterFt Number form = None \/ step11DiameterIn Number form = None ->
  step11Message Number form <> None.
Proof.
  intros H.
  assert (H10 : step10BedAreaFt2 Number form = None).
  { destruct (step10BedAreaFt2 Number form) eqn:E; [ exfalso | reflexivity ].
    assert (E' : step10BedAreaFt2 Number form <> None) by congruence.
    destruct H as [H | H].
    - now apply (proj2 (proj1 (step11_present Number form)) E').
    - now apply (proj2 (proj2 (step11_present Number form)) E'). }
  pose proof (truthy_step10Message (step10_explained H10)) as T.
  pose proof (step10_explained H10) as M.
  unfold step11Message, step11. rewrite H10, T.
  open_gate Number form; [ discriminate | exact M ].
Qed.

Lemma step12_explained :
  step12BackwashFlowGpm Number form = None -> step12Message Number form <> None.
Proof.
  unfold step12BackwashFlowGpm, step12Message, step12.
  destruct (step10BedAreaFt2 Number form) as [s10 | ] eqn:H10.
  - open_gate Number form; [ discriminate | ].
    split_matches; cbn [fst snd]; discriminate.
  - pose proof (truthy_step10Message (step10_explained H10)) as T.
    pose proof (step10_explained H10) as M.
    rewrite T. open_gate Number form; [ discriminate | intros _; exact M ].
Qed.

(** With the reserve gate open no block sets the reserve message. *)
Lemma open_steps_not_reserve_message :
  reserveTooHigh Number form = false ->
  step5Message Number form <> Some reserveBlockText /\
  step6Message Number form <> Some reserveBlockText /\
  step7Message Number form <> Some reserveBlockText /\
  step8Message Number form <> Some reserveBlockText /\
  step9Message Number form <> Some reserveBlockText /\
  step10Message Number form <> Some reserveBlockText /\
  step11Message Number form <> Some reserveBlockText /\
  step12Message Number form <> Some reserveBlockText.
Proof.
  intros Hgate.
  assert (H10 : step10Message Number form <> Some reserveBlockText).
  { unfold step10Message, step10, reserveBlockMessage. rewrite Hgate.
    cbn [truthy negb]. split_matches; cbn [fst snd]; discriminate. }
  unfold step5Message, step6Message, step7Message, step8Message, step9Message,
    step11Message, step12Message, step5, step6, step7, step8, step9, step11,
    step12, reserveBlockMessage.
  rewrite Hgate. cbn [truthy negb andb].
  repeat split; try exact H10; split_matches; cbn [fst snd];
    first [ discriminate | exact H10 ].
Qed.

(** From step 6 on a block leaves its value null exactly when it sets a
    message. *)
Lemma null_iff_message :
  (step6CapacityPerFt3 Number form = None <-> step6Message Number form <> None) /\
  (step7ResinFt3 Number form = None <-> step7Message Number form <> None) /\
  (step8SaltLbsPerRegen Number form = None <-> step8Message Number form <> None) /\
  (step9BrineWaterGallons Number form = None <-> step9Message Number form <> None) /\
  (step10BedAreaFt2 Number form = None <-> step10Message Number form <> None) /\
  (step11DiameterFt Number form = None <-> step11Message Number form <> None) /\
  (step11DiameterIn Number form = None <-> step11Message Number form <> None) /\
  (step12BackwashFlowGpm Number form = None <-> step12Message Number form <> None).
Proof.
  assert (contra : forall (v : option float) (m : option string),
             (v <> None -> m = None) -> m <> None -> v = None).
  { intros [v | ] m H Hm; [ | reflexivity ]. exfalso. apply Hm, H. discriminate. }
  split; [ | split; [ | split; [ | split; [ | split; [ | split; [ | split ] ] ] ] ] ].
  - split; [ apply step6_explained | apply contra, step6_exclusive ].
  - split; [ apply step7_explained | apply contra, step7_exclusive ].
  - split; [ apply step8_explained | apply contra, step8_exclusive ].
  - split; [ apply step9_explained | apply contra, step9_exclusive ].
  - split; [ apply step10_explained | apply contra, step10_exclusive ].
  - split; [ intros H; apply step11_explained; now left | ].
    apply contra. intros H. apply step11_exclusive. now left.
  - split; [ intros H; apply step11_explained; now right | ].
    apply contra. intros H. apply step11_exclusive. now right.
  - split; [ apply step12_explained | apply contra, step12_exclusive ].
Qed.

End Messages.

(** X6. From step 6 on, a step without a value always carries a message,
    and a step with a message never has a value; the two diameters of
    step 11 are there or missing together.  Step 5 alone can be null and
    silent, which it is exactly when step 4 is null and the reserve is
    below 100. *)
Theorem null_step_has_message_from_step_6
  (Number : string -> float) (form : FormValues.t) :
  let c := calculated Number form in
  (Calculated.step5DesignGrainsPerRun c = None /\ Calculated.step5Message c = None <->
   Calculated.step4RequiredGrainsPerRun c = None /\ Calculated.reserveTooHigh c = false) /\
  (Calculated.step6CapacityPerFt3 c = None <-> Calculated.step6Message c <> None) /\
  (Calculated.step7ResinFt3 c = None <-> Calculated.step7Message c <> None) /\
  (Calculated.step8SaltLbsPerRegen c = None <-> Calculated.step8Message c <> None) /\
  (Calculated.step9BrineWaterGallons c = None <-> Calculated.step9Message c <> None) /\
  (Calculated.step10BedAreaFt2 c = None <-> Calculated.step10Message c <> None) /\
  (Calculated.step11DiameterFt c = None <-> Calculated.step11Message c <> None) /\
  (Calculated.step11DiameterIn c = None <-> Calculated.step11Message c <> None) /\
  (Calculated.step12BackwashFlowGpm c = None <-> Calculated.step12Message c <> None).
Proof.
  calculated_fields.
  split; [ | exact (null_iff_message Number form) ].
  split.
  - intros (H5 & M5). now apply (step5_silent Number form H5).
  - intros (H4 & Hgate).
    assert (H5 : step5DesignGrainsPerRun Number form = None).
    { destruct (step5DesignGrainsPerRun Number form) eqn:E; [ exfalso | reflexivity ].
      assert (E' : step5DesignGrainsPerRun Number form <> None) by congruence.
      now apply (proj1 (proj1 (step5_present Number form) E')). }
    split; [ exact H5 | ]. now apply (step5_silent Number form H5).
Qed.

(** X7. The reserve flag and the messages agree: each of steps 5 to 12
    carries the reserve message exactly when the reserve flag is raised, so
    with the flag down every message a step shows is a different one. *)
Theorem reserve_message_iff_reserve_too_high
  (Number : string -> float) (form : FormValues.t) :
  let c := calculated Number form in
  (Calculated.step5Message c = Some reserveBlockText <-> Calculated.reserveTooHigh c = true) /\
  (Calculated.step6Message c = Some reserveBlockText <-> Calculated.reserveTooHigh c = true) /\
  (Calculated.step7Message c = Some reserveBlockText <-> Calculated.reserveTooHigh c = true) /\
  (Calculated.step8Message c = Some reserveBlockText <-> Calculated.reserveTooHigh c = true) /\
  (Calculated.step9Message c = Some reserveBlockText <-> Calculated.reserveTooHigh c = true) /\
  (Calculated.step10Message c = Some reserveBlockText <-> Calculated.reserveTooHigh c = true) /\
  (Calculated.step11Message c = Some reserveBlockText <-> Calculated.reserveTooHigh c = true) /\
  (Calculated.step12Message c = Some reserveBlockText <-> Calculated.reserveTooHigh c = true).
Proof.
  calculated_fields.
  destruct (reserveTooHigh Number form) eqn:Hgate.
  - destruct (blocked_steps Number form Hgate)
      as (H5 & H6 & H7 & H8 & H9 & H10 & H11 & H12).
    unfold step5Message, step6Message, step7Message, step8Message, step9Message,
      step10Message, step11Message, step12Message.
    rewrite H5, H6, H7, H8, H9, H10, H11, H12. cbn [snd].
    repeat split; reflexivity.
  - destruct (open_steps_not_reserve_message Number form Hgate)
      as (H5 & H6 & H7 & H8 & H9 & H10 & H11 & H12).
    repeat split; intros H; congruence.
Qed.

Lemma negative_not_too_high (r : float) : (r <? 0) = true -> (100 <=? r) = false.
Proof.
  intros H. destruct (100 <=? r) eqn:E; [ exfalso | reflexivity ].
  assert (H0 : (0 <=? r) = true)
    by (apply (leb_trans 0 100 r); [ reflexivity | reflexivity | exact E ]).
  rewrite (leb_true_ltb_false _ _ H0) in H. discriminate.
Qed.

(** X8. A negative reserve blocks step 5 and, through it, steps 7 to 9,
    without raising the reserve flag: step 5 says that the reserve cannot
    be negative (if step 4 has a value; otherwise it stays silent), and
    steps 7, 8 and 9 each ask for the step before. *)
Theorem negative_reserve_blocks_steps_5_and_7_to_9
  (Number : string -> float) (form : FormValues.t) (r : float) :
  parseInputNumber Number (FormValues.reservePercent form) = Some r ->
  (r <? 0) = true ->
  let c := calculated Number form in
  Calculated.reserveTooHigh c = false /\
  Calculated.step5DesignGrainsPerRun c = None /\
  (Calculated.step4RequiredGrainsPerRun c <> None ->
   Calculated.step5Message c = Some "Reserve Capacity cannot be negative.") /\
  (Calculated.step4RequiredGrainsPerRun c = None -> Calculated.step5Message c = None) /\
  (Calculated.step7ResinFt3 c = None /\
   Calculated.step7Message c = Some "Complete Steps 5 and 6 to calculate resin volume.") /\
  (Calculated.step8SaltLbsPerRegen c = None /\
   Calculated.step8Message c = Some "Complete Step 7 to calculate salt per regeneration.") /\
  (Calculated.step9BrineWaterGallons c = None /\
   Calculated.step9Message c = Some "Complete Step 8 to calculate brine refill water.").
Proof.
  intros Hr Hneg. calculated_fields.
  assert (Hgate : reserveTooHigh Number form = false)
    by (rewrite (reserveTooHigh_parsed Number form r Hr);
        now apply negative_not_too_high).
  assert (H5 : step5 Number form =
               (None, match step4RequiredGrainsPerRun Number form with
                      | Some _ => Some "Reserve Capacity cannot be negative."
                      | None => None
                      end)).
  { unfold step5, reserveBlockMessage. rewrite Hgate. cbn [truthy negb].
    unfold reservePercent. rewrite Hr, Hneg.
    now destruct (step4RequiredGrainsPerRun Number form). }
  assert (H7 : step7 Number form =
               (None, Some "Complete Steps 5 and 6 to calculate resin volume.")).
  { unfold step7, step5DesignGrainsPerRun, reserveBlockMessage.
    rewrite H5, Hgate. reflexivity. }
  assert (H8 : step8 Number form =
               (None, Some "Complete Step 7 to calculate salt per regeneration.")).
  { unfold step8, step7ResinFt3, reserveBlockMessage. rewrite H7, Hgate. reflexivity. }
  assert (H9 : step9 Number form =
               (None, Some "Complete Step 8 to calculate brine refill water.")).
  { unfold step9, step8SaltLbsPerRegen, reserveBlockMessage.
    rewrite H8, Hgate. reflexivity. }
  unfold step5DesignGrainsPerRun, step5Message, step7ResinFt3, step7Message,
    step8SaltLbsPerRegen, step8Message, step9BrineWaterGallons, step9Message.
  rewrite H5, H7, H8, H9. cbn [fst snd].
  split; [ exact Hgate | ]. split; [ reflexivity | ].
  split; [ | split; [ | now repeat split ] ].
  - destruct (step4RequiredGrainsPerRun Number form); [ reflexivity | congruence ].
  - intros H. now rewrite H.
Qed.

(** Scenario 1 with a reserve of -5. *)
Lemma negative_reserve_blocks_steps_5_and_7_to_9_witness :
  let c := calculated StringToNumber (setReservePercent "-5" scenario1) in
  Calculated.reserveTooHigh c = false /\
  Calculated.step5DesignGrainsPerRun c = None /\
  Calculated.step5Message c = Some "Reserve Capacity cannot be negative." /\
  Calculated.step9BrineWaterGallons c = None.
Proof.
  pose proof (negative_reserve_blocks_steps_5_and_7_to_9 StringToNumber
                (setReservePercent "-5" scenario1) (-5) eq_refl eq_refl) as H.
  cbv zeta in H.
  destruct H as (H1 & H2 & H3 & _ & _ & _ & H9 & _).
  split; [ exact H1 | ]. split; [ exact H2 | ]. split; [ | exact H9 ].
  apply H3. vm_compute. discriminate.
Defined.

(** X9. The service loading flag is raised only by a rate that is a
    number at or below zero.  Whenever it is raised, whatever the reserve
    and the peak flow, steps 10 to 12 have no value and carry a message,
    and the "required input missing" flag is raised with it. *)
Theorem service_loading_error_blocks_whatever_the_reserve
  (Number : string -> float) (form : FormValues.t) :
  let c := calculated Number form in
  Calculated.serviceLoadingError c <> None ->
  Calculated.serviceLoadingError c = Some serviceLoadingText /\
  (exists s : float,
     parseInputNumber Number (FormValues.serviceLoadingRate form) = Some s /\
     (s <=? 0) = true) /\
  Calculated.requiredInputMissing c = true /\
  (Calculated.step10BedAreaFt2 c = None /\ Calculated.step10Message c <> None) /\
  (Calculated.step11DiameterFt c = None /\ Calculated.step11DiameterIn c = None /\
   Calculated.step11Message c <> None) /\
  (Calculated.step12BackwashFlowGpm c = None /\ Calculated.step12Message c <> None).
Proof.
  calculated_fields. intros Herr.
  assert (Hs : exists s : float,
             serviceLoadingRate Number form = Some s /\ (s <=? 0) = true).
  { unfold serviceLoadingError in Herr.
    destruct (serviceLoadingRate Number form) as [s | ]; [ | congruence ].
    destruct (s <=? 0) eqn:E; [ now exists s | congruence ]. }
  destruct Hs as (s & Hs & Hle).
  assert (Hpos : isPositive (serviceLoadingRate Number form) = false)
    by (rewrite Hs; cbn [isPositive]; now apply leb_true_ltb_false).
  assert (H10 : step10BedAreaFt2 Number form = None).
  { destruct (step10BedAreaFt2 Number form) eqn:E; [ exfalso | reflexivity ].
    assert (E' : step10BedAreaFt2 Number form <> None) by congruence.
    destruct (proj1 (step10_present Number form) E') as (_ & _ & H). congruence. }
  assert (H11 : step11DiameterFt Number form = None).
  { destruct (step11DiameterFt Number form) eqn:E; [ exfalso | reflexivity ].
    assert (E' : step11DiameterFt Number form <> None) by congruence.
    now apply (proj1 (proj1 (step11_present Number form)) E'). }
  assert (H11' : step11DiameterIn Number form = None).
  { destruct (step11DiameterIn Number form) eqn:E; [ exfalso | reflexivity ].
    assert (E' : step11DiameterIn Number form <> None) by congruence.
    now apply (proj1 (proj2 (step11_present Number form)) E'). }
  assert (H12 : step12BackwashFlowGpm Number form = None).
  { destruct (step12BackwashFlowGpm Number form) eqn:E; [ exfalso | reflexivity ].
    assert (E' : step12BackwashFlowGpm Number form <> None) by congruence.
    now apply (proj1 (proj1 (step12_present Number form) E')). }
  split.
  { unfold serviceLoadingError. now rewrite Hs, Hle. }
  split; [ now exists s | ].
  split.
  { destruct (requiredInputMissing Number form) eqn:E; [ reflexivity | exfalso ].
    destruct (proj1 (requiredInputMissing_false Number form) E) as (_ & _ & _ & _ & H).
    congruence. }
  split; [ split; [ exact H10 | now apply step10_explained ] | ].
  split; [ split; [ exact H11 | split; [ exact H11' | ] ] | ].
  - apply step11_explained. now left.
  - split; [ exact H12 | now apply step12_explained ].
Qed.

(** Scenario 3 has a service loading rate of 0. *)
Lemma service_loading_error_blocks_whatever_the_reserve_witness :
  let c := calculated StringToNumber (setReservePercent "100" scenario3) in
  Calculated.requiredInputMissing c = true /\
  Calculated.step10BedAreaFt2 c = None /\ Calculated.step10Message c <> None.
Proof.
  pose proof (service_loading_error_blocks_whatever_the_reserve StringToNumber
                (setReservePercent "100" scenario3)) as H.
  cbv zeta in H.
  assert (E : Calculated.serviceLoadingError
                (calculated StringToNumber (setReservePercent "100" scenario3)) <> None)
    by (vm_compute; discriminate).
  destruct (H E) as (_ & _ & H1 & (H2 & H3) & _).
  split; [ exact H1 | ]. split; [ exact H2 | exact H3 ].
Defined.

(** ** How the values depend on the inputs *)

Section Values.

Variable Number : string -> float.
Variable form : FormValues.t.

Lemma step1_SFnn0 (v : float) :
  step1HardnessGpg Number form = Some v -> SFnn0 (Prim2SF v).
Proof.
  intros H. destruct (step1_value Number form v H) as (h & _ & _ & HP & ->).
  destruct (FormValues.hardnessUnits form).
  - apply div_SFnn0; [ exact HP | exact I ].
  - now apply SFpos_SFnn0.
Qed.

Lemma compensated_field_SFnn0 (field : string) :
  SFnn0 (Prim2SF (Math_max 0 (nullish (parseInputNumber Number field) 0))).
Proof.
  apply Math_max_0_SFnn0.
  destruct (parseInputNumber Number field) as [ v | ] eqn:E; cbn [nullish].
  - apply is_finite_is_nan. exact (parseInputNumber_finite Number field v E).
  - reflexivity.
Qed.

Lemma compensated_field_zero (field : string) :
  isPositive (parseInputNumber Number field) = false ->
  Math_max 0 (nullish (parseInputNumber Number field) 0) = 0.
Proof.
  destruct (parseInputNumber Number field) as [ v | ] eqn:E;
    cbn [nullish isPositive]; [ | reflexivity ].
  intros H. apply Math_max_0_not_positive; [ | exact H ].
  apply is_finite_is_nan. exact (parseInputNumber_finite Number field v E).
Qed.

Lemma compensation_SFnn0 :
  SFnn0 (Prim2SF (4 * (ironPpm Number form + manganesePpm Number form))).
Proof.
  apply mul_SFnn0; [ exact I | ].
  unfold ironPpm, manganesePpm.
  destruct (FormValues.useCompensation form);
    [ apply add_SFnn0; apply compensated_field_SFnn0 | exact I ].
Qed.

Lemma step2_value (v : float) :
  step2DesignHardnessGpg Number form = Some v ->
  exists s1 : float,
    step1HardnessGpg Number form = Some s1 /\
    v = if FormValues.useCompensation form
        then s1 + 4 * (ironPpm Number form + manganesePpm Number form)
        else s1.
Proof.
  unfold step2DesignHardnessGpg.
  destruct (step1HardnessGpg Number form) as [ s1 | ]; [ | discriminate ].
  intros H. injection H as <-. now exists s1.
Qed.

Lemma step3_value (v : float) :
  step3GrainsPerDay Number form = Some v ->
  exists s2 g : float,
    step2DesignHardnessGpg Number form = Some s2 /\
    parseInputNumber Number (FormValues.gallonsPerDay form) = Some g /\
    SFpos (Prim2SF g) /\ v = s2 * g.
Proof.
  unfold step3GrainsPerDay, gallonsPerDay.
  destruct (step2DesignHardnessGpg Number form) as [ s2 | ]; [ | discriminate ].
  destruct (parseInputNumber Number (FormValues.gallonsPerDay form)) as [ g | ] eqn:Eg;
    [ | now destruct (isPositive None) ].
  destruct (isPositive (Some g)) eqn:Hp; [ | discriminate ].
  rewrite <- Eg in Hp. destruct (isPositive_parsed Number _ g Eg Hp) as [H0 HP].
  intros H. injection H as <-. now exists s2, g.
Qed.

Lemma step4_value (v : float) :
  step4RequiredGrainsPerRun Number form = Some v ->
  exists s3 d : float,
    step3GrainsPerDay Number form = Some s3 /\
    parseInputNumber Number (FormValues.daysBetweenRegen form) = Some d /\
    SFpos (Prim2SF d) /\ v = s3 * d.
Proof.
  unfold step4RequiredGrainsPerRun, daysBetweenRegen.
  destruct (step3GrainsPerDay Number form) as [ s3 | ]; [ | discriminate ].
  destruct (parseInputNumber Number (FormValues.daysBetweenRegen form)) as [ d | ] eqn:Ed;
    [ | now destruct (isPositive None) ].
  destruct (isPositive (Some d)) eqn:Hp; [ | discriminate ].
  rewrite <- Ed in Hp. destruct (isPositive_parsed Number _ d Ed Hp) as [H0 HP].
  intros H. injection H as <-. now exists s3, d.
Qed.

End Values.

(** X10. The reserve never lowers the grains per run: step 5, when it has
    a value, is at least step 4, and with a reserve of zero it is step 4
    itself. *)
Theorem step5_at_least_step4
  (Number : string -> float) (form : FormValues.t) (s5 : float) :
  let c := calculated Number form in
  Calculated.step5DesignGrainsPerRun c = Some s5 ->
  exists s4 r : float,
    Calculated.step4RequiredGrainsPerRun c = Some s4 /\
    parseInputNumber Number (FormValues.reservePercent form) = Some r /\
    (s4 <=? s5) = true /\
    ((r =? 0) = true -> s5 = s4).
Proof.
  calculated_fields. intros H5.
  destruct (step5_value Number form s5 H5) as (s4 & r & H4 & Hr & Hneg & Hhigh & -> & Pd).
  exists s4, r.
  pose proof (step4_nonneg Number form s4 H4) as N4.
  pose proof (parseInputNumber_finite Number _ r Hr) as Fr.
  split; [ exact H4 | ]. split; [ exact Hr | ]. split.
  - rewrite <- (div_one s4 N4) at 1.
    apply div_anti_den; try assumption; [ exact I | ].
    now apply reserve_divisor_le_one.
  - intros H0. destruct (eqb_zero r H0) as [-> | ->].
    + change (1 - 0 / 100) with 1. now apply div_one.
    + change (1 - neg_zero / 100) with 1. now apply div_one.
Qed.

(** On scenario 1 step 5 is there, above step 4. *)
Lemma step5_at_least_step4_witness :
  exists s4 r : float,
    Calculated.step4RequiredGrainsPerRun (calculated StringToNumber scenario1) = Some s4 /\
    parseInputNumber StringToNumber (FormValues.reservePercent scenario1) = Some r /\
    (s4 <=? 300 / 17.1 * 10000 * 2 / (1 - 15 / 100)) = true /\
    ((r =? 0) = true -> 300 / 17.1 * 10000 * 2 / (1 - 15 / 100) = s4).
Proof.
  apply (step5_at_least_step4 StringToNumber scenario1).
  vm_compute. reflexivity.
Defined.

(** X11. The compensation never lowers the hardness: step 2 is at least
    step 1.  It is step 1 itself with the compensation off, and also with
    it on when neither the iron nor the manganese field holds a positive
    number (blank, not a number, zero or negative). *)
Theorem compensation_never_lowers_hardness
  (Number : string -> float) (form : FormValues.t) (s1 : float) :
  let c := calculated Number form in
  Calculated.step1HardnessGpg c = Some s1 ->
  exists s2 : float,
    Calculated.step2DesignHardnessGpg c = Some s2 /\
    (s1 <=? s2) = true /\
    (FormValues.useCompensation form = false -> s2 = s1) /\
    (isPositive (parseInputNumber Number (FormValues.ironPpm form)) = false ->
     isPositive (parseInputNumber Number (FormValues.manganesePpm form)) = false ->
     s2 = s1).
Proof.
  calculated_fields. intros H1.
  pose proof (step1_SFnn0 Number form s1 H1) as N1.
  unfold step2DesignHardnessGpg. rewrite H1.
  eexists. split; [ reflexivity | ].
  destruct (FormValues.useCompensation form) eqn:Ec.
  - split; [ apply add_increases; [ exact N1 | ] | split; [ discriminate | ] ].
    + pose proof (compensation_SFnn0 Number form) as Nc.
      unfold ironPpm, manganesePpm in Nc. rewrite Ec in Nc.
      unfold ironPpm, manganesePpm. now rewrite Ec.
    + intros Hfe Hmn. unfold ironPpm, manganesePpm. rewrite Ec.
      rewrite (compensated_field_zero Number _ Hfe),
        (compensated_field_zero Number _ Hmn).
      change (4 * (0 + 0)) with 0. now apply add_zero_r.
  - split; [ apply leb_refl; now apply SFnn0_nonneg | ]. split; reflexivity.
Qed.

(** Scenario 1 has the compensation off. *)
Lemma compensation_never_lowers_hardness_witness :
  exists s2 : float,
    Calculated.step2DesignHardnessGpg (calculated StringToNumber scenario1) = Some s2 /\
    (300 / 17.1 <=? s2) = true /\
    (FormValues.useCompensation scenario1 = false -> s2 = 300 / 17.1) /\
    (isPositive (parseInputNumber StringToNumber (FormValues.ironPpm scenario1)) = false ->
     isPositive (parseInputNumber StringToNumber (FormValues.manganesePpm scenario1)) = false ->
     s2 = 300 / 17.1).
Proof.
  apply (compensation_never_lowers_hardness StringToNumber scenario1).
  vm_compute. reflexivity.
Defined.

(** ** Two runs of the calculation *)

Section TwoForms.

Variable Number : string -> float.
Variables form1 form2 : FormValues.t.

Lemma step1_mono :
  FormValues.hardnessUnits form1 = FormValues.hardnessUnits form2 ->
  neverLower (parseInputNumber Number (FormValues.hardnessValue form1))
             (parseInputNumber Number (FormValues.hardnessValue form2)) ->
  neverLower (step1HardnessGpg Number form1) (step1HardnessGpg Number form2).
Proof.
  intros Eu Hh a b Ha Hb.
  destruct (step1_value Number form1 a Ha) as (h1 & E1 & P1 & _ & ->).
  destruct (step1_value Number form2 b Hb) as (h2 & E2 & _ & _ & ->).
  pose proof (Hh h1 h2 E1 E2) as Hle. rewrite Eu.
  destruct (FormValues.hardnessUnits form2); [ | exact Hle ].
  apply div_mono_num; [ now apply ltb0_leb0 | exact Hle | exact I ].
Qed.

Lemma compensation_same :
  FormValues.useCompensation form1 = FormValues.useCompensation form2 ->
  FormValues.ironPpm form1 = FormValues.ironPpm form2 ->
  FormValues.manganesePpm form1 = FormValues.manganesePpm form2 ->
  ironPpm Number form1 = ironPpm Number form2 /\
  manganesePpm Number form1 = manganesePpm Number form2.
Proof. intros Ec Ei Em. unfold ironPpm, manganesePpm. now rewrite Ec, Ei, Em. Qed.

Lemma step2_mono :
  FormValues.useCompensation form1 = FormValues.useCompensation form2 ->
  FormValues.ironPpm form1 = FormValues.ironPpm form2 ->
  FormValues.manganesePpm form1 = FormValues.manganesePpm form2 ->
  neverLower (step1HardnessGpg Number form1) (step1HardnessGpg Number form2) ->
  neverLower (step2DesignHardnessGpg Number form1) (step2DesignHardnessGpg Number form2).
Proof.
  intros Ec Ei Em H1 a b Ha Hb.
  destruct (step2_value Number form1 a Ha) as (x & Ex & ->).
  destruct (step2_value Number form2 b Hb) as (y & Ey & ->).
  destruct (compensation_same Ec Ei Em) as [-> ->]. rewrite Ec.
  pose proof (H1 x y Ex Ey) as Hle.
  destruct (FormValues.useCompensation form2); [ | exact Hle ].
  apply add_mono; try assumption.
  - exact (step1_SFnn0 Number form1 x Ex).
  - exact (step1_SFnn0 Number form2 y Ey).
  - apply compensation_SFnn0.
Qed.

Lemma step3_mono :
  neverLower (parseInputNumber Number (FormValues.gallonsPerDay form1))
             (parseInputNumber Number (FormValues.gallonsPerDay form2)) ->
  neverLower (step2DesignHardnessGpg Number form1) (step2DesignHardnessGpg Number form2) ->
  neverLower (step3GrainsPerDay Number form1) (step3GrainsPerDay Number form2).
Proof.
  intros Hg H2 a b Ha Hb.
  destruct (step3_value Number form1 a Ha) as (x & g1 & Ex & Eg1 & P1 & ->).
  destruct (step3_value Number form2 b Hb) as (y & g2 & Ey & Eg2 & P2 & ->).
  apply mul_mono_both; try assumption.
  - exact (step2_nonneg Number form1 x Ex).
  - exact (H2 x y Ex Ey).
  - exact (Hg g1 g2 Eg1 Eg2).
Qed.

Lemma step4_mono :
  neverLower (parseInputNumber Number (FormValues.daysBetweenRegen form1))
             (parseInputNumber Number (FormValues.daysBetweenRegen form2)) ->
  neverLower (step3GrainsPerDay Number form1) (step3GrainsPerDay Number form2) ->
  neverLower (step4RequiredGrainsPerRun Number form1)
             (step4RequiredGrainsPerRun Number form2).
Proof.
  intros Hd H3 a b Ha Hb.
  destruct (step4_value Number form1 a Ha) as (x & d1 & Ex & Ed1 & P1 & ->).
  destruct (step4_value Number form2 b Hb) as (y & d2 & Ey & Ed2 & P2 & ->).
  apply mul_mono_both; try assumption.
  - exact (step3_nonneg Number form1 x Ex).
  - exact (H3 x y Ex Ey).
  - exact (Hd d1 d2 Ed1 Ed2).
Qed.

Lemma step5_mono :
  FormValues.reservePercent form1 = FormValues.reservePercent form2 ->
  neverLower (step4RequiredGrainsPerRun Number form1)
             (step4RequiredGrainsPerRun Number form2) ->
  neverLower (step5DesignGrainsPerRun Number form1)
             (step5DesignGrainsPerRun Number form2).
Proof.
  intros Er H4 a b Ha Hb.
  destruct (step5_value Number form1 a Ha) as (x & r1 & Ex & Er1 & _ & _ & -> & P1).
  destruct (step5_value Number form2 b Hb) as (y & r2 & Ey & Er2 & _ & _ & -> & P2).
  rewrite Er, Er2 in Er1. injection Er1 as <-.
  apply div_mono_num; try assumption.
  - exact (step4_nonneg Number form1 x Ex).
  - exact (H4 x y Ex Ey).
Qed.

Lemma step7_mono :
  step6CapacityPerFt3 Number form1 = step6CapacityPerFt3 Number form2 ->
  neverLower (step5DesignGrainsPerRun Number form1)
             (step5DesignGrainsPerRun Number form2) ->
  neverLower (step7ResinFt3 Number form1) (step7ResinFt3 Number form2).
Proof.
  intros E6 H5 a b Ha Hb.
  destruct (step7_value Number form1 a Ha) as (x & c1 & Ex & Ec1 & ->).
  destruct (step7_value Number form2 b Hb) as (y & c2 & Ey & Ec2 & ->).
  destruct (step6_positive Number form2 c2 Ec2) as [_ P2].
  rewrite E6, Ec2 in Ec1. injection Ec1 as <-.
  apply div_mono_num; try assumption.
  - exact (step5_nonneg Number form1 x Ex).
  - exact (H5 x y Ex Ey).
Qed.

Lemma step8_mono :
  FormValues.saltDose form1 = FormValues.saltDose form2 ->
  neverLower (step7ResinFt3 Number form1) (step7ResinFt3 Number form2) ->
  neverLower (step8SaltLbsPerRegen Number form1) (step8SaltLbsPerRegen Number form2).
Proof.
  intros Ed H7 a b Ha Hb.
  destruct (step8_value Number form1 a Ha) as (x & Ex & ->).
  destruct (step8_value Number form2 b Hb) as (y & Ey & ->).
  rewrite Ed. apply mul_mono.
  - exact (step7_nonneg Number form1 x Ex).
  - exact (H7 x y Ex Ey).
  - apply saltDoseValue_SFpos.
Qed.

Lemma step9_mono :
  FormValues.saltDissolutionFactor form1 = FormValues.saltDissolutionFactor form2 ->
  neverLower (step8SaltLbsPerRegen Number form1) (step8SaltLbsPerRegen Number form2) ->
  neverLower (step9BrineWaterGallons Number form1) (step9BrineWaterGallons Number form2).
Proof.
  intros Ef H8 a b Ha Hb.
  destruct (step9_value Number form1 a Ha) as (x & f1 & Ex & Ef1 & _ & _ & ->).
  destruct (step9_value Number form2 b Hb) as (y & f2 & Ey & Ef2 & _ & P2 & ->).
  rewrite Ef, Ef2 in Ef1. injection Ef1 as <-.
  apply div_mono_num; try assumption.
  - exact (step8_nonneg Number form1 x Ex).
  - exact (H8 x y Ex Ey).
Qed.

Lemma step10_mono :
  neverLower (parseInputNumber Number (FormValues.peakFlowGpm form1))
             (parseInputNumber Number (FormValues.peakFlowGpm form2)) ->
  neverLower (parseInputNumber Number (FormValues.serviceLoadingRate form2))
             (parseInputNumber Number (FormValues.serviceLoadingRate form1)) ->
  neverLower (step10BedAreaFt2 Number form1) (step10BedAreaFt2 Number form2).
Proof.
  intros Hp Hs a b Ha Hb.
  destruct (step10_value Number form1 a Ha) as (p1 & s1 & Ep1 & Es1 & Pp1 & _ & Ps1 & ->).
  destruct (step10_value Number form2 b Hb) as (p2 & s2 & Ep2 & Es2 & _ & _ & Ps2 & ->).
  apply div_mono_both; try assumption.
  - now apply ltb0_leb0.
  - exact (Hp p1 p2 Ep1 Ep2).
  - exact (Hs s2 s1 Es2 Es1).
Qed.

Lemma diameter_mono (x y : float) :
  (0 <=? x) = true -> (x <=? y) = true ->
  (2 * Math_sqrt (x / Math_PI) <=? 2 * Math_sqrt (y / Math_PI)) = true /\
  (2 * Math_sqrt (x / Math_PI) * 12 <=? 2 * Math_sqrt (y / Math_PI) * 12) = true.
Proof.
  intros Hx Hle.
  assert (H1 : (0 <=? x / Math_PI) = true) by (apply div_nonneg; [ exact Hx | exact I ]).
  assert (H2 : (x / Math_PI <=? y / Math_PI) = true)
    by (apply div_mono_num; [ exact Hx | exact Hle | exact I ]).
  assert (H3 : (0 <=? Math_sqrt (x / Math_PI)) = true) by now apply sqrt_nonneg.
  assert (H4 : (Math_sqrt (x / Math_PI) <=? Math_sqrt (y / Math_PI)) = true)
    by now apply sqrt_mono.
  assert (H5 : (2 * Math_sqrt (x / Math_PI) <=? 2 * Math_sqrt (y / Math_PI)) = true)
    by (apply mul_mono_l; [ exact H3 | exact H4 | exact I ]).
  split; [ exact H5 | ].
  apply mul_mono; [ | exact H5 | exact I ].
  apply mul_nonneg_l; [ exact I | exact H3 ].
Qed.

Lemma step11_mono :
  neverLower (step10BedAreaFt2 Number form1) (step10BedAreaFt2 Number form2) ->
  neverLower (step11DiameterFt Number form1) (step11DiameterFt Number form2) /\
  neverLower (step11DiameterIn Number form1) (step11DiameterIn Number form2).
Proof.
  intros H10. split; intros a b Ha Hb.
  - destruct (step11_value Number form1 a a (or_introl Ha)) as (x & Ex & Fx & _).
    destruct (step11_value Number form2 b b (or_introl Hb)) as (y & Ey & Fy & _).
    rewrite Ha in Fx. rewrite Hb in Fy. injection Fx as ->. injection Fy as ->.
    apply diameter_mono; [ exact (step10_nonneg Number form1 x Ex) | exact (H10 x y Ex Ey) ].
  - destruct (step11_value Number form1 a a (or_intror Ha)) as (x & Ex & _ & Fx).
    destruct (step11_value Number form2 b b (or_intror Hb)) as (y & Ey & _ & Fy).
    rewrite Ha in Fx. rewrite Hb in Fy. injection Fx as ->. injection Fy as ->.
    apply diameter_mono; [ exact (step10_nonneg Number form1 x Ex) | exact (H10 x y Ex Ey) ].
Qed.

Lemma step12_mono :
  neverLower (parseInputNumber Number (FormValues.backwashRate form1))
             (parseInputNumber Number (FormValues.backwashRate form2)) ->
  neverLower (step10BedAreaFt2 Number form1) (step10BedAreaFt2 Number form2) ->
  neverLower (step12BackwashFlowGpm Number form1) (step12BackwashFlowGpm Number form2).
Proof.
  intros Hb' H10 a b Ha Hb.
  destruct (step12_value Number form1 a Ha) as (x & b1 & Ex & Eb1 & _ & P1 & ->).
  destruct (step12_value Number form2 b Hb) as (y & b2 & Ey & Eb2 & _ & P2 & ->).
  apply mul_mono_both; try assumption.
  - exact (step10_nonneg Number form1 x Ex).
  - exact (H10 x y Ex Ey).
  - exact (Hb' b1 b2 Eb1 Eb2).
Qed.

End TwoForms.

Lemma step6_frame (Number : string -> float) (form1 form2 : FormValues.t) :
  FormValues.reservePercent form1 = FormValues.reservePercent form2 ->
  FormValues.saltDose form1 = FormValues.saltDose form2 ->
  FormValues.overrideCapacity form1 = FormValues.overrideCapacity form2 ->
  FormValues.overrideCapacityValue form1 = FormValues.overrideCapacityValue form2 ->
  step6 Number form1 = step6 Number form2.
Proof.
  intros Er Ed Eo Ev.
  unfold step6, reserveBlockMessage, reserveTooHigh, reservePercent,
    overrideCapacityValue.
  now rewrite Er, Ed, Eo, Ev.
Qed.

(** X12. More demand never gives less: if the raw hardness, the gallons
    per day and the days between regenerations are each changed to a
    number that is not lower, then steps 1 to 5 and 7 to 9 are not lower
    either, whenever they have a value before and after. *)
Theorem more_demand_never_lowers_steps_1_to_9
  (Number : string -> float) (form : FormValues.t) (hardness gallons days : string) :
  let form' :=
    updateField (Field.hardnessValue hardness)
      (updateField (Field.gallonsPerDay gallons)
         (updateField (Field.daysBetweenRegen days) form)) in
  neverLower (parseInputNumber Number (FormValues.hardnessValue form))
             (parseInputNumber Number hardness) ->
  neverLower (parseInputNumber Number (FormValues.gallonsPerDay form))
             (parseInputNumber Number gallons) ->
  neverLower (parseInputNumber Number (FormValues.daysBetweenRegen form))
             (parseInputNumber Number days) ->
  let c := calculated Number form in
  let c' := calculated Number form' in
  neverLower (Calculated.step1HardnessGpg c) (Calculated.step1HardnessGpg c') /\
  neverLower (Calculated.step2DesignHardnessGpg c) (Calculated.step2DesignHardnessGpg c') /\
  neverLower (Calculated.step3GrainsPerDay c) (Calculated.step3GrainsPerDay c') /\
  neverLower (Calculated.step4RequiredGrainsPerRun c)
             (Calculated.step4RequiredGrainsPerRun c') /\
  neverLower (Calculated.step5DesignGrainsPerRun c)
             (Calculated.step5DesignGrainsPerRun c') /\
  neverLower (Calculated.step7ResinFt3 c) (Calculated.step7ResinFt3 c') /\
  neverLower (Calculated.step8SaltLbsPerRegen c) (Calculated.step8SaltLbsPerRegen c') /\
  neverLower (Calculated.step9BrineWaterGallons c) (Calculated.step9BrineWaterGallons c').
Proof.
  intros form' Hh Hg Hd. calculated_fields.
  assert (H1 : neverLower (step1HardnessGpg Number form) (step1HardnessGpg Number form'))
    by (apply step1_mono; [ now destruct form | now destruct form ]).
  assert (H2 : neverLower (step2DesignHardnessGpg Number form)
                          (step2DesignHardnessGpg Number form'))
    by (apply step2_mono; try exact H1; now destruct form).
  assert (H3 : neverLower (step3GrainsPerDay Number form) (step3GrainsPerDay Number form'))
    by (apply step3_mono; [ now destruct form | exact H2 ]).
  assert (H4 : neverLower (step4RequiredGrainsPerRun Number form)
                          (step4RequiredGrainsPerRun Number form'))
    by (apply step4_mono; [ now destruct form | exact H3 ]).
  assert (H5 : neverLower (step5DesignGrainsPerRun Number form)
                          (step5DesignGrainsPerRun Number form'))
    by (apply step5_mono; [ now destruct form | exact H4 ]).
  assert (H7 : neverLower (step7ResinFt3 Number form) (step7ResinFt3 Number form')).
  { apply step7_mono; [ | exact H5 ]. unfold step6CapacityPerFt3.
    f_equal. apply step6_frame; now destruct form. }
  assert (H8 : neverLower (step8SaltLbsPerRegen Number form)
                          (step8SaltLbsPerRegen Number form'))
    by (apply step8_mono; [ now destruct form | exact H7 ]).
  assert (H9 : neverLower (step9BrineWaterGallons Number form)
                          (step9BrineWaterGallons Number form'))
    by (apply step9_mono; [ now destruct form | exact H8 ]).
  now repeat split.
Qed.

(** Scenario 1 with the hardness raised from 300 to 400 and the days from
    2 to 3: the salt per regeneration does not go down. *)
Lemma more_demand_never_lowers_steps_1_to_9_witness :
  let form' :=
    updateField (Field.hardnessValue "400")
      (updateField (Field.gallonsPerDay "10000")
         (updateField (Field.daysBetweenRegen "3") scenario1)) in
  let a := 300 / 17.1 * 10000 * 2 / (1 - 15 / 100) / 22500 * 8 in
  let b := 400 / 17.1 * 10000 * 3 / (1 - 15 / 100) / 22500 * 8 in
  Calculated.step8SaltLbsPerRegen (calculated StringToNumber scenario1) = Some a /\
  Calculated.step8SaltLbsPerRegen (calculated StringToNumber form') = Some b /\
  (a <=? b) = true.
Proof.
  cbv zeta.
  assert (Ha : Calculated.step8SaltLbsPerRegen (calculated StringToNumber scenario1) =
               Some (300 / 17.1 * 10000 * 2 / (1 - 15 / 100) / 22500 * 8))
    by (vm_compute; reflexivity).
  assert (Hb : Calculated.step8SaltLbsPerRegen
                 (calculated StringToNumber
                    (updateField (Field.hardnessValue "400")
                       (updateField (Field.gallonsPerDay "10000")
                          (updateField (Field.daysBetweenRegen "3") scenario1)))) =
               Some (400 / 17.1 * 10000 * 3 / (1 - 15 / 100) / 22500 * 8))
    by (vm_compute; reflexivity).
  split; [ exact Ha | ]. split; [ exact Hb | ].
  destruct (more_demand_never_lowers_steps_1_to_9 StringToNumber scenario1
              "400" "10000" "3") as (_ & _ & _ & _ & _ & _ & H8 & _).
  - intros x y Hx Hy. vm_compute in Hx, Hy.
    injection Hx as <-. injection Hy as <-. vm_compute. reflexivity.
  - intros x y Hx Hy. vm_compute in Hx, Hy.
    injection Hx as <-. injection Hy as <-. vm_compute. reflexivity.
  - intros x y Hx Hy. vm_compute in Hx, Hy.
    injection Hx as <-. injection Hy as <-. vm_compute. reflexivity.
  - exact (H8 _ _ Ha Hb).
Defined.

(** X13. A peak flow that is not lower, a service loading rate that is
    not higher and a backwash rate that is not lower never lower the bed
    area, the two diameters or the backwash flow, whenever these have a
    value before and after. *)
Theorem more_flow_never_lowers_steps_10_to_12
  (Number : string -> float) (form : FormValues.t) (peak rate backwash : string) :
  let form' :=
    updateField (Field.peakFlowGpm peak)
      (updateField (Field.serviceLoadingRate rate)
         (updateField (Field.backwashRate backwash) form)) in
  neverLower (parseInputNumber Number (FormValues.peakFlowGpm form))
             (parseInputNumber Number peak) ->
  neverLower (parseInputNumber Number rate)
             (parseInputNumber Number (FormValues.serviceLoadingRate form)) ->
  neverLower (parseInputNumber Number (FormValues.backwashRate form))
             (parseInputNumber Number backwash) ->
  let c := calculated Number form in
  let c' := calculated Number form' in
  neverLower (Calculated.step10BedAreaFt2 c) (Calculated.step10BedAreaFt2 c') /\
  neverLower (Calculated.step11DiameterFt c) (Calculated.step11DiameterFt c') /\
  neverLower (Calculated.step11DiameterIn c) (Calculated.step11DiameterIn c') /\
  neverLower (Calculated.step12BackwashFlowGpm c) (Calculated.step12BackwashFlowGpm c').
Proof.
  intros form' Hp Hs Hb. calculated_fields.
  assert (H10 : neverLower (step10BedAreaFt2 Number form) (step10BedAreaFt2 Number form'))
    by (apply step10_mono; now destruct form).
  destruct (step11_mono Number form form' H10) as [H11 H11'].
  assert (H12 : neverLower (step12BackwashFlowGpm Number form)
                           (step12BackwashFlowGpm Number form'))
    by (apply step12_mono; [ now destruct form | exact H10 ]).
  now repeat split.
Qed.

(** Scenario 1 with the peak flow raised from 50 to 80 and the loading
    rate lowered from 7 to 5: the diameter in inches does not go down. *)
Lemma more_flow_never_lowers_steps_10_to_12_witness :
  let form' :=
    updateField (Field.peakFlowGpm "80")
      (updateField (Field.serviceLoadingRate "5")
         (updateField (Field.backwashRate "7") scenario1)) in
  let a := 2 * Math_sqrt (50 / 7 / Math_PI) * 12 in
  let b := 2 * Math_sqrt (80 / 5 / Math_PI) * 12 in
  Calculated.step11DiameterIn (calculated StringToNumber scenario1) = Some a /\
  Calculated.step11DiameterIn (calculated StringToNumber form') = Some b /\
  (a <=? b) = true.
Proof.
  cbv zeta.
  assert (Ha : Calculated.step11DiameterIn (calculated StringToNumber scenario1) =
               Some (2 * Math_sqrt (50 / 7 / Math_PI) * 12))
    by (vm_compute; reflexivity).
  assert (Hb : Calculated.step11DiameterIn
                 (calculated StringToNumber
                    (updateField (Field.peakFlowGpm "80")
                       (updateField (Field.serviceLoadingRate "5")
                          (updateField (Field.backwashRate "7") scenario1)))) =
               Some (2 * Math_sqrt (80 / 5 / Math_PI) * 12))
    by (vm_compute; reflexivity).
  split; [ exact Ha | ]. split; [ exact Hb | ].
  destruct (more_flow_never_lowers_steps_10_to_12 StringToNumber scenario1
              "80" "5" "7") as (_ & _ & H11 & _).
  - intros x y Hx Hy. vm_compute in Hx, Hy.
    injection Hx as <-. injection Hy as <-. vm_compute. reflexivity.
  - intros x y Hx Hy. vm_compute in Hx, Hy.
    injection Hx as <-. injection Hy as <-. vm_compute. reflexivity.
  - intros x y Hx Hy. vm_compute in Hx, Hy.
    injection Hx as <-. injection Hy as <-. vm_compute. reflexivity.
  - exact (H11 _ _ Ha Hb).
Defined.

(** ** Editing the form *)

(** X14. [updateField] writes one field and only that one: the field
    reads back as written, every field under another key reads as before,
    writing what is already there changes nothing, a second write under
    the same key wins, and writes under different keys commute. *)
Theorem updateField_writes_one_field :
  (forall (field : Field.t) (form : FormValues.t),
     readField field (updateField field form) = field) /\
  (forall (field other : Field.t) (form : FormValues.t),
     Field.key field <> Field.key other ->
     readField other (updateField field form) = readField other form) /\
  (forall (field : Field.t) (form : FormValues.t),
     updateField (readField field form) form = form) /\
  (forall (first second : Field.t) (form : FormValues.t),
     Field.key first = Field.key second ->
     updateField second (updateField first form) = updateField second form) /\
  (forall (first second : Field.t) (form : FormValues.t),
     Field.key first <> Field.key second ->
     updateField second (updateField first form) =
     updateField first (updateField second form)).
Proof.
  split; [ | split; [ | split; [ | split ] ] ].
  - intros field form. destruct form, field; reflexivity.
  - intros field other form H. destruct form, field, other;
      try reflexivity; exfalso; apply H; reflexivity.
  - intros field form. destruct form, field; reflexivity.
  - intros first second form H. destruct form, first, second;
      try reflexivity; discriminate H.
  - intros first second form H. destruct form, first, second;
      try reflexivity; exfalso; apply H; reflexivity.
Qed.

(** The reserve edits of the statements above are [updateField] on the
    reserve key. *)
Lemma setReservePercent_updateField (value : string) (form : FormValues.t) :
  setReservePercent value form = updateField (Field.reservePercent value) form.
Proof. now destruct form. Qed.

(** X15. Which edits can reach which steps.  Steps 1 to 4 read only the
    hardness, its units, the compensation switch, iron, manganese, the
    gallons per day and the days between regenerations: an edit of any
    other field leaves them as they are.  Steps 10 to 12, values and
    messages, read only the reserve, the peak flow, the service loading
    rate and the backwash rate. *)
Theorem edits_reach_only_the_steps_that_read_them
  (Number : string -> float) (form : FormValues.t) (field : Field.t) :
  let c := calculated Number form in
  let c' := calculated Number (updateField field form) in
  match field with
  | Field.hardnessValue _ | Field.hardnessUnits _ | Field.useCompensation _
  | Field.ironPpm _ | Field.manganesePpm _ | Field.gallonsPerDay _
  | Field.daysBetweenRegen _ => True
  | _ =>
      Calculated.step1HardnessGpg c' = Calculated.step1HardnessGpg c /\
      Calculated.step2DesignHardnessGpg c' = Calculated.step2DesignHardnessGpg c /\
      Calculated.step3GrainsPerDay c' = Calculated.step3GrainsPerDay c /\
      Calculated.step4RequiredGrainsPerRun c' = Calculated.step4RequiredGrainsPerRun c
  end /\
  match field with
  | Field.reservePercent _ | Field.peakFlowGpm _ | Field.serviceLoadingRate _
  | Field.backwashRate _ => True
  | _ =>
      Calculated.serviceLoadingError c' = Calculated.serviceLoadingError c /\
      Calculated.step10BedAreaFt2 c' = Calculated.step10BedAreaFt2 c /\
      Calculated.step10Message c' = Calculated.step10Message c /\
      Calculated.step11DiameterFt c' = Calculated.step11DiameterFt c /\
      Calculated.step11DiameterIn c' = Calculated.step11DiameterIn c /\
      Calculated.step11Message c' = Calculated.step11Message c /\
      Calculated.step12BackwashFlowGpm c' = Calculated.step12BackwashFlowGpm c /\
      Calculated.step12Message c' = Calculated.step12Message c
  end.
Proof.
  calculated_fields.
  destruct form, field; split; try exact I; repeat split; reflexivity.
Qed.

(** ** The switches *)

(** X16. A click on a switch flips its field and nothing else, so two
    clicks return the form to where it was, and the two switches do not
    interfere; a disabled switch never calls back. *)
Theorem switch_click_toggles :
  (forall form : FormValues.t,
     clickCompensation form =
     updateField (Field.useCompensation (negb (FormValues.useCompensation form))) form) /\
  (forall form : FormValues.t,
     clickOverrideCapacity form =
     updateField (Field.overrideCapacity (negb (FormValues.overrideCapacity form))) form) /\
  (forall form : FormValues.t, clickCompensation (clickCompensation form) = form) /\
  (forall form : FormValues.t,
     clickOverrideCapacity (clickOverrideCapacity form) = form) /\
  (forall form : FormValues.t,
     clickCompensation (clickOverrideCapacity form) =
     clickOverrideCapacity (clickCompensation form)) /\
  (forall checked : bool, Switch_onClick true checked = None).
Proof.
  repeat split.
  - intros form. destruct form as [? ? [ | ] ? ? ? ? ? ? ? ? ? ? ? ?]; reflexivity.
  - intros form. destruct form as [? ? ? ? ? ? ? ? ? [ | ] ? ? ? ? ?]; reflexivity.
  - intros form. destruct form as [? ? [ | ] ? ? ? ? ? ? [ | ] ? ? ? ? ?]; reflexivity.
Qed.

(** ** What the page shows *)

Lemma occurs_app (c : ascii) (a b : string) :
  occurs c (a ++ b) = occurs c a || occurs c b.
Proof.
  induction a as [ | c' a IH]; cbn [append occurs]; [ reflexivity | ].
  rewrite IH. now rewrite orb_assoc.
Qed.

Section Shown.

Variable Intl_NumberFormat_format : Z -> float -> string.

Lemma formatResult_Some (v : float) (unit : string) (decimals : Z) :
  formatResult Intl_NumberFormat_format (Some v) unit decimals <> placeholder.
Proof.
  intros H. apply (f_equal (occurs " "%char)) in H.
  cbn [formatResult] in H. rewrite !occurs_app in H. cbn in H.
  rewrite orb_true_r in H. discriminate H.
Qed.

Lemma formatResult_placeholder (value : option float) (unit : string) (decimals : Z) :
  formatResult Intl_NumberFormat_format value unit decimals = placeholder <->
  value = None.
Proof.
  destruct value as [v | ]; split; intros H; try reflexivity; try discriminate H.
  now apply formatResult_Some in H.
Qed.

Lemma step11Result_placeholder (c : Calculated.t) :
  step11Result Intl_NumberFormat_format c = placeholder <->
  Calculated.step11DiameterFt c = None \/ Calculated.step11DiameterIn c = None.
Proof.
  unfold step11Result.
  destruct (Calculated.step11DiameterFt c) as [ft | ];
    [ destruct (Calculated.step11DiameterIn c) as [inches | ] | ].
  - split; [ intros H; exfalso | intros [H | H]; discriminate H ].
    apply (f_equal (occurs " "%char)) in H.
    rewrite !occurs_app in H. cbn in H. rewrite orb_true_r in H. discriminate H.
  - split; [ now right | reflexivity ].
  - split; [ now left | reflexivity ].
Qed.

Lemma card_of_step (value : option float) (message : option string)
                   (unit : string) (decimals : Z) :
  (value = None <-> message <> None) -> message <> Some "" ->
  StepCard (formatResult Intl_NumberFormat_format value unit decimals) message =
  match message with
  | Some text => ShowsMessage text
  | None => ShowsResult false (formatResult Intl_NumberFormat_format value unit decimals)
  end.
Proof.
  intros Hiff Hne. unfold StepCard.
  destruct message as [text | ].
  - destruct (String.eqb_spec text ""); [ congruence | reflexivity ].
  - destruct value as [v | ]; [ | exfalso; now apply (proj1 Hiff) ].
    destruct (String.eqb_spec (formatResult Intl_NumberFormat_format (Some v) unit decimals)
                placeholder) as [E | E]; [ | reflexivity ].
    now apply formatResult_Some in E.
Qed.

End Shown.

Section NotEmpty.

Variable Number : string -> float.
Variable form : FormValues.t.

(** No block sets an empty message, so a message is truthy exactly when it
    is there. *)
Lemma messages_not_empty :
  step5Message Number form <> Some "" /\
  step6Message Number form <> Some "" /\
  step7Message Number form <> Some "" /\
  step8Message Number form <> Some "" /\
  step9Message Number form <> Some "" /\
  step10Message Number form <> Some "" /\
  step11Message Number form <> Some "" /\
  step12Message Number form <> Some "".
Proof.
  assert (H10 : step10Message Number form <> Some "").
  { unfold step10Message, step10. open_gate Number form;
      split_matches; cbn [fst snd]; discriminate. }
  unfold step5Message, step6Message, step7Message, step8Message, step9Message,
    step11Message, step12Message, step5, step6, step7, step8, step9, step11, step12.
  split; [ | split; [ | split; [ | split; [ | split; [ | split; [ | split ] ] ] ] ] ];
    try exact H10; open_gate Number form; split_matches; cbn [fst snd];
    first [ discriminate | exact H10 ].
Qed.

End NotEmpty.

(** X17. [formatResult] shows the placeholder dash exactly for a value
    that is not there, whatever the number formatting gives; so does the
    result of the card of step 11, which needs both diameters. *)
Theorem placeholder_shown_exactly_for_null
  (Intl_NumberFormat_format : Z -> float -> string) :
  (forall (value : option float) (unit : string) (decimals : Z),
     formatResult Intl_NumberFormat_format value unit decimals = placeholder <->
     value = None) /\
  (forall c : Calculated.t,
     step11Result Intl_NumberFormat_format c = placeholder <->
     Calculated.step11DiameterFt c = None \/ Calculated.step11DiameterIn c = None).
Proof.
  split.
  - apply formatResult_placeholder.
  - apply step11Result_placeholder.
Qed.

(** X18. The cards of steps 6 to 12 never show the placeholder: each
    shows its message if the step has one, and otherwise the formatted
    value, not muted. *)
Theorem cards_6_to_12_show_message_or_value
  (Number : string -> float) (Intl_NumberFormat_format : Z -> float -> string)
  (form : FormValues.t) :
  let c := calculated Number form in
  let shows (value : option float) (message : option string)
            (unit : string) (decimals : Z) :=
    match message with
    | Some text => ShowsMessage text
    | None => ShowsResult false (formatResult Intl_NumberFormat_format value unit decimals)
    end in
  skipn 5 (stepCards Intl_NumberFormat_format c) =
  [ shows (Calculated.step6CapacityPerFt3 c) (Calculated.step6Message c)
      "grains per cubic foot" 0%Z;
    shows (Calculated.step7ResinFt3 c) (Calculated.step7Message c) "ft³" 2%Z;
    shows (Calculated.step8SaltLbsPerRegen c) (Calculated.step8Message c) "pounds" 2%Z;
    shows (Calculated.step9BrineWaterGallons c) (Calculated.step9Message c) "gallons" 2%Z;
    shows (Calculated.step10BedAreaFt2 c) (Calculated.step10Message c) "ft²" 2%Z;
    match Calculated.step11Message c with
    | Some text => ShowsMessage text
    | None => ShowsResult false (step11Result Intl_NumberFormat_format c)
    end;
    shows (Calculated.step12BackwashFlowGpm c) (Calculated.step12Message c)
      "gallons per minute" 2%Z ] /\
  Forall (fun card => forall muted : bool, card <> ShowsResult muted placeholder)
         (skipn 5 (stepCards Intl_NumberFormat_format c)).
Proof.
  cbv zeta.
  pose proof (null_iff_message Number form) as H.
  pose proof (messages_not_empty Number form) as N.
  revert H N. unfold stepCards. calculated_fields.
  intros (H6 & H7 & H8 & H9 & H10 & H11 & H11' & H12)
         (_ & N6 & N7 & N8 & N9 & N10 & N11 & N12).
  cbn [skipn].
  rewrite (card_of_step _ _ _ _ _ H6 N6), (card_of_step _ _ _ _ _ H7 N7),
    (card_of_step _ _ _ _ _ H8 N8), (card_of_step _ _ _ _ _ H9 N9),
    (card_of_step _ _ _ _ _ H10 N10), (card_of_step _ _ _ _ _ H12 N12).
  assert (E11 : StepCard (step11Result Intl_NumberFormat_format (calculated Number form))
                  (step11Message Number form) =
                match step11Message Number form with
                | Some text => ShowsMessage text
                | None => ShowsResult false
                            (step11Result Intl_NumberFormat_format (calculated Number form))
                end).
  { unfold StepCard. destruct (step11Message Number form) as [text | ] eqn:E.
    - destruct (String.eqb_spec text ""); [ congruence | reflexivity ].
    - destruct (String.eqb_spec
                  (step11Result Intl_NumberFormat_format (calculated Number form))
                  placeholder) as [P | P]; [ exfalso | reflexivity ].
      apply step11Result_placeholder in P. revert P. calculated_fields.
      intros [P | P]; [ now apply H11 in P | now apply H11' in P ]. }
  rewrite E11. split; [ reflexivity | ].
  assert (shown : forall (value : option float) (message : option string)
                         (unit : string) (decimals : Z) (muted : bool),
             (value = None <-> message <> None) ->
             match message with
             | Some text => ShowsMessage text
             | None => ShowsResult false
                         (formatResult Intl_NumberFormat_format value unit decimals)
             end <> ShowsResult muted placeholder).
  { intros value message unit decimals muted Hiff.
    destruct message; [ discriminate | ].
    destruct value as [v | ]; [ | exfalso; now apply (proj1 Hiff) ].
    intros E. injection E as _ E. now apply formatResult_Some in E. }
  repeat constructor; intros muted; try now apply shown.
  destruct (step11Message Number form) eqn:E; [ discriminate | ].
  intros P. injection P as _ P.
  apply step11Result_placeholder in P. revert P. calculated_fields.
  intros [P | P]; [ now apply H11 in P | now apply H11' in P ].
Qed.

(** X19. With the reserve at or above 100 the summary to copy still
    reports the design hardness, and shows the placeholder for the resin
    volume, the salt, the brine water, the tank diameter and the backwash
    flow. *)
Theorem summary_under_reserve_block
  (Number : string -> float) (Intl_NumberFormat_format : Z -> float -> string)
  (form : FormValues.t) :
  reserveTooHigh Number form = true ->
  let c := calculated Number form in
  summaryText Intl_NumberFormat_format c =
  String.concat (String (ascii_of_nat 10) EmptyString)
    [ "Industrial Water Softener Sizer Summary";
      "Design hardness: " ++
        formatResult Intl_NumberFormat_format (Calculated.step2DesignHardnessGpg c)
          "grains per gallon" 2;
      "Resin volume: —";
      "Salt per regeneration: —";
      "Estimated brine refill water: —";
      "Minimum tank diameter estimate: —";
      "Required backwash flow: —" ].
Proof.
  intros Hgate. cbv zeta.
  destruct (blocked_steps Number form Hgate) as (_ & _ & H7 & H8 & H9 & _ & H11 & H12).
  unfold summaryText, summaryLines. calculated_fields.
  unfold step7ResinFt3, step8SaltLbsPerRegen, step9BrineWaterGallons,
    step11DiameterIn, step12BackwashFlowGpm.
  rewrite H7, H8, H9, H11, H12. reflexivity.
Qed.

(** Scenario 1 with a reserve of 100, and a formatting that prints every
    number as a question mark. *)
Lemma summary_under_reserve_block_witness :
  let c := calculated StringToNumber (setReservePercent "100" scenario1) in
  summaryText (fun _ _ => "?") c =
  String.concat (String (ascii_of_nat 10) EmptyString)
    [ "Industrial Water Softener Sizer Summary";
      "Design hardness: ? grains per gallon";
      "Resin volume: —";
      "Salt per regeneration: —";
      "Estimated brine refill water: —";
      "Minimum tank diameter estimate: —";
      "Required backwash flow: —" ].
Proof.
  cbv zeta.
  rewrite (summary_under_reserve_block StringToNumber (fun _ _ => "?")
             (setReservePercent "100" scenario1));
    vm_compute; reflexivity.
Defined.

(** X20. The reserve reaches steps 6 and 10 to 12 only through the gate
    at 100: two reserve entries that both leave the gate open (below 100,
    negative, blank or not a number) give the same capacity, bed area,
    diameters and backwash flow, with the same messages. *)
Theorem reserve_below_100_leaves_steps_6_and_10_to_12
  (Number : string -> float) (form : FormValues.t) (reserve1 reserve2 : string) :
  let form1 := updateField (Field.reservePercent reserve1) form in
  let form2 := updateField (Field.reservePercent reserve2) form in
  reserveTooHigh Number form1 = false ->
  reserveTooHigh Number form2 = false ->
  let c1 := calculated Number form1 in
  let c2 := calculated Number form2 in
  (Calculated.step6CapacityPerFt3 c1 = Calculated.step6CapacityPerFt3 c2 /\
   Calculated.step6Message c1 = Calculated.step6Message c2) /\
  (Calculated.step10BedAreaFt2 c1 = Calculated.step10BedAreaFt2 c2 /\
   Calculated.step10Message c1 = Calculated.step10Message c2) /\
  (Calculated.step11DiameterFt c1 = Calculated.step11DiameterFt c2 /\
   Calculated.step11DiameterIn c1 = Calculated.step11DiameterIn c2 /\
   Calculated.step11Message c1 = Calculated.step11Message c2) /\
  (Calculated.step12BackwashFlowGpm c1 = Calculated.step12BackwashFlowGpm c2 /\
   Calculated.step12Message c1 = Calculated.step12Message c2).
Proof.
  intros form1 form2 H1 H2. calculated_fields.
  assert (E6 : step6 Number form1 = step6 Number form2).
  { unfold step6, reserveBlockMessage. rewrite H1, H2. now destruct form. }
  assert (E10 : step10 Number form1 = step10 Number form2).
  { unfold step10, reserveBlockMessage. rewrite H1, H2. now destruct form. }
  assert (E11 : step11 Number form1 = step11 Number form2).
  { unfold step11, step10BedAreaFt2, step10Message, reserveBlockMessage.
    now rewrite H1, H2, E10. }
  assert (E12 : step12 Number form1 = step12 Number form2).
  { unfold step12, step10BedAreaFt2, step10Message, reserveBlockMessage.
    rewrite H1, H2, E10. now destruct form. }
  unfold step6CapacityPerFt3, step6Message, step10BedAreaFt2, step10Message,
    step11DiameterFt, step11DiameterIn, step11Message, step12BackwashFlowGpm,
    step12Message.
  rewrite E6, E10, E11, E12. now repeat split.
Qed.

(** Scenario 1 with a reserve of -5 and with a blank reserve: the bed area
    is the same. *)
Lemma reserve_below_100_leaves_steps_6_and_10_to_12_witness :
  Calculated.step10BedAreaFt2
    (calculated StringToNumber (updateField (Field.reservePercent "-5") scenario1)) =
  Calculated.step10BedAreaFt2
    (calculated StringToNumber (updateField (Field.reservePercent "") scenario1)).
Proof.
  apply (reserve_below_100_leaves_steps_6_and_10_to_12 StringToNumber scenario1 "-5" "");
    vm_compute; reflexivity.
Defined.
